(** * voice-qa: the per-session voice pipeline

    A shallow embedding of the Python sources

      - [core/connection.py]   (ConnectionHandler.chat, ConnectionHandler.close)
      - [core/tts/base.py]     (TTSProviderBase.to_tts, to_tts_stream)
      - [core/asr/fun_local.py] (ASRProvider.speech_to_text_from_audio_file,
                                 speech_to_text_from_audio_stream)
      - [app.py]               (process_voice_query)

    and the properties of the pipeline specification that concern them.

    Conventions.  The filesystem is a finite set of paths.  Every call to
    an external collaborator (language model, synthesis engine, recognition
    engine, disk queries) is answered by an oracle supplied by the caller of
    the model, so that a theorem quantifies over every behaviour of the
    collaborator.  A Python function that may raise returns an [outcome]. *)

From stdpp Require Import gmap strings list.
From Stdlib Require Import Ascii String Lia.

Open Scope string_scope.

(** ** Python values the sources rely on *)

Module Py.

(** The exception classes the handlers of the sources tell apart.
    [FileNotFoundError] is a subclass of [OSError]; all five are subclasses
    of [Exception].  [OSError] stands for any OSError that is not a
    FileNotFoundError, [RuntimeError] for any other [Exception]. *)
Inductive exn : Type :=
| FileNotFoundError
| OSError
| ValueError
| AttributeError
| RuntimeError.

(** [isinstance(e, OSError)] *)
Definition is_OSError (e : exn) : bool :=
  match e with
  | FileNotFoundError | OSError => true
  | _ => false
  end.

(** [isinstance(e, FileNotFoundError)] *)
Definition is_FileNotFoundError (e : exn) : bool :=
  match e with
  | FileNotFoundError => true
  | _ => false
  end.

(** What a call does: it returns a value or raises. *)
Inductive outcome (A : Type) : Type :=
| Returned (a : A)
| Raised (e : exn).
Arguments Returned {A} a.
Arguments Raised {A} e.

(** An attribute of an object: [self.x] raises AttributeError when the
    attribute was never assigned. *)
Inductive attr (A : Type) : Type :=
| Missing
| Present (a : A).
Arguments Missing {A}.
Arguments Present {A} a.

Definition bytes : Type := list Byte.byte.

(** The filesystem: the set of paths that exist. *)
Abbreviation filesystem := (gset string).

(** [os.path.exists(p)] *)
Definition exists_ (fs : filesystem) (p : string) : bool :=
  bool_decide (p ∈ fs).

(** [os.remove(p)] on an existing path. *)
Definition remove (fs : filesystem) (p : string) : filesystem :=
  fs ∖ {[p]}.

(** A file is created (or overwritten) at [p]. *)
Definition create (fs : filesystem) (p : string) : filesystem :=
  {[p]} ∪ fs.

(** [c.lower()] on one ASCII character. *)
Definition lower_ascii (c : ascii) : ascii :=
  let n := nat_of_ascii c in
  if (65 <=? n)%nat && (n <=? 90)%nat then ascii_of_nat (n + 32) else c.

(** [s.lower()] (ASCII strings). *)
Fixpoint lower (s : string) : string :=
  match s with
  | EmptyString => EmptyString
  | String c s' => String (lower_ascii c) (lower s')
  end.

(** [s.startswith(c)] and [s.endswith(c)] for a one-character [c]. *)
Definition startswith_char (s : string) (c : ascii) : bool :=
  match s with
  | String a _ => Ascii.eqb a c
  | EmptyString => false
  end.

Fixpoint endswith_char (s : string) (c : ascii) : bool :=
  match s with
  | EmptyString => false
  | String a EmptyString => Ascii.eqb a c
  | String _ s' => endswith_char s' c
  end.

(** [os.path.join(a, b)] (posixpath). *)
Definition join (a b : string) : string :=
  if startswith_char b "/" then b
  else if String.eqb a "" || endswith_char a "/" then a ++ b
  else a ++ "/" ++ b.

(** [p.rfind(c)] as an option: the index of the last occurrence of [c]. *)
Fixpoint rfind (p : string) (c : ascii) : option nat :=
  match p with
  | EmptyString => None
  | String a p' =>
      match rfind p' c with
      | Some i => Some (S i)
      | None => if Ascii.eqb a c then Some 0%nat else None
      end
  end.

(** [p[i:]] *)
Fixpoint drop_str (i : nat) (p : string) : string :=
  match i, p with
  | O, _ => p
  | S i', String _ p' => drop_str i' p'
  | S _, EmptyString => EmptyString
  end.

(** The inner loop of [genericpath._splitext]: is there a character other
    than the dot between [filenameIndex] and [dotIndex]? *)
Fixpoint has_non_dot (n : nat) (p : string) : bool :=
  match n, p with
  | O, _ => false
  | S n', String a p' => if Ascii.eqb a "." then has_non_dot n' p' else true
  | S _, EmptyString => false
  end.

(** [os.path.splitext(p)[1]] (posixpath): the extension starts at the last
    dot of the last path component, leading dots of that component apart. *)
Definition splitext_ext (p : string) : string :=
  let filenameIndex :=
    match rfind p "/" with Some i => S i | None => 0%nat end in
  match rfind p "." with
  | Some dotIndex =>
      if (filenameIndex <=? dotIndex)%nat
         && has_non_dot (dotIndex - filenameIndex) (drop_str filenameIndex p)
      then drop_str dotIndex p
      else ""
  | None => ""
  end.

(** [os.path.basename(p)] (posixpath): what follows the last slash. *)
Definition basename (p : string) : string :=
  match rfind p "/" with
  | Some i => drop_str (S i) p
  | None => p
  end.

(** [not s] for an [Optional[str]]: None and the empty string are falsy. *)
Definition falsy (s : option string) : bool :=
  match s with
  | None => true
  | Some t => String.eqb t ""
  end.

End Py.

Import Py.

(** ** core/connection.py *)

Module Connection.

Inductive Role : Type := user | assistant.

Record Message : Type := { role : Role; content : string }.

(** Modelled from the spec: the class [Dialogue] of [core.utils.dialogue]
    is not among the sources.  The dialogue is the ordered, append-only
    sequence of messages. *)
Definition Dialogue : Type := list Message.

(** Modelled from the spec: [Dialogue.put] is not among the sources; it
    appends the message, insertion order being the conversational order. *)
Definition put (d : Dialogue) (m : Message) : Dialogue := (d ++ [m])%list.

(** Modelled from the spec: [Dialogue.get_llm_dialogue_with_memory] is not
    among the sources; without memory the model is handed the full
    dialogue history. *)
Definition get_llm_dialogue_with_memory (d : Dialogue) : Dialogue := d.

(** One [next()] on the generator returned by [llm.response]: it yields a
    fragment (which may be None) or raises.  [abort_seen] is the value of
    [self.client_abort] read by line 76 in the iteration that receives the
    fragment: the flag is written by whoever shares the handler. *)
Inductive pull : Type :=
| Yield (fragment : option string) (abort_seen : bool)
| GenRaise (e : exn).

(** The generator: its pulls in order; the end of the list is
    StopIteration. *)
Definition stream : Type := list pull.

(** [llm.response(session_id, dialogue)]: the call returns a generator or
    raises. *)
Definition LLM : Type := string -> Dialogue -> outcome stream.

(** [tts.close()] as the handler sees it. *)
Record TTSHandle : Type := { tts_close : option exn }.

(** [executor.shutdown(wait=False)] as the handler sees it. *)
Record Executor : Type := { shutdown : option exn }.

(** The fields of a [ConnectionHandler] that [chat] and [close] touch.
    [client_abort], [stop_event] and [executor] are attributes that
    [__init__] may or may not have assigned.  A present [stop_event] is
    None or an Event whose flag is the boolean; a present [executor] is
    None or a thread pool. *)
Record ConnectionHandler : Type := {
  session_id : string;
  tts : option TTSHandle;
  llm_finish_task : bool;
  dialogue : Dialogue;
  sentence_id : option string;
  tts_MessageText : string;
  client_abort : attr bool;
  stop_event : attr (option bool);
  executor : attr (option Executor)
}.

(** [ConnectionHandler.__init__]: lines 26-29, which would assign
    [stop_event] and [executor], are commented out. *)
Definition init (uuid4 : string) (_tts : option TTSHandle) : ConnectionHandler :=
  {| session_id := uuid4;
     tts := _tts;
     llm_finish_task := true;
     dialogue := [];
     sentence_id := None;
     tts_MessageText := "";
     client_abort := Missing;
     stop_event := Missing;
     executor := Missing |}.

(** The value [chat] returns: [None] or [True]. *)
Inductive chat_value : Type := RetNone | RetTrue.

(** [not result] as the callers of [chat] test it. *)
Definition reports_failure (r : outcome chat_value) : bool :=
  match r with
  | Returned RetTrue => false
  | _ => true
  end.

(** How the [for content in llm_responses] loop ends: the fragments kept,
    the number of fragments requested, the value of [client_abort] at its
    last read, and the exception raised by the generator if any. *)
Record consumed : Type := {
  response_message : list string;
  pulled : nat;
  last_flag : bool;
  loop_raised : option exn
}.

(** Lines 75-83.  [acc] is [response_message], [n] counts the fragments
    requested from the generator.  The local [emotion_flag] has no
    effect outside the loop and is left out. *)
Fixpoint consume (s : stream) (acc : list string) (n : nat) : consumed :=
  match s with
  | [] =>
      {| response_message := acc; pulled := n; last_flag := false;
         loop_raised := None |}
  | GenRaise e :: _ =>
      {| response_message := acc; pulled := S n; last_flag := false;
         loop_raised := Some e |}
  | Yield c flag :: rest =>
      if flag then
        {| response_message := acc; pulled := S n; last_flag := true;
           loop_raised := None |}
      else
        match c with
        | Some t =>
            if (0 <? String.length t)%nat
            then consume rest (acc ++ [t])%list (S n)
            else consume rest acc (S n)
        | None => consume rest acc (S n)
        end
  end.

(** ["".join(response_message)] *)
Definition join_all (l : list string) : string :=
  fold_right String.append "" l.

(** What one call of [chat] did. *)
Record chat_run : Type := {
  conn_after : ConnectionHandler;
  result : outcome chat_value;
  llm_calls : nat;
  chunks_requested : nat
}.

Definition set_dialogue (c : ConnectionHandler) (d : Dialogue) : ConnectionHandler :=
  {| session_id := session_id c; tts := tts c;
     llm_finish_task := llm_finish_task c; dialogue := d;
     sentence_id := sentence_id c; tts_MessageText := tts_MessageText c;
     client_abort := client_abort c; stop_event := stop_event c;
     executor := executor c |}.

Definition set_llm_finish_task (c : ConnectionHandler) (b : bool) : ConnectionHandler :=
  {| session_id := session_id c; tts := tts c;
     llm_finish_task := b; dialogue := dialogue c;
     sentence_id := sentence_id c; tts_MessageText := tts_MessageText c;
     client_abort := client_abort c; stop_event := stop_event c;
     executor := executor c |}.

Definition set_sentence_id (c : ConnectionHandler) (s : string) : ConnectionHandler :=
  {| session_id := session_id c; tts := tts c;
     llm_finish_task := llm_finish_task c; dialogue := dialogue c;
     sentence_id := Some s; tts_MessageText := tts_MessageText c;
     client_abort := client_abort c; stop_event := stop_event c;
     executor := executor c |}.

Definition set_tts_MessageText (c : ConnectionHandler) (s : string) : ConnectionHandler :=
  {| session_id := session_id c; tts := tts c;
     llm_finish_task := llm_finish_task c; dialogue := dialogue c;
     sentence_id := sentence_id c; tts_MessageText := s;
     client_abort := client_abort c; stop_event := stop_event c;
     executor := executor c |}.

Definition set_client_abort (c : ConnectionHandler) (b : bool) : ConnectionHandler :=
  {| session_id := session_id c; tts := tts c;
     llm_finish_task := llm_finish_task c; dialogue := dialogue c;
     sentence_id := sentence_id c; tts_MessageText := tts_MessageText c;
     client_abort := Present b; stop_event := stop_event c;
     executor := executor c |}.

(** [ConnectionHandler.chat(query, depth)], lines 49-98.  [uuid_hex] is the
    value of [uuid.uuid4().hex] should line 55 run. *)
Definition chat (llm : LLM) (uuid_hex : string) (self : ConnectionHandler)
    (query : string) (depth : nat) : chat_run :=
  let self := set_llm_finish_task self false in
  let self :=
    match depth with
    | O => set_dialogue (set_sentence_id self uuid_hex)
             (put (dialogue self) {| role := user; content := query |})
    | S _ => self
    end in
  match llm (session_id self) (get_llm_dialogue_with_memory (dialogue self)) with
  | Raised _ =>
      {| conn_after := self; result := Returned RetNone;
         llm_calls := 1; chunks_requested := 0 |}
  | Returned llm_responses =>
      let self := set_client_abort self false in
      let c := consume llm_responses [] 0 in
      let self := set_client_abort self (last_flag c) in
      match loop_raised c with
      | Some e =>
          {| conn_after := self; result := Raised e;
             llm_calls := 1; chunks_requested := pulled c |}
      | None =>
          let self :=
            match response_message c with
            | [] => self
            | _ :: _ =>
                let text_buff := join_all (response_message c) in
                set_dialogue (set_tts_MessageText self text_buff)
                  (put (dialogue self)
                       {| role := assistant; content := text_buff |})
            end in
          {| conn_after := set_llm_finish_task self true;
             result := Returned RetTrue;
             llm_calls := 1; chunks_requested := pulled c |}
      end
  end.

Definition is_assistant (m : Message) : bool :=
  match role m with
  | assistant => true
  | user => false
  end.

(** The contents of the assistant messages of a dialogue, in order. *)
Definition assistant_messages (d : Dialogue) : list string :=
  List.map content (List.filter is_assistant d).

(** The history [chat] hands to the language model: the prompt is appended
    for a top-level call only. *)
Definition history_sent (self : ConnectionHandler) (query : string) (depth : nat)
  : Dialogue :=
  match depth with
  | O => put (dialogue self) {| role := user; content := query |}
  | S _ => dialogue self
  end.

(** A pull during which no abort is seen and nothing is raised. *)
Definition calm (p : pull) : bool :=
  match p with
  | Yield _ false => true
  | _ => false
  end.

(** The non-empty fragments among the pulls. *)
Fixpoint kept (s : stream) : list string :=
  match s with
  | [] => []
  | Yield (Some t) _ :: rest =>
      if (0 <? String.length t)%nat then t :: kept rest else kept rest
  | _ :: rest => kept rest
  end.

(** A pull that brings no text: None or the empty string, whatever the
    abort flag; a raising generator is not one. *)
Definition blank (p : pull) : bool :=
  match p with
  | Yield None _ => true
  | Yield (Some t) _ => (String.length t =? 0)%nat
  | GenRaise _ => false
  end.

(** A turn that brings no text: the invocation raises, or the stream
    yields no non-empty fragment. *)
Definition silent_turn (llm : LLM) (self : ConnectionHandler) (query : string)
    (depth : nat) : bool :=
  match llm (session_id self) (history_sent self query depth) with
  | Raised _ => true
  | Returned s => forallb blank s
  end.

(** The turn is aborted: the flag is seen set at some pull, every pull
    before it being calm. *)
Definition aborted_at (llm : LLM) (self : ConnectionHandler) (query : string)
    (depth : nat) (pre : stream) : Prop :=
  exists c rest,
    llm (session_id self) (history_sent self query depth)
      = Returned (pre ++ Yield c true :: rest)%list
    /\ forallb calm pre = true.

(** The turn reports failure and appends no assistant message. *)
Definition fails_without_reply (self : ConnectionHandler) (run : chat_run) : Prop :=
  reports_failure (result run) = true
  /\ assistant_messages (dialogue (conn_after run))
     = assistant_messages (dialogue self).

(** The assistant message that a list of kept fragments becomes. *)
Definition reply_of (fragments : list string) : list string :=
  match fragments with
  | [] => []
  | _ :: _ => [join_all fragments]
  end.

(** The cleanup calls that [close] issues. *)
Inductive close_step : Type :=
| StopSignal      (* stop_event.set() *)
| SynthRelease    (* tts.close() *)
| PoolShutdown.   (* executor.shutdown(wait=False) *)

Definition set_stop_event (c : ConnectionHandler) (v : attr (option bool)) : ConnectionHandler :=
  {| session_id := session_id c; tts := tts c;
     llm_finish_task := llm_finish_task c; dialogue := dialogue c;
     sentence_id := sentence_id c; tts_MessageText := tts_MessageText c;
     client_abort := client_abort c; stop_event := v;
     executor := executor c |}.

Definition set_executor (c : ConnectionHandler) (v : attr (option Executor)) : ConnectionHandler :=
  {| session_id := session_id c; tts := tts c;
     llm_finish_task := llm_finish_task c; dialogue := dialogue c;
     sentence_id := sentence_id c; tts_MessageText := tts_MessageText c;
     client_abort := client_abort c; stop_event := stop_event c;
     executor := v |}.

(** Lines 104-105 and again 124-125:
    [if self.stop_event: self.stop_event.set()]. *)
Definition signal_stop (self : ConnectionHandler)
  : outcome (ConnectionHandler * list close_step) :=
  match stop_event self with
  | Missing => Raised AttributeError
  | Present None => Returned (self, [])
  | Present (Some _) =>
      Returned (set_stop_event self (Present (Some true)), [StopSignal])
  end.

(** Lines 107-108: [if self.tts: await self.tts.close()]. *)
Definition release_tts (self : ConnectionHandler) : outcome (list close_step) :=
  match tts self with
  | None => Returned []
  | Some t =>
      match tts_close t with
      | None => Returned [SynthRelease]
      | Some e => Raised e
      end
  end.

(** Lines 111-118: the pool shutdown with its own handler; the result
    carries the number of errors logged by that handler. *)
Definition shutdown_pool (self : ConnectionHandler)
  : outcome (ConnectionHandler * list close_step * nat) :=
  match executor self with
  | Missing => Raised AttributeError
  | Present None => Returned (self, [], 0%nat)
  | Present (Some ex) =>
      Returned (set_executor self (Present None), [PoolShutdown],
                match shutdown ex with Some _ => 1%nat | None => 0%nat end)
  end.

(** The body of the [try], lines 103-120: the handler after it, the calls
    issued, the errors logged inside, and the exception that left it. *)
Definition close_try (self : ConnectionHandler)
  : ConnectionHandler * list close_step * nat * option exn :=
  match signal_stop self with
  | Raised e => (self, [], 0%nat, Some e)
  | Returned (self1, s1) =>
      match release_tts self1 with
      | Raised e => (self1, (s1 ++ [SynthRelease])%list, 0%nat, Some e)
      | Returned s2 =>
          match shutdown_pool self1 with
          | Raised e => (self1, (s1 ++ s2)%list, 0%nat, Some e)
          | Returned (self2, s3, logged) =>
              (self2, (s1 ++ s2 ++ s3)%list, logged, None)
          end
      end
  end.

(** What one call of [close] did. *)
Record close_run : Type := {
  closed : ConnectionHandler;
  close_result : outcome unit;
  steps : list close_step;
  errors_logged : nat
}.

(** [ConnectionHandler.close], lines 100-125: the [try], the
    [except Exception] that logs, and the [finally] that signals the stop
    event once more. *)
Definition close (self : ConnectionHandler) : close_run :=
  let '(self1, issued, logged, err) := close_try self in
  let logged := (logged + match err with Some _ => 1 | None => 0 end)%nat in
  match signal_stop self1 with
  | Raised e =>
      {| closed := self1; close_result := Raised e;
         steps := issued; errors_logged := logged |}
  | Returned (self2, s) =>
      {| closed := self2; close_result := Returned tt;
         steps := (issued ++ s)%list; errors_logged := logged |}
  end.

End Connection.

(** ** core/tts/base.py *)

Module TTS.

(** What one call of the abstract [text_to_speak(text, output_file)] does:
    it returns (audio bytes or None) or raises, and in either case it may
    have left a file at [output_file]. *)
Inductive speak : Type :=
| SpeakReturn (wrote : bool) (audio : option bytes)
| SpeakRaise (wrote : bool) (e : exn).

(** The synthesis engine: the answer to its [i]-th invocation (counted from
    0) on a text and a target path. *)
Definition Backend : Type := nat -> string -> option string -> speak.

(** What the provider calls outside the sources: the markdown cleaner and
    the codecs of [core.utils], each codec handing chunks to the callback
    and possibly raising after some of them, and [os.remove].
    [os_remove i p] is what [os.remove(p)] does once the engine has been
    invoked [i] times in the current call: None when the file is removed,
    the exception otherwise. *)
Record Helpers : Type := {
  clean_markdown : string -> string;
  audio_bytes_to_data_stream : bytes -> list bytes * option exn;
  decode_opus_from_file_stream : string -> list bytes * option exn;
  audio_to_data_stream : string -> bool -> list bytes * option exn;
  os_remove : nat -> string -> option exn
}.

(** The fields of a [TTSProviderBase] read by the synthesis calls.
    [conn_audio_format] is None while [self.conn] is None; with a
    connection attached it is the attribute [self.conn.audio_format],
    [Missing] when the connection has no such attribute (as a
    [ConnectionHandler], which never assigns one). *)
Record TTSProviderBase : Type := {
  delete_audio_file : bool;
  output_file : string;
  conn_audio_format : option (attr string)
}.

(** [generate_filename(extension)], lines 33-37; [date] and [hex] are the
    values of [datetime.now().date()] and [uuid.uuid4().hex]. *)
Definition generate_filename (self : TTSProviderBase) (date hex extension : string)
  : string :=
  join (output_file self) ("tts-" ++ date ++ "@" ++ hex ++ extension).

(** [if audio_bytes:] *)
Definition truthy_bytes (a : option bytes) : bool :=
  match a with
  | Some (_ :: _) => true
  | _ => false
  end.

(** An attempt of the ephemeral mode fails: the engine raises, or returns
    None or empty bytes. *)
Definition ephemeral_fails (s : speak) : bool :=
  match s with
  | SpeakRaise _ _ => true
  | SpeakReturn _ audio => negb (truthy_bytes audio)
  end.

(** The value [to_tts] returns: None, the list of encoded chunks, or the
    path of the target file. *)
Inductive tts_value : Type :=
| TtsNone
| TtsAudio (audio_datas : list bytes)
| TtsPath (tmp_file : string).

(** How the ephemeral retry loop ends. *)
Record ephemeral_end : Type := {
  delivered_early : list bytes;
  produced : option (list bytes);
  eph_calls : nat;
  eph_remaining : nat
}.

(** The loop [while max_repeat_time > 0] of the ephemeral branch (lines
    59-77 and 122-140, the same text in both methods).  [calls] counts the
    invocations of the backend so far; [early] collects the chunks a codec
    run handed over before it raised. *)
Fixpoint ephemeral_loop (h : Helpers) (backend : Backend) (text : string)
    (max_repeat_time calls : nat) (early : list bytes) : ephemeral_end :=
  match max_repeat_time with
  | O =>
      {| delivered_early := early; produced := None;
         eph_calls := calls; eph_remaining := 0 |}
  | S m =>
      match backend calls text None with
      | SpeakReturn _ audio_bytes =>
          if truthy_bytes audio_bytes then
            match audio_bytes_to_data_stream h (default [] audio_bytes) with
            | (chunks, None) =>
                {| delivered_early := early; produced := Some chunks;
                   eph_calls := S calls; eph_remaining := S m |}
            | (chunks, Some _) =>
                ephemeral_loop h backend text m (S calls) (early ++ chunks)%list
            end
          else ephemeral_loop h backend text m (S calls) early
      | SpeakRaise _ _ => ephemeral_loop h backend text m (S calls) early
      end
  end.

(** The state of the persistent retry loop. *)
Record pstate : Type := {
  fs : filesystem;
  calls : nat;
  max_repeat_time : nat
}.

(** [while not os.path.exists(tmp_file) and max_repeat_time > 0] *)
Definition persistent_guard (tmp_file : string) (st : pstate) : bool :=
  negb (exists_ (fs st) tmp_file) && (0 <? max_repeat_time st)%nat.

(** How a run of the loop body ends: at its end, or with the exception of
    [os.remove], which is raised inside the [except] clause and so is
    caught by no handler of the loop; the state is then the one at the
    raise, the partial file still in place and the counter untouched. *)
Inductive body_end : Type :=
| Completed (st : pstate)
| Escaped (e : exn) (st : pstate).

(** The state in which a run of the body, or of the loop, ends. *)
Definition state_of (b : body_end) : pstate :=
  match b with
  | Completed st => st
  | Escaped _ st => st
  end.

(** One run of the loop body, lines 91-100 and 155-164 (the same text in
    both methods): the counter is decremented in the [except] clause
    only, after the partial file, if there is one, has been removed. *)
Definition persistent_step (h : Helpers) (backend : Backend)
    (text tmp_file : string) (st : pstate) : body_end :=
  match backend (calls st) text (Some tmp_file) with
  | SpeakReturn wrote _ =>
      Completed
        {| fs := if wrote then create (fs st) tmp_file else fs st;
           calls := S (calls st);
           max_repeat_time := max_repeat_time st |}
  | SpeakRaise wrote _ =>
      let fs1 := if wrote then create (fs st) tmp_file else fs st in
      if exists_ fs1 tmp_file then
        match os_remove h (S (calls st)) tmp_file with
        | None =>
            Completed
              {| fs := remove fs1 tmp_file;
                 calls := S (calls st);
                 max_repeat_time := max_repeat_time st - 1 |}
        | Some e =>
            Escaped e
              {| fs := fs1;
                 calls := S (calls st);
                 max_repeat_time := max_repeat_time st |}
        end
      else
        Completed
          {| fs := fs1;
             calls := S (calls st);
             max_repeat_time := max_repeat_time st - 1 |}
  end.

(** The persistent loop run for at most [fuel] iterations: None when it
    has not left the loop by then, [Completed] when the guard has become
    false, [Escaped] when [os.remove] has raised out of the loop. *)
Fixpoint persistent_loop (h : Helpers) (backend : Backend)
    (text tmp_file : string) (fuel : nat) (st : pstate) : option body_end :=
  if persistent_guard tmp_file st then
    match fuel with
    | O => None
    | S fuel' =>
        match persistent_step h backend text tmp_file st with
        | Completed st' => persistent_loop h backend text tmp_file fuel' st'
        | Escaped e st' => Some (Escaped e st')
        end
    end
  else Some (Completed st).

(** The loop body repeated [n] times, or until [os.remove] raises. *)
Fixpoint persistent_iter (h : Helpers) (backend : Backend)
    (text tmp_file : string) (n : nat) (st : pstate) : body_end :=
  match n with
  | O => Completed st
  | S n' =>
      match persistent_step h backend text tmp_file st with
      | Completed st' => persistent_iter h backend text tmp_file n' st'
      | Escaped e st' => Escaped e st'
      end
  end.

(** What one synthesis call did. *)
Record tts_run : Type := {
  value : tts_value;
  handed_to_callback : list bytes;
  backend_calls : nat;
  fs_after : filesystem
}.

(** [to_tts(text)], lines 115-178.  In persistent mode the loop sits in a
    [try] whose handler (lines 176-178) returns None. *)
Definition to_tts (h : Helpers) (backend : Backend) (self : TTSProviderBase)
    (date hex : string) (fuel : nat) (fs0 : filesystem) (text : string)
  : option tts_run :=
  let text := clean_markdown h text in
  if delete_audio_file self then
    let e := ephemeral_loop h backend text 5 0 [] in
    Some {| value := match produced e with
                     | Some audio_datas => TtsAudio audio_datas
                     | None => TtsNone
                     end;
            handed_to_callback := [];
            backend_calls := eph_calls e;
            fs_after := fs0 |}
  else
    let tmp_file := generate_filename self date hex ".wav" in
    match persistent_loop h backend text tmp_file fuel
            {| fs := fs0; calls := 0; max_repeat_time := 5 |} with
    | None => None
    | Some (Completed st) =>
        Some {| value := TtsPath tmp_file;
                handed_to_callback := [];
                backend_calls := calls st;
                fs_after := fs st |}
    | Some (Escaped _ st) =>
        Some {| value := TtsNone;
                handed_to_callback := [];
                backend_calls := calls st;
                fs_after := fs st |}
    end.

(** [s.endswith(suffix)] and [s.startswith(pre)] *)
Definition endswith (s suffix : string) : bool :=
  (String.length suffix <=? String.length s)%nat
  && String.eqb (drop_str (String.length s - String.length suffix) s) suffix.

Definition startswith (s pre : string) : bool := String.prefix pre s.

(** [_process_audio_file_stream(tts_file, callback)], lines 234-252: the
    chunks handed to the callback, the exception that leaves the method if
    any, and the filesystem afterwards.  [calls] is the number of
    invocations of the engine that preceded it in the current call.  No
    line of the method catches anything: reading [audio_format] off a
    connection that lacks it raises AttributeError, and an exception of a
    codec or of [os.remove] leaves the method as it is. *)
Definition _process_audio_file_stream (h : Helpers) (self : TTSProviderBase)
    (calls : nat) (fs0 : filesystem) (tts_file : string)
  : list bytes * option exn * filesystem :=
  let '(chunks, err) :=
    if endswith tts_file ".p3" then decode_opus_from_file_stream h tts_file
    else match conn_audio_format self with
         | None => ([], None)
         | Some Missing => ([], Some AttributeError)
         | Some (Present fmt) =>
             if String.eqb fmt "pcm" then audio_to_data_stream h tts_file false
             else audio_to_data_stream h tts_file true
         end in
  match err with
  | Some e => (chunks, Some e, fs0)
  | None =>
      if delete_audio_file self && exists_ fs0 tts_file
         && startswith tts_file (output_file self)
      then
        match os_remove h calls tts_file with
        | None => (chunks, None, remove fs0 tts_file)
        | Some e => (chunks, Some e, fs0)
        end
      else (chunks, None, fs0)
  end.

(** [to_tts_stream(text, opus_handler)], lines 52-113; it returns None on
    every path.  In persistent mode the handler of lines 112-113 catches
    what the loop or the streaming of the file raises. *)
Definition to_tts_stream (h : Helpers) (backend : Backend) (self : TTSProviderBase)
    (date hex : string) (fuel : nat) (fs0 : filesystem) (text : string)
  : option tts_run :=
  let text := clean_markdown h text in
  if delete_audio_file self then
    let e := ephemeral_loop h backend text 5 0 [] in
    Some {| value := TtsNone;
            handed_to_callback :=
              (delivered_early e ++ default [] (produced e))%list;
            backend_calls := eph_calls e;
            fs_after := fs0 |}
  else
    let tmp_file := generate_filename self date hex ".wav" in
    match persistent_loop h backend text tmp_file fuel
            {| fs := fs0; calls := 0; max_repeat_time := 5 |} with
    | None => None
    | Some (Completed st) =>
        if (0 <? max_repeat_time st)%nat then
          let '(chunks, _, fs1) :=
            _process_audio_file_stream h self (calls st) (fs st) tmp_file in
          Some {| value := TtsNone; handed_to_callback := chunks;
                  backend_calls := calls st; fs_after := fs1 |}
        else
          Some {| value := TtsNone; handed_to_callback := [];
                  backend_calls := calls st; fs_after := fs st |}
    | Some (Escaped _ st) =>
        Some {| value := TtsNone; handed_to_callback := [];
                backend_calls := calls st; fs_after := fs st |}
    end.


(** Modelled from the spec: the enum [ContentType] of [core.tts.dto.dto] is
    not among the sources.  TEXT and FILE are the members
    [tts_one_sentence] tests; OTHER stands for any further member. *)
Inductive ContentType : Type := TEXT | FILE | OTHER.

(** What one call of [tts_one_sentence] did: the value of
    [conn.sentence_id] afterwards, the exception that left the call if
    any, and the synthesis or streaming it performed. *)
Record sentence_run : Type := {
  conn_sentence_id : option string;
  sentence_raised : option exn;
  spoken : tts_run
}.

(** [tts_one_sentence(conn, content_type, content_detail, content_file,
    sentence_id)], lines 195-214.  [uuid_hex] is the value of
    [uuid.uuid4().hex] should line 205 run; [conn_id] is
    [conn.sentence_id] before the call.  The file branch calls
    [_process_audio_file_stream] outside any [try]. *)
Definition tts_one_sentence (h : Helpers) (backend : Backend)
    (self : TTSProviderBase) (date hex uuid_hex : string) (fuel : nat)
    (fs0 : filesystem) (conn_id : option string) (content_type : ContentType)
    (content_detail content_file sentence_id : option string)
  : option sentence_run :=
  let conn_id := if falsy sentence_id then Some uuid_hex else conn_id in
  let idle :=
    Some {| conn_sentence_id := conn_id; sentence_raised := None;
            spoken := {| value := TtsNone; handed_to_callback := [];
                         backend_calls := 0; fs_after := fs0 |} |} in
  match content_type with
  | TEXT =>
      if negb (falsy content_detail) then
        match to_tts_stream h backend self date hex fuel fs0
                (default "" content_detail) with
        | None => None
        | Some r =>
            Some {| conn_sentence_id := conn_id; sentence_raised := None;
                    spoken := r |}
        end
      else idle
  | FILE =>
      if negb (falsy content_file) && exists_ fs0 (default "" content_file) then
        let '(chunks, err, fs1) :=
          _process_audio_file_stream h self 0 fs0 (default "" content_file) in
        Some {| conn_sentence_id := conn_id; sentence_raised := err;
                spoken := {| value := TtsNone; handed_to_callback := chunks;
                             backend_calls := 0; fs_after := fs1 |} |}
      else idle
  | OTHER => idle
  end.

(** A call of [tts_one_sentence] that has nothing valid to speak: a text
    call without text, a file call without an existing file, or any other
    content type. *)
Definition nothing_to_speak (fs0 : filesystem) (content_type : ContentType)
    (content_detail content_file : option string) : bool :=
  match content_type with
  | TEXT => falsy content_detail
  | FILE => falsy content_file || negb (exists_ fs0 (default "" content_file))
  | OTHER => true
  end.

End TTS.

(** ** core/asr/fun_local.py *)

Module ASR.

Definition MAX_RETRIES : nat := 2.
Definition RETRY_DELAY : nat := 1.

Definition supported_formats : list string :=
  [".wav"; ".mp3"; ".flac"; ".m4a"].

(** [ext in supported_formats] *)
Definition supported (ext : string) : bool :=
  existsb (String.eqb ext) supported_formats.

(** The fields of an [ASRProvider] read by the recognition calls. *)
Record ASRProvider : Type := {
  output_dir : string;
  delete_audio_file : bool
}.

(** What writing a file ([shutil.copy2], or [open] and [write]) does: it
    succeeds, or raises and may leave a partial file behind. *)
Inductive write_result : Type :=
| Written
| WriteFailed (e : exn) (partial : bool).

(** The answers of the environment during one attempt: the disk queries,
    the copy or write of the artifact, the read of the input, the
    recognition engine ([model.generate] followed by the postprocessing of
    its first result), and [os.remove] in the cleanup. *)
Record attempt_env : Type := {
  getsize : outcome nat;
  disk_free : outcome nat;
  write_artifact : write_result;
  read_input : outcome bytes;
  generate : bytes -> outcome string;
  os_remove : option exn
}.

(** The environment of a call: the answers during its [i]-th attempt
    (counted from 0). *)
Definition World : Type := nat -> attempt_env.

(** The filesystem, the local [file_path] of a recognition call, and what
    the call has done so far: the attempts begun, the delays slept, the
    calls to the recognition engine. *)
Record loop_state : Type := {
  fs : filesystem;
  file_path : option string;
  attempts : nat;
  sleeps : list nat;
  generate_calls : nat
}.

Definition with_fs (st : loop_state) (f : filesystem) : loop_state :=
  {| fs := f; file_path := file_path st; attempts := attempts st;
     sleeps := sleeps st; generate_calls := generate_calls st |}.

Definition with_file_path (st : loop_state) (p : string) : loop_state :=
  {| fs := fs st; file_path := Some p; attempts := attempts st;
     sleeps := sleeps st; generate_calls := generate_calls st |}.

Definition begin_attempt (st : loop_state) : loop_state :=
  {| fs := fs st; file_path := file_path st; attempts := S (attempts st);
     sleeps := sleeps st; generate_calls := generate_calls st |}.

Definition sleep (st : loop_state) (delay : nat) : loop_state :=
  {| fs := fs st; file_path := file_path st; attempts := attempts st;
     sleeps := (sleeps st ++ [delay])%list;
     generate_calls := generate_calls st |}.

(** The recognition step shared by the calls: [model.generate(input=...)]
    and the postprocessing of its result. *)
Definition infer (env : attempt_env) (audio_data : bytes) (st : loop_state)
  : loop_state * outcome string :=
  ({| fs := fs st; file_path := file_path st; attempts := attempts st;
      sleeps := sleeps st; generate_calls := S (generate_calls st) |},
   generate env audio_data).

(** The body of the [try] of [speech_to_text_from_audio_file], lines
    148-194. *)
Definition file_try (self : ASRProvider) (env : attempt_env)
    (audio_file_path session_id : string) (st : loop_state)
  : loop_state * outcome string :=
  if negb (exists_ (fs st) audio_file_path) then (st, Raised FileNotFoundError)
  else
    let file_ext := lower (splitext_ext audio_file_path) in
    if negb (supported file_ext) then (st, Raised ValueError)
    else if negb (delete_audio_file self) then
      let filename := session_id ++ file_ext in
      let st := with_file_path st (join (output_dir self) filename) in
      match getsize env with
      | Raised e => (st, Raised e)
      | Returned file_size =>
          match disk_free env with
          | Raised e => (st, Raised e)
          | Returned free_space =>
              if (free_space <? file_size * 2)%nat then (st, Raised OSError)
              else
                match write_artifact env with
                | WriteFailed e partial =>
                    (if partial
                     then with_fs st (create (fs st) (join (output_dir self) filename))
                     else st,
                     Raised e)
                | Written =>
                    let st :=
                      with_fs st (create (fs st) (join (output_dir self) filename)) in
                    match read_input env with
                    | Raised e => (st, Raised e)
                    | Returned audio_data => infer env audio_data st
                    end
                end
          end
      end
    else
      match read_input env with
      | Raised e => (st, Raised e)
      | Returned audio_data =>
          infer env audio_data (with_file_path st audio_file_path)
      end.

(** The [finally] of [speech_to_text_from_audio_file], lines 216-225. *)
Definition file_finally (self : ASRProvider) (env : attempt_env)
    (audio_file_path : string) (st : loop_state) : loop_state :=
  match file_path st with
  | Some p =>
      if delete_audio_file self && negb (String.eqb p "")
         && exists_ (fs st) p && negb (String.eqb p audio_file_path)
      then match os_remove env with
           | None => with_fs st (remove (fs st) p)
           | Some _ => st
           end
      else st
  | None => st
  end.

(** What a cleanup makes of the working file [p] it was entered with: the
    file is gone afterwards unless [os.remove] raised (lines 222-225 and
    296-299 log the exception and go on), and no other path is touched. *)
Definition cleaned (env : attempt_env) (before after : filesystem)
    (p : string) : Prop :=
  exists_ after p = match os_remove env with
                    | None => false
                    | Some _ => true
                    end
  /\ forall q, q <> p -> exists_ after q = exists_ before q.

(** The value a recognition call returns: the pair (text, file path), or
    None when the function runs off the end of its loop. *)
Definition asr_value : Type := option (string * option string).

(** What one recognition call did. *)
Record asr_run : Type := {
  asr_result : outcome asr_value;
  final : loop_state
}.

(** The loop of [speech_to_text_from_audio_file], lines 146-225, by
    recursion on [remaining = MAX_RETRIES - retry_count]: the guard
    [retry_count < MAX_RETRIES] is [remaining > 0], and the test
    [retry_count >= MAX_RETRIES] after the increment is [remaining - 1 = 0].
    The handlers are tried in the order of the source: FileNotFoundError,
    OSError, Exception. *)
Fixpoint file_loop (self : ASRProvider) (world : World)
    (audio_file_path session_id : string) (remaining : nat) (st : loop_state)
  : asr_run :=
  match remaining with
  | O => {| asr_result := Returned None; final := st |}
  | S remaining' =>
      let env := world (attempts st) in
      let '(st1, r) :=
        file_try self env audio_file_path session_id (begin_attempt st) in
      match r with
      | Returned text =>
          {| asr_result := Returned (Some (text, file_path st1));
             final := file_finally self env audio_file_path st1 |}
      | Raised e =>
          if is_FileNotFoundError e then
            {| asr_result := Returned (Some ("", file_path st1));
               final := file_finally self env audio_file_path st1 |}
          else if is_OSError e then
            match remaining' with
            | O =>
                {| asr_result := Returned (Some ("", file_path st1));
                   final := file_finally self env audio_file_path st1 |}
            | S _ =>
                file_loop self world audio_file_path session_id remaining'
                  (file_finally self env audio_file_path (sleep st1 RETRY_DELAY))
            end
          else
            {| asr_result := Returned (Some ("", file_path st1));
               final := file_finally self env audio_file_path st1 |}
      end
  end.

Definition start (fs0 : filesystem) : loop_state :=
  {| fs := fs0; file_path := None; attempts := 0; sleeps := [];
     generate_calls := 0 |}.

(** [speech_to_text_from_audio_file(audio_file_path, session_id)] *)
Definition speech_to_text_from_audio_file (self : ASRProvider) (world : World)
    (fs0 : filesystem) (audio_file_path session_id : string) : asr_run :=
  file_loop self world audio_file_path session_id MAX_RETRIES (start fs0).

(** The body of the [try] of [speech_to_text_from_audio_stream], lines
    244-272. *)
Definition stream_try (self : ASRProvider) (env : attempt_env)
    (audio_data : bytes) (session_id file_extension : string) (st : loop_state)
  : loop_state * outcome string :=
  if negb (delete_audio_file self) then
    let filename := session_id ++ file_extension in
    let st := with_file_path st (join (output_dir self) filename) in
    match disk_free env with
    | Raised e => (st, Raised e)
    | Returned free_space =>
        if (free_space <? List.length audio_data * 2)%nat then (st, Raised OSError)
        else
          match write_artifact env with
          | WriteFailed e partial =>
              (if partial
               then with_fs st (create (fs st) (join (output_dir self) filename))
               else st,
               Raised e)
          | Written =>
              infer env audio_data
                (with_fs st (create (fs st) (join (output_dir self) filename)))
          end
    end
  else infer env audio_data st.

(** The [finally] of [speech_to_text_from_audio_stream], lines 290-299. *)
Definition stream_finally (self : ASRProvider) (env : attempt_env)
    (st : loop_state) : loop_state :=
  match file_path st with
  | Some p =>
      if delete_audio_file self && negb (String.eqb p "") && exists_ (fs st) p
      then match os_remove env with
           | None => with_fs st (remove (fs st) p)
           | Some _ => st
           end
      else st
  | None => st
  end.

(** The loop of [speech_to_text_from_audio_stream], lines 242-299; there is
    no FileNotFoundError handler here. *)
Fixpoint stream_loop (self : ASRProvider) (world : World)
    (audio_data : bytes) (session_id file_extension : string)
    (remaining : nat) (st : loop_state) : asr_run :=
  match remaining with
  | O => {| asr_result := Returned None; final := st |}
  | S remaining' =>
      let env := world (attempts st) in
      let '(st1, r) :=
        stream_try self env audio_data session_id file_extension
          (begin_attempt st) in
      match r with
      | Returned text =>
          {| asr_result := Returned (Some (text, file_path st1));
             final := stream_finally self env st1 |}
      | Raised e =>
          if is_OSError e then
            match remaining' with
            | O =>
                {| asr_result := Returned (Some ("", file_path st1));
                   final := stream_finally self env st1 |}
            | S _ =>
                stream_loop self world audio_data session_id file_extension
                  remaining' (stream_finally self env (sleep st1 RETRY_DELAY))
            end
          else
            {| asr_result := Returned (Some ("", file_path st1));
               final := stream_finally self env st1 |}
      end
  end.

(** [speech_to_text_from_audio_stream(audio_data, session_id,
    file_extension)]: the extension is validated before the loop, outside
    any [try]. *)
Definition speech_to_text_from_audio_stream (self : ASRProvider) (world : World)
    (fs0 : filesystem) (audio_data : bytes) (session_id file_extension : string)
  : asr_run :=
  if negb (supported (lower file_extension)) then
    {| asr_result := Raised ValueError; final := start fs0 |}
  else
    stream_loop self world audio_data session_id file_extension MAX_RETRIES
      (start fs0).

(** The text and the artifact path of a result. *)
Definition text_of (r : asr_run) : option string :=
  match asr_result r with
  | Returned (Some (t, _)) => Some t
  | _ => None
  end.

Definition path_of (r : asr_run) : option string :=
  match asr_result r with
  | Returned (Some (_, p)) => p
  | _ => None
  end.

(** A resource fault during an attempt of the file-based call: a disk query
    or the copy or the read fails with an OSError, or the headroom is
    insufficient.  In [speech_to_text_from_audio_file] a FileNotFoundError
    is handled as a missing file, before the OSError handler. *)
Definition plain_OSError (e : exn) : bool :=
  is_OSError e && negb (is_FileNotFoundError e).

Definition file_resource_fault (self : ASRProvider) (env : attempt_env) : bool :=
  if negb (delete_audio_file self) then
    match getsize env with
    | Raised e => plain_OSError e
    | Returned file_size =>
        match disk_free env with
        | Raised e => plain_OSError e
        | Returned free_space =>
            (free_space <? file_size * 2)%nat
            || match write_artifact env with
               | WriteFailed e _ => plain_OSError e
               | Written =>
                   match read_input env with
                   | Raised e => plain_OSError e
                   | Returned _ => false
                   end
               end
        end
    end
  else
    match read_input env with
    | Raised e => plain_OSError e
    | Returned _ => false
    end.

(** A resource fault during an attempt of the stream-based call, which
    touches the disk in retention mode only. *)
Definition stream_resource_fault (self : ASRProvider) (payload : nat)
    (env : attempt_env) : bool :=
  negb (delete_audio_file self)
  && match disk_free env with
     | Raised e => is_OSError e
     | Returned free_space =>
         (free_space <? payload * 2)%nat
         || match write_artifact env with
            | WriteFailed e _ => is_OSError e
            | Written => false
            end
     end.

Definition raises {A : Type} (r : outcome A) : bool :=
  match r with
  | Raised _ => true
  | Returned _ => false
  end.

(** An attempt of the file-based call in which the copy into the output
    directory and the read succeed and the recognition engine fails. *)
Definition file_persisted_inference_fails (env : attempt_env) : bool :=
  match getsize env, disk_free env, write_artifact env, read_input env with
  | Returned file_size, Returned free_space, Written, Returned audio_data =>
      negb (free_space <? file_size * 2)%nat && raises (generate env audio_data)
  | _, _, _, _ => false
  end.

(** The same for the stream-based call. *)
Definition stream_persisted_inference_fails (audio_data : bytes)
    (env : attempt_env) : bool :=
  match disk_free env, write_artifact env with
  | Returned free_space, Written =>
      negb (free_space <? List.length audio_data * 2)%nat
      && raises (generate env audio_data)
  | _, _ => false
  end.

(** The reading of "exactly 2 attempts separated by a fixed delay, then an
    empty-text result". *)
Definition gave_up_after_two (run : asr_run) : Prop :=
  text_of run = Some ""
  /\ attempts (final run) = 2%nat
  /\ sleeps (final run) = [RETRY_DELAY].

(** The reading of "returns immediately with empty text, without retry,
    the inference engine being called exactly once". *)
Definition rejected_after_one_inference (run : asr_run) : Prop :=
  text_of run = Some ""
  /\ sleeps (final run) = []
  /\ generate_calls (final run) = 1%nat.

(** The text an attempt of the file-based call returns when nothing goes
    wrong in it: the read and the engine succeed and, with retention, so
    do the disk queries, the headroom check and the copy. *)
Definition file_attempt_ok (self : ASRProvider) (env : attempt_env)
  : option string :=
  match read_input env with
  | Returned audio_data =>
      match generate env audio_data with
      | Returned text =>
          if delete_audio_file self then Some text
          else
            match getsize env, disk_free env, write_artifact env with
            | Returned file_size, Returned free_space, Written =>
                if (free_space <? file_size * 2)%nat then None else Some text
            | _, _, _ => None
            end
      | Raised _ => None
      end
  | Raised _ => None
  end.

(** The exception of the engine in an attempt of the stream-based call
    that gets as far as the engine and fails there. *)
Definition stream_engine_failure (self : ASRProvider) (audio_data : bytes)
    (env : attempt_env) : option exn :=
  let failure :=
    match generate env audio_data with
    | Raised e => Some e
    | Returned _ => None
    end in
  if delete_audio_file self then failure
  else
    match disk_free env, write_artifact env with
    | Returned free_space, Written =>
        if (free_space <? List.length audio_data * 2)%nat then None
        else failure
    | _, _ => None
    end.

(** What a run of a retry loop did, counted from the state it started
    in: it returned a pair, after at least one and at most [remaining]
    attempts, having slept [RETRY_DELAY] once between two attempts, and
    having called the engine at most once per attempt. *)
Definition well_counted (remaining : nat) (st : loop_state) (run : asr_run)
  : Prop :=
  (exists t p, asr_result run = Returned (Some (t, p)))
  /\ (attempts st < attempts (final run) <= attempts st + remaining)%nat
  /\ sleeps (final run)
     = (sleeps st
        ++ repeat RETRY_DELAY (attempts (final run) - attempts st - 1))%list
  /\ (generate_calls st <= generate_calls (final run)
      <= generate_calls st + (attempts (final run) - attempts st))%nat.

(** The answers of the environment during one attempt of the frame-based
    call: those of [attempt_env] (of which the disk query, the engine and
    [os.remove] are used), and the two methods of the base class
    [ASRProviderBase], which is not among the sources. *)
Record frames_env : Type := {
  base_env : attempt_env;
  decode_opus : list bytes -> outcome (list bytes);
  save_audio_to_file : list bytes -> string -> outcome string
}.

Definition FramesWorld : Type := nat -> frames_env.

(** [b"".join(pcm_data)] *)
Definition join_bytes (pcm_data : list bytes) : bytes := List.concat pcm_data.

(** The body of the [try] of [speech_to_text], lines 73-107.  A successful
    [save_audio_to_file] leaves a file at the path it returns; a failing
    one is taken to leave nothing. *)
Definition frames_try (self : ASRProvider) (env : frames_env)
    (opus_data : list bytes) (session_id audio_format : string)
    (st : loop_state) : loop_state * outcome string :=
  match (if String.eqb audio_format "pcm" then Returned opus_data
         else decode_opus env opus_data) with
  | Raised e => (st, Raised e)
  | Returned pcm_data =>
      let combined_pcm_data := join_bytes pcm_data in
      if negb (delete_audio_file self) then
        match disk_free (base_env env) with
        | Raised e => (st, Raised e)
        | Returned free_space =>
            if (free_space <? List.length combined_pcm_data * 2)%nat
            then (st, Raised OSError)
            else
              match save_audio_to_file env pcm_data session_id with
              | Raised e => (st, Raised e)
              | Returned p =>
                  infer (base_env env) combined_pcm_data
                    (with_fs (with_file_path st p) (create (fs st) p))
              end
        end
      else infer (base_env env) combined_pcm_data st
  end.

(** The loop of [speech_to_text], lines 71-134; its handlers and its
    [finally] are those of the stream-based call. *)
Fixpoint frames_loop (self : ASRProvider) (world : FramesWorld)
    (opus_data : list bytes) (session_id audio_format : string)
    (remaining : nat) (st : loop_state) : asr_run :=
  match remaining with
  | O => {| asr_result := Returned None; final := st |}
  | S remaining' =>
      let env := world (attempts st) in
      let '(st1, r) :=
        frames_try self env opus_data session_id audio_format
          (begin_attempt st) in
      match r with
      | Returned text =>
          {| asr_result := Returned (Some (text, file_path st1));
             final := stream_finally self (base_env env) st1 |}
      | Raised e =>
          if is_OSError e then
            match remaining' with
            | O =>
                {| asr_result := Returned (Some ("", file_path st1));
                   final := stream_finally self (base_env env) st1 |}
            | S _ =>
                frames_loop self world opus_data session_id audio_format
                  remaining'
                  (stream_finally self (base_env env) (sleep st1 RETRY_DELAY))
            end
          else
            {| asr_result := Returned (Some ("", file_path st1));
               final := stream_finally self (base_env env) st1 |}
      end
  end.

(** [speech_to_text(opus_data, session_id, audio_format)] *)
Definition speech_to_text (self : ASRProvider) (world : FramesWorld)
    (fs0 : filesystem) (opus_data : list bytes)
    (session_id audio_format : string) : asr_run :=
  frames_loop self world opus_data session_id audio_format MAX_RETRIES
    (start fs0).

End ASR.

(** ** app.py *)

Module App.

(** The recognizer module as the coordinator calls it:
    [asr.speech_to_text_from_audio_file(audio_file_path, session_id)]
    returns a pair (text, file path) or raises. *)
Definition AsrModule : Type :=
  string -> string -> outcome (option string * option string).

(** The synthesizer module: the provider, its engine, and the handle the
    connection keeps. *)
Record TtsModule : Type := {
  provider : TTS.TTSProviderBase;
  backend : TTS.Backend;
  handle : Connection.TTSHandle
}.

(** The global [modules] dictionary, read with [modules.get]. *)
Record Modules : Type := {
  asr : option AsrModule;
  llm : option Connection.LLM;
  tts : option TtsModule
}.

(** The fresh values a request draws: the three uuids and the date. *)
Record Fresh : Type := {
  uuid_session : string;
  uuid_conn : string;
  uuid_sentence : string;
  today : string;
  uuid_file : string
}.

(** The dictionary [process_voice_query] returns. *)
Record Response : Type := {
  session_id : string;
  recognized_text : string;
  response_text : string;
  audio_url : option string;
  status : string
}.

(** What the coordinator asks of its collaborators, in order. *)
Inductive event : Type :=
| AsrCalled (audio_file_path session_id : string)
| LlmCalled
| TtsCalled (text audio_file : string)
| DeleteScheduled (audio_file : string) (delay : nat).

(** How a request fails: with an [Exception(msg)] raised by the coordinator
    itself, or with the exception of a collaborator; the outer handler
    logs either and raises it again. *)
Inductive failure : Type :=
| Failed (msg : string)
| Propagated (e : exn).

Inductive res (A : Type) : Type :=
| Ok (a : A)
| Err (f : failure).
Arguments Ok {A} a.
Arguments Err {A} f.

(** A computation of the coordinator: it extends the trace of events and
    yields a value or fails. *)
Definition M (A : Type) : Type := list event -> res A * list event.

Definition ret {A : Type} (a : A) : M A := fun tr => (Ok a, tr).

Definition bind {A B : Type} (m : M A) (k : A -> M B) : M B :=
  fun tr =>
    match m tr with
    | (Ok a, tr') => k a tr'
    | (Err f, tr') => (Err f, tr')
    end.

Definition throw {A : Type} (f : failure) : M A := fun tr => (Err f, tr).

Definition emit (ev : event) : M unit := fun tr => (Ok tt, (tr ++ [ev])%list).

Definition of_outcome {A : Type} (o : outcome A) : M A :=
  match o with
  | Returned a => ret a
  | Raised e => throw (Propagated e)
  end.

#[export] Instance M_ret : MRet M := @ret.
#[export] Instance M_bind : MBind M := fun A B k m => bind m k.

(** Step 1, line 88. *)
Definition recognize (a : AsrModule) (audio_file_path session_id : string)
  : M (option string * option string) :=
  emit (AsrCalled audio_file_path session_id);;
  of_outcome (a audio_file_path session_id).

(** Step 2, lines 95-97: a new handler and one top-level [chat]; the model
    is invoked as often as [chat] reports. *)
Definition converse (l : Connection.LLM) (t : TtsModule) (fr : Fresh)
    (text : string) : M Connection.chat_run :=
  let conn := Connection.init (uuid_conn fr) (Some (handle t)) in
  let turn := Connection.chat l (uuid_sentence fr) conn text 0 in
  fold_right (fun ev k => emit ev;; k) (ret turn)
    (repeat LlmCalled (Connection.llm_calls turn)).

(** Step 3, lines 104-130: the synthesis of the reply inside its own
    [try]; a failure leaves [audio_url] None. *)
Definition synthesize (t : TtsModule) (fr : Fresh) (delete_audio : bool)
    (message : string) : M (option string) :=
  let audio_file :=
    TTS.generate_filename (provider t) (today fr) (uuid_file fr) ".wav" in
  emit (TtsCalled message audio_file);;
  match backend t 0%nat message (Some audio_file) with
  | TTS.SpeakRaise _ _ => ret None
  | TTS.SpeakReturn _ _ =>
      (if delete_audio then emit (DeleteScheduled audio_file 300)
       else ret tt);;
      ret (Some ("/audio/" ++ basename audio_file))
  end.

(** [process_voice_query(audio_file_path, session_id)], lines 72-142.
    [delete_audio] is [config.get("delete_audio", True)]. *)
Definition process_voice_query (m : Modules) (fr : Fresh) (delete_audio : bool)
    (audio_file_path : string) (session_id : option string) : M Response :=
  match asr m, llm m, tts m with
  | Some asr, Some llm, Some tts =>
      let session_id :=
        if falsy session_id then uuid_session fr else default "" session_id in
      r ← recognize asr audio_file_path session_id;
      let text := fst r in
      if falsy text then throw (Failed "语音识别失败")
      else
        let text := default "" text in
        turn ← converse llm tts fr text;
        match Connection.result turn with
        | Raised e => throw (Propagated e)
        | Returned Connection.RetNone => throw (Failed "对话处理失败")
        | Returned Connection.RetTrue =>
            let conn := Connection.conn_after turn in
            audio_url ←
              synthesize tts fr delete_audio (Connection.tts_MessageText conn);
            ret {| session_id := session_id;
                   recognized_text := text;
                   response_text := Connection.tts_MessageText conn;
                   audio_url := audio_url;
                   status := "success" |}
        end
  | _, _, _ => throw (Failed "系统模块未正确初始化")
  end.

(** The session id a request runs under. *)
Definition effective_session (fr : Fresh) (session_id : option string) : string :=
  if falsy session_id then uuid_session fr else default "" session_id.

Definition is_dialogue_call (ev : event) : bool :=
  match ev with
  | LlmCalled => true
  | _ => false
  end.

Definition is_synthesis_call (ev : event) : bool :=
  match ev with
  | TtsCalled _ _ => true
  | _ => false
  end.

(** The recognizer of [core/asr/fun_local.py] as a module of the
    coordinator, on a given filesystem and environment; unpacking the
    None of a call that ran off its loop raises. *)
Definition fun_local (self : ASR.ASRProvider) (world : ASR.World)
    (fs0 : filesystem) : AsrModule :=
  fun audio_file_path session_id =>
    match ASR.asr_result
            (ASR.speech_to_text_from_audio_file self world fs0
               audio_file_path session_id) with
    | Returned (Some (t, p)) => Returned (Some t, p)
    | Returned None => Raised RuntimeError
    | Raised e => Raised e
    end.

(** [_schedule_delete(path, delay)], lines 35-45, run on the filesystem as
    it is when the delay has elapsed: the file is removed if it still
    exists, and a failure of [os.remove] is logged and swallowed. *)
Definition _schedule_delete (os_remove : option exn) (fs : filesystem)
    (path : string) (delay : nat) : filesystem :=
  if exists_ fs path then
    match os_remove with
    | None => remove fs path
    | Some _ => fs
    end
  else fs.

(** The [detail] of an HTTPException: a message of the coordinator, or
    [str(e)] for the exception of a collaborator. *)
Inductive http_detail : Type :=
| Detail (msg : string)
| StrOf (e : exn).

Record HTTPException : Type := {
  status_code : nat;
  detail : http_detail
}.

(** The dictionary [text_chat] returns. *)
Record TextResponse : Type := {
  text_response_text : string;
  text_audio_url : option string;
  text_status : string
}.

(** The HTTPException that the handlers of the two routes make of a
    failure: the message of an [Exception(msg)] or [HTTPException(500,
    msg)] of the coordinator, or [str(e)], each with status 500. *)
Definition http_500 (f : failure) : HTTPException :=
  match f with
  | Failed msg => {| status_code := 500; detail := Detail msg |}
  | Propagated e => {| status_code := 500; detail := StrOf e |}
  end.

(** Lines 199-245 of [text_chat]: the module check, the turn and the
    synthesis, for a text that is not empty. *)
Definition text_query (m : Modules) (fr : Fresh) (delete_audio : bool)
    (text : string) : M TextResponse :=
  match llm m, tts m with
  | Some llm, Some tts =>
      turn ← converse llm tts fr text;
      match Connection.result turn with
      | Raised e => throw (Propagated e)
      | Returned Connection.RetNone => throw (Failed "对话处理失败")
      | Returned Connection.RetTrue =>
          let conn := Connection.conn_after turn in
          audio_url ←
            synthesize tts fr delete_audio (Connection.tts_MessageText conn);
          ret {| text_response_text := Connection.tts_MessageText conn;
                 text_audio_url := audio_url;
                 text_status := "success" |}
      end
  | _, _ => throw (Failed "系统模块未正确初始化")
  end.

(** [text_chat(request)], lines 191-251.  [strip] is [str.strip]; the
    text is checked before the modules are. *)
Definition text_chat (strip : string -> string) (m : Modules) (fr : Fresh)
    (delete_audio : bool) (request_text : string) (tr : list event)
  : (HTTPException + TextResponse) * list event :=
  let text := strip request_text in
  if String.eqb text "" then
    (inl {| status_code := 400; detail := Detail "文本内容为空" |}, tr)
  else
    match text_query m fr delete_audio text tr with
    | (Ok r, tr') => (inr r, tr')
    | (Err f, tr') => (inl (http_500 f), tr')
    end.

(** What one call of [voice_chat] did.  [answer] is the dictionary
    returned ([inr]), the HTTPException raised ([inl]), or, as [Raised],
    any other exception that leaves the route. *)
Record upload_run : Type := {
  answer : outcome (HTTPException + Response);
  trace : list event;
  disk_after : filesystem
}.

(** [if os.path.exists(temp_filename): os.remove(temp_filename)], lines
    175-176 and 182-183: the filesystem afterwards, and the exception of
    [os.remove] when it raises. *)
Definition discard_upload (os_remove : option exn) (fs : filesystem)
    (temp_filename : string) : filesystem * option exn :=
  if exists_ fs temp_filename then
    match os_remove with
    | None => (remove fs temp_filename, None)
    | Some e => (fs, Some e)
    end
  else (fs, None).

(** The handler of [voice_chat], lines 180-186, entered with the failure
    [f] it is to report: the upload is discarded first, outside any
    [try], so that an exception of [os.remove] replaces the
    HTTPException. *)
Definition upload_handler (os_remove : option exn) (f : failure)
    (tr : list event) (fs : filesystem) (temp_filename : string)
  : upload_run :=
  match discard_upload os_remove fs temp_filename with
  | (fs', None) =>
      {| answer := Returned (inl (http_500 f)); trace := tr;
         disk_after := fs' |}
  | (fs', Some e) =>
      {| answer := Raised e; trace := tr; disk_after := fs' |}
  end.

(** The disk after the calls recorded in a trace, each collaborator doing
    to the disk what [effect] says of its call. *)
Definition disk_after_calls (effect : event -> filesystem -> filesystem)
    (tr : list event) (fs : filesystem) : filesystem :=
  fold_left (fun f ev => effect ev f) tr fs.

(** [voice_chat(audio, session_id)], lines 153-186.  [uuid_upload] is the
    uuid of the temporary name; [write_upload] is what lines 161-165 do
    (creating the directory, opening the file, reading and writing the
    upload); [effect] is what a call of a collaborator does to the disk;
    [os_remove i] is what the [i]-th call of [os.remove] in the request
    does.  The cleanup of line 176 sits inside the [try], so its
    exception enters the handler like any other. *)
Definition voice_chat (m : Modules) (effect : event -> filesystem -> filesystem)
    (os_remove : nat -> option exn) (fr : Fresh) (delete_audio : bool)
    (uuid_upload : string) (write_upload : ASR.write_result)
    (fs0 : filesystem) (audio_filename : string) (session_id : option string)
  : upload_run :=
  let temp_filename := "tmp/" ++ uuid_upload ++ "_" ++ audio_filename in
  match write_upload with
  | ASR.WriteFailed e partial =>
      let fs1 := if partial then create fs0 temp_filename else fs0 in
      upload_handler (os_remove 0%nat) (Propagated e) [] fs1 temp_filename
  | ASR.Written =>
      let fs1 := create fs0 temp_filename in
      let session_id :=
        if falsy session_id then uuid_session fr else default "" session_id in
      let '(r, tr) :=
        process_voice_query m fr delete_audio temp_filename
          (Some session_id) [] in
      let fs2 := disk_after_calls effect tr fs1 in
      match r with
      | Err f => upload_handler (os_remove 0%nat) f tr fs2 temp_filename
      | Ok response =>
          match discard_upload (os_remove 0%nat) fs2 temp_filename with
          | (fs3, None) =>
              {| answer := Returned (inr response); trace := tr;
                 disk_after := fs3 |}
          | (fs3, Some e) =>
              upload_handler (os_remove 1%nat) (Propagated e) tr fs3
                temp_filename
          end
      end
  end.

End App.

(** ** Concrete scenarios

    The inputs at which the properties below are exercised. *)

Module Scenarios.
Import Connection.

(** A model that answers every invocation with the same generator. *)
Definition llm_of (s : stream) : LLM := fun _ _ => Returned s.

(** A model whose invocation raises. *)
Definition failing_llm : LLM := fun _ _ => Raised RuntimeError.

(** A fresh handler without synthesizer. *)
Definition handler0 : ConnectionHandler := init "session" None.

(** Three fragments; the abort flag is seen set when the second arrives. *)
Definition aborted_stream : stream :=
  [Yield (Some "Hi") false; Yield (Some " there") true; Yield (Some "!") false].

(** A handler to which a stop event and a worker pool were assigned, and
    whose synthesizer fails to close. *)
Definition handler_with_pool : ConnectionHandler :=
  set_executor
    (set_stop_event (init "session" (Some {| tts_close := Some RuntimeError |}))
       (Present (Some false)))
    (Present (Some {| shutdown := None |})).

(** A synthesis engine that returns without writing the target file, and
    one that raises, on every invocation. *)
Definition silent_backend : TTS.Backend :=
  fun _ _ _ => TTS.SpeakReturn false None.

Definition raising_backend : TTS.Backend :=
  fun _ _ _ => TTS.SpeakRaise false RuntimeError.

(** A provider in persistent mode. *)
Definition persistent_provider (out : string) (fmt : option (attr string))
  : TTS.TTSProviderBase :=
  {| TTS.delete_audio_file := false;
     TTS.output_file := out;
     TTS.conn_audio_format := fmt |}.

(** An environment in which every disk operation succeeds and the
    recognition engine answers "hello". *)
Definition quiet_env : ASR.attempt_env :=
  {| ASR.getsize := Returned 4%nat;
     ASR.disk_free := Returned 100%nat;
     ASR.write_artifact := ASR.Written;
     ASR.read_input := Returned [];
     ASR.generate := fun _ => Returned "hello";
     ASR.os_remove := None |}.

Definition quiet_world : ASR.World := fun _ => quiet_env.

(** An environment whose disk has no headroom left. *)
Definition full_disk_world : ASR.World :=
  fun _ =>
    {| ASR.getsize := Returned 4%nat;
       ASR.disk_free := Returned 7%nat;
       ASR.write_artifact := ASR.Written;
       ASR.read_input := Returned [];
       ASR.generate := fun _ => Returned "hello";
       ASR.os_remove := None |}.

(** An environment in which the input cannot be read. *)
Definition unreadable_world : ASR.World :=
  fun _ =>
    {| ASR.getsize := Returned 4%nat;
       ASR.disk_free := Returned 100%nat;
       ASR.write_artifact := ASR.Written;
       ASR.read_input := Raised OSError;
       ASR.generate := fun _ => Returned "hello";
       ASR.os_remove := None |}.

(** An environment in which the artifact is persisted and the recognition
    engine raises. *)
Definition broken_engine_world : ASR.World :=
  fun _ =>
    {| ASR.getsize := Returned 4%nat;
       ASR.disk_free := Returned 100%nat;
       ASR.write_artifact := ASR.Written;
       ASR.read_input := Returned [];
       ASR.generate := fun _ => Raised RuntimeError;
       ASR.os_remove := None |}.

(** An environment in which the copy fails because a path has vanished. *)
Definition vanished_world : ASR.World :=
  fun _ =>
    {| ASR.getsize := Returned 4%nat;
       ASR.disk_free := Returned 100%nat;
       ASR.write_artifact := ASR.WriteFailed FileNotFoundError false;
       ASR.read_input := Returned [];
       ASR.generate := fun _ => Returned "hello";
       ASR.os_remove := None |}.

(** Recognizers with and without artifact retention. *)
Definition keeping : ASR.ASRProvider :=
  {| ASR.output_dir := "out"; ASR.delete_audio_file := false |}.

Definition discarding : ASR.ASRProvider :=
  {| ASR.output_dir := "out"; ASR.delete_audio_file := true |}.

(** The coordinator with the recognizer of [fun_local] on a disk that holds
    one text file, a model that answers "Hi", and an engine that raises. *)
Definition fresh0 : App.Fresh :=
  {| App.uuid_session := "s-1"; App.uuid_conn := "c-1";
     App.uuid_sentence := "u-1"; App.today := "2025-01-01";
     App.uuid_file := "f-1" |}.

Definition tts_module0 : App.TtsModule :=
  {| App.provider := persistent_provider "tmp/" None;
     App.backend := raising_backend;
     App.handle := {| tts_close := None |} |}.

Definition modules0 : App.Modules :=
  {| App.asr := Some (App.fun_local keeping quiet_world {["clip.txt"]});
     App.llm := Some (llm_of [Yield (Some "Hi") false]);
     App.tts := Some tts_module0 |}.

(** A reply in two fragments around an empty one, and a generator that
    breaks after its first fragment. *)
Definition two_fragments : stream :=
  [Yield (Some "Hi") false; Yield (Some "") false; Yield None false;
   Yield (Some " there") false].

Definition broken_stream : stream :=
  [Yield (Some "Hi") false; GenRaise RuntimeError; Yield (Some "!") false].

(** A handler to which a stop event and a worker pool were assigned, and
    whose synthesizer closes cleanly. *)
Definition handler_ready : ConnectionHandler :=
  set_executor
    (set_stop_event (init "session" (Some {| tts_close := None |}))
       (Present (Some false)))
    (Present (Some {| shutdown := Some RuntimeError |})).

(** Helpers whose codecs hand over the payload as a single chunk and never
    fail and whose [os.remove] always succeeds, and a provider in ephemeral
    mode. *)
Definition helpers0 : TTS.Helpers :=
  {| TTS.clean_markdown := fun s => s;
     TTS.audio_bytes_to_data_stream := fun b => ([b], None);
     TTS.decode_opus_from_file_stream := fun _ => ([], None);
     TTS.audio_to_data_stream := fun _ _ => ([], None);
     TTS.os_remove := fun _ _ => None |}.

Definition ephemeral_provider (out : string) : TTS.TTSProviderBase :=
  {| TTS.delete_audio_file := true;
     TTS.output_file := out;
     TTS.conn_audio_format := None |}.


Definition streaming_helpers : TTS.Helpers :=
  {| TTS.clean_markdown := fun s => s;
     TTS.audio_bytes_to_data_stream := fun b => ([b], None);
     TTS.decode_opus_from_file_stream := fun _ => ([[Byte.x02]], None);
     TTS.audio_to_data_stream := fun _ _ => ([[Byte.x01]], None);
     TTS.os_remove := fun _ _ => None |}.

(** A provider in ephemeral mode to which a connection is attached: one
    that carries an [audio_format], or, with [Missing], a
    [ConnectionHandler]. *)
Definition attached_provider (out : string) (fmt : attr string)
  : TTS.TTSProviderBase :=
  {| TTS.delete_audio_file := true;
     TTS.output_file := out;
     TTS.conn_audio_format := Some fmt |}.

(** An engine that fails twice and then succeeds: in ephemeral mode it
    returns nothing twice and then one byte; in persistent mode it raises
    twice, leaving a partial file, and then writes the file. *)
Definition flaky_backend : TTS.Backend :=
  fun i _ target =>
    match target with
    | None =>
        if (i <? 2)%nat then TTS.SpeakReturn false None
        else TTS.SpeakReturn false (Some [Byte.x01])
    | Some _ =>
        if (i <? 2)%nat then TTS.SpeakRaise true RuntimeError
        else TTS.SpeakReturn true None
    end.

(** An environment whose disk is full during the first attempt only. *)
Definition hiccup_world : ASR.World :=
  fun i => match i with
           | O => full_disk_world i
           | S _ => quiet_env
           end.

(** A quiet environment for the frame-based call, around a given Opus
    decoder. *)
Definition frames_world (decoder : list bytes -> outcome (list bytes))
  : ASR.FramesWorld :=
  fun _ =>
    {| ASR.base_env := quiet_env;
       ASR.decode_opus := decoder;
       ASR.save_audio_to_file := fun _ _ => Returned "out/sid.wav" |}.

(** Equality of byte strings, and an environment for the frame-based call
    whose engine recognizes "hello" in the two bytes 01 02 and answers
    [otherwise] to any other input. *)
Fixpoint bytes_eqb (a b : bytes) : bool :=
  match a, b with
  | [], [] => true
  | x :: a', y :: b' => Byte.eqb x y && bytes_eqb a' b'
  | _, _ => false
  end.

Definition picky_world (decoder : list bytes -> outcome (list bytes))
    (otherwise : outcome string) : ASR.FramesWorld :=
  fun _ =>
    {| ASR.base_env :=
         {| ASR.getsize := Returned 4%nat;
            ASR.disk_free := Returned 100%nat;
            ASR.write_artifact := ASR.Written;
            ASR.read_input := Returned [];
            ASR.generate := fun b =>
              if bytes_eqb b [Byte.x01; Byte.x02] then Returned "hello"
              else otherwise;
            ASR.os_remove := None |};
       ASR.decode_opus := decoder;
       ASR.save_audio_to_file := fun _ _ => Returned "out/sid.wav" |}.

(** The coordinator on a disk that holds one wav file, with a model that
    answers "Hi" and with a model that raises. *)
Definition modules_ok : App.Modules :=
  {| App.asr := Some (App.fun_local keeping quiet_world {["clip.wav"]});
     App.llm := Some (llm_of [Yield (Some "Hi") false]);
     App.tts := Some tts_module0 |}.

Definition modules_mute : App.Modules :=
  {| App.asr := Some (App.fun_local keeping quiet_world {["clip.wav"]});
     App.llm := Some failing_llm;
     App.tts := Some tts_module0 |}.

End Scenarios.

(** * Properties *)

(** ** The filesystem *)

Module FsFacts.

Lemma exists_create (f : filesystem) (p : string) :
  exists_ (create f p) p = true.
Proof.
  unfold exists_, create. apply bool_decide_eq_true.
  apply elem_of_union. left. apply elem_of_singleton. reflexivity.
Qed.

Lemma exists_create_mono (f : filesystem) (p q : string) :
  exists_ f q = true -> exists_ (create f p) q = true.
Proof.
  unfold exists_, create. intros H.
  apply bool_decide_eq_true in H. apply bool_decide_eq_true.
  apply elem_of_union. right. exact H.
Qed.

Lemma exists_remove_other (f : filesystem) (p q : string) :
  p <> q -> exists_ f q = true -> exists_ (remove f p) q = true.
Proof.
  unfold exists_, remove. intros Hne H.
  apply bool_decide_eq_true in H. apply bool_decide_eq_true.
  apply elem_of_difference. split; [exact H|].
  rewrite elem_of_singleton. congruence.
Qed.

Lemma remove_create (f : filesystem) (p : string) :
  exists_ f p = false -> remove (create f p) p = f.
Proof.
  unfold exists_, create, remove. intros H.
  apply bool_decide_eq_false in H.
  apply set_eq. intros x.
  rewrite elem_of_difference, elem_of_union, elem_of_singleton.
  split; [intros [[->|Hx] Hne]; [contradiction|exact Hx]|].
  intros Hx. split; [right; exact Hx|]. intros ->. contradiction.
Qed.

Lemma exists_remove_same (f : filesystem) (p : string) :
  exists_ (remove f p) p = false.
Proof.
  unfold exists_, remove. apply bool_decide_eq_false.
  rewrite elem_of_difference, elem_of_singleton. tauto.
Qed.

Lemma exists_remove_other_eq (f : filesystem) (p q : string) :
  p <> q -> exists_ (remove f p) q = exists_ f q.
Proof.
  intros Hne. unfold exists_, remove. apply bool_decide_ext.
  rewrite elem_of_difference, elem_of_singleton.
  split; [tauto|]. intros H. split; [exact H|congruence].
Qed.

End FsFacts.

(** ** The dialogue turn *)

Module ConnectionFacts.
Import Connection Scenarios.

Lemma assistant_messages_app (d1 d2 : Dialogue) :
  assistant_messages (d1 ++ d2)%list
  = (assistant_messages d1 ++ assistant_messages d2)%list.
Proof.
  unfold assistant_messages.
  rewrite List.filter_app. apply List.map_app.
Qed.

Lemma assistant_messages_history (self : ConnectionHandler) (query : string)
    (depth : nat) :
  assistant_messages (history_sent self query depth)
  = assistant_messages (dialogue self).
Proof.
  destruct depth as [|d]; simpl; [|reflexivity].
  unfold put. rewrite assistant_messages_app. simpl.
  apply List.app_nil_r.
Qed.

(** The loop over a calm prefix followed by a pull that sees the abort
    flag: it stops there, having kept the non-empty fragments so far. *)
Lemma consume_abort (pre : stream) :
  forall (c : option string) (rest : stream) (acc : list string) (n : nat),
    forallb calm pre = true ->
    consume (pre ++ Yield c true :: rest)%list acc n
    = {| response_message := (acc ++ kept pre)%list;
         pulled := (n + List.length pre + 1)%nat;
         last_flag := true;
         loop_raised := None |}.
Proof.
  induction pre as [|p pre IH]; intros c rest acc n Hcalm.
  - simpl. rewrite List.app_nil_r. f_equal. lia.
  - simpl in Hcalm. apply andb_prop in Hcalm as [Hp Hpre].
    destruct p as [frag flag|e]; [|discriminate].
    destruct flag; [discriminate|].
    simpl. destruct frag as [t|].
    + destruct (0 <? String.length t)%nat.
      * rewrite IH by assumption. rewrite <- List.app_assoc. simpl.
        f_equal. lia.
      * rewrite IH by assumption. f_equal. lia.
    + rewrite IH by assumption. f_equal. lia.
Qed.

(** The loop over pulls that bring no text keeps nothing and raises
    nothing. *)
Lemma consume_blank (s : stream) :
  forall (acc : list string) (n : nat),
    forallb blank s = true ->
    response_message (consume s acc n) = acc
    /\ loop_raised (consume s acc n) = None.
Proof.
  induction s as [|p s IH]; intros acc n Hb.
  - simpl. split; reflexivity.
  - simpl in Hb. apply andb_prop in Hb as [Hp Hs].
    destruct p as [frag flag|e]; [|discriminate].
    simpl. destruct flag; [split; reflexivity|].
    destruct frag as [t|].
    + simpl in Hp. apply Nat.eqb_eq in Hp. rewrite Hp. simpl.
      apply IH; assumption.
    + apply IH; assumption.
Qed.

(** What [chat] does once the model has handed over its generator. *)
Lemma chat_returned (llm : LLM) (uuid : string) (self : ConnectionHandler)
    (query : string) (depth : nat) (s : stream) :
  llm (session_id self) (history_sent self query depth) = Returned s ->
  let c := consume s [] 0 in
  let run := chat llm uuid self query depth in
  chunks_requested run = pulled c
  /\ llm_calls run = 1%nat
  /\ result run
     = match loop_raised c with Some e => Raised e | None => Returned RetTrue end
  /\ (loop_raised c = None ->
      assistant_messages (dialogue (conn_after run))
      = (assistant_messages (dialogue self) ++ reply_of (response_message c))%list).
Proof.
  intros Hllm c run. subst run c. unfold chat, get_llm_dialogue_with_memory.
  destruct depth as [|d]; simpl in *; rewrite Hllm;
    destruct (consume s [] 0) as [msgs n flag [e|]]; simpl;
    repeat split; try discriminate; intros _;
    destruct msgs as [|m msgs]; simpl;
    unfold put; rewrite ?assistant_messages_app; simpl;
    rewrite ?List.app_nil_r; reflexivity.
Qed.

(** What [chat] does when the invocation of the model raises. *)
Lemma chat_raised (llm : LLM) (uuid : string) (self : ConnectionHandler)
    (query : string) (depth : nat) (e : exn) :
  llm (session_id self) (history_sent self query depth) = Raised e ->
  let run := chat llm uuid self query depth in
  result run = Returned RetNone
  /\ llm_calls run = 1%nat
  /\ chunks_requested run = 0%nat
  /\ dialogue (conn_after run) = history_sent self query depth.
Proof.
  intros Hllm run. subst run. unfold chat, get_llm_dialogue_with_memory.
  destruct depth as [|d]; simpl in *; rewrite Hllm; simpl;
    repeat split; reflexivity.
Qed.

(** C1 as the specification states it fails: a turn aborted after its first
    fragment keeps that fragment as the assistant message and returns
    True. *)
Lemma chat_abort_not_discarded :
  let run := chat (llm_of aborted_stream) "sentence" handler0 "hello" 0 in
  aborted_at (llm_of aborted_stream) handler0 "hello" 0 [Yield (Some "Hi") false]
  /\ result run = Returned RetTrue
  /\ assistant_messages (dialogue (conn_after run)) = ["Hi"]
  /\ ~ fails_without_reply handler0 run.
Proof.
  repeat split.
  - exists (Some " there"), [Yield (Some "!") false]. split; reflexivity.
  - intros [Hfail _]. vm_compute in Hfail. discriminate.
Qed.

(** C1, amended: in every turn in which the abort flag is seen set while
    the stream is consumed, [chat] requests no fragment beyond the one at
    which it sees the flag and does not raise; the text accumulated before
    the abort is kept (it becomes the assistant message when it is not
    empty) and the call returns True. *)
Theorem chat_abort_keeps_partial_reply (llm : LLM) (uuid : string)
    (self : ConnectionHandler) (query : string) (depth : nat) (pre : stream) :
  aborted_at llm self query depth pre ->
  let run := chat llm uuid self query depth in
  chunks_requested run = S (List.length pre)
  /\ result run = Returned RetTrue
  /\ assistant_messages (dialogue (conn_after run))
     = (assistant_messages (dialogue self) ++ reply_of (kept pre))%list.
Proof.
  intros (c & rest & Hllm & Hcalm) run.
  destruct (chat_returned llm uuid self query depth _ Hllm)
    as (Hreq & _ & Hres & Hdlg).
  rewrite (consume_abort pre c rest [] 0 Hcalm) in Hreq, Hres, Hdlg.
  simpl in Hreq, Hres, Hdlg.
  subst run. repeat split.
  - rewrite Hreq. lia.
  - exact Hres.
  - apply Hdlg. reflexivity.
Qed.

Lemma chat_abort_keeps_partial_reply_witness :
  aborted_at (llm_of aborted_stream) handler0 "hello" 0 [Yield (Some "Hi") false]
  /\ (let run := chat (llm_of aborted_stream) "sentence" handler0 "hello" 0 in
      chunks_requested run = 2%nat
      /\ result run = Returned RetTrue
      /\ assistant_messages (dialogue (conn_after run)) = ["Hi"]).
Proof.
  split.
  - exists (Some " there"), [Yield (Some "!") false]. split; reflexivity.
  - apply (chat_abort_keeps_partial_reply (llm_of aborted_stream) "sentence"
             handler0 "hello" 0 [Yield (Some "Hi") false]).
    exists (Some " there"), [Yield (Some "!") false]. split; reflexivity.
Defined.

(** C5 as the specification states it fails: a turn whose stream is empty
    returns True. *)
Lemma chat_empty_stream_not_failure :
  let run := chat (llm_of []) "sentence" handler0 "hello" 0 in
  silent_turn (llm_of []) handler0 "hello" 0 = true
  /\ result run = Returned RetTrue
  /\ ~ fails_without_reply handler0 run.
Proof.
  repeat split.
  intros [Hfail _]. vm_compute in Hfail. discriminate.
Qed.

(** C5, amended: in every turn in which the invocation of the model raises
    or the stream yields no non-empty fragment, no assistant message is
    appended and the model is invoked once; [chat] returns None (failure)
    when the invocation raised, and True when the stream merely brought no
    text. *)
Theorem chat_silent_turn_no_reply (llm : LLM) (uuid : string)
    (self : ConnectionHandler) (query : string) (depth : nat) :
  silent_turn llm self query depth = true ->
  let run := chat llm uuid self query depth in
  assistant_messages (dialogue (conn_after run))
  = assistant_messages (dialogue self)
  /\ llm_calls run = 1%nat
  /\ result run
     = match llm (session_id self) (history_sent self query depth) with
       | Raised _ => Returned RetNone
       | Returned _ => Returned RetTrue
       end.
Proof.
  intros Hsilent run. subst run. unfold silent_turn in Hsilent.
  destruct (llm (session_id self) (history_sent self query depth))
    as [s|e] eqn:Hllm.
  - destruct (chat_returned llm uuid self query depth s Hllm)
      as (_ & Hcalls & Hres & Hdlg).
    destruct (consume_blank s [] 0 Hsilent) as [Hmsg Hraise].
    rewrite Hraise in Hres. rewrite Hmsg in Hdlg.
    repeat split; try assumption.
    rewrite (Hdlg Hraise). simpl. apply List.app_nil_r.
  - destruct (chat_raised llm uuid self query depth e Hllm)
      as (Hres & Hcalls & _ & Hdlg).
    repeat split; try assumption.
    rewrite Hdlg. apply assistant_messages_history.
Qed.

Lemma chat_silent_turn_no_reply_witness :
  silent_turn failing_llm handler0 "hello" 0 = true
  /\ (let run := chat failing_llm "sentence" handler0 "hello" 0 in
      assistant_messages (dialogue (conn_after run)) = []
      /\ llm_calls run = 1%nat
      /\ result run = Returned RetNone).
Proof.
  split; [reflexivity|].
  apply (chat_silent_turn_no_reply failing_llm "sentence" handler0 "hello" 0).
  reflexivity.
Defined.

(** C8: closing a handler as [__init__] builds it.  The attributes
    [stop_event] and [executor] were never assigned, so the first line of
    the [try] raises AttributeError, which is logged; no cleanup call is
    issued, and the [finally] reads [stop_event] again and raises to the
    caller. *)
Theorem close_after_init_raises (uuid : string) (t : option TTSHandle) :
  let run := close (init uuid t) in
  close_result run = Raised AttributeError
  /\ steps run = []
  /\ errors_logged run = 1%nat.
Proof. repeat split; reflexivity. Qed.

(** Even with both attributes assigned, a synthesizer that fails to close
    makes [close] skip the shutdown of the worker pool. *)
Lemma close_skips_pool_after_tts_failure :
  let run := close handler_with_pool in
  close_result run = Returned tt
  /\ steps run = [StopSignal; SynthRelease; StopSignal]
  /\ ~ In PoolShutdown (steps run).
Proof.
  repeat split; try reflexivity.
  simpl. intros [H|[H|[H|[]]]]; discriminate.
Qed.

End ConnectionFacts.

(** ** The synthesizer *)

Module TTSFacts.
Import TTS Scenarios FsFacts.

(** In ephemeral mode an engine that fails on every attempt is invoked
    once per unit of [max_repeat_time], and nothing is produced. *)
Lemma ephemeral_loop_always_failing (h : Helpers) (backend : Backend)
    (text : string) :
  (forall i, ephemeral_fails (backend i text None) = true) ->
  forall (m c : nat) (early : list bytes),
    ephemeral_loop h backend text m c early
    = {| delivered_early := early; produced := None;
         eph_calls := (c + m)%nat; eph_remaining := 0 |}.
Proof.
  intros Hfail m. induction m as [|m IH]; intros c early.
  - simpl. f_equal. lia.
  - simpl. specialize (Hfail c).
    destruct (backend c text None) as [w audio|w e]; simpl in Hfail.
    + apply negb_true_iff in Hfail. rewrite Hfail.
      rewrite IH. f_equal. lia.
    + rewrite IH. f_equal. lia.
Qed.

(** In ephemeral mode no engine is invoked more often than
    [max_repeat_time] allows. *)
Lemma ephemeral_loop_bounded (h : Helpers) (backend : Backend) (text : string) :
  forall (m c : nat) (early : list bytes),
    (eph_calls (ephemeral_loop h backend text m c early) <= c + m)%nat.
Proof.
  intros m. induction m as [|m IH]; intros c early; simpl; [lia|].
  destruct (backend c text None) as [w audio|w e].
  - destruct (truthy_bytes audio).
    + destruct (audio_bytes_to_data_stream h (default [] audio)) as [chunks [e|]].
      * specialize (IH (S c) (early ++ chunks)%list). lia.
      * simpl. lia.
    + specialize (IH (S c) early). lia.
  - specialize (IH (S c) early). lia.
Qed.

(** In persistent mode an engine that raises on every attempt, with
    [os.remove] succeeding on every partial file it leaves, is invoked
    once per unit of [max_repeat_time]; the loop ends with the counter at 0
    and the filesystem as it was. *)
Lemma persistent_loop_always_raising (h : Helpers) (backend : Backend)
    (text tmp_file : string) (fs0 : filesystem) :
  (forall i, exists w e,
      backend i text (Some tmp_file) = SpeakRaise w e
      /\ (w = true -> os_remove h (S i) tmp_file = None)) ->
  exists_ fs0 tmp_file = false ->
  forall (m c fuel : nat),
    (m <= fuel)%nat ->
    persistent_loop h backend text tmp_file fuel
      {| fs := fs0; calls := c; max_repeat_time := m |}
    = Some (Completed
              {| fs := fs0; calls := (c + m)%nat; max_repeat_time := 0 |}).
Proof.
  intros Hraise Hfresh m. induction m as [|m IH]; intros c fuel Hfuel.
  - destruct fuel; simpl; unfold persistent_guard; simpl;
      rewrite Hfresh; simpl; do 3 f_equal; lia.
  - destruct fuel as [|fuel]; [lia|].
    simpl. unfold persistent_guard at 1. simpl. rewrite Hfresh. simpl.
    unfold persistent_step. simpl.
    destruct (Hraise c) as (w & e & Hb & Hrm). rewrite Hb.
    destruct w.
    + rewrite exists_create, (Hrm eq_refl), (remove_create _ _ Hfresh).
      rewrite Nat.sub_0_r. rewrite IH by lia. do 3 f_equal. lia.
    + rewrite Hfresh. rewrite Nat.sub_0_r. rewrite IH by lia.
      do 3 f_equal. lia.
Qed.

(** The part of C2 that holds: an engine that fails on every attempt is
    invoked exactly 5 times in ephemeral mode (whether it raises or returns
    nothing), and exactly 5 times in persistent mode when every failure is
    raised and every partial file can be removed. *)
Lemma to_tts_five_attempts (h : Helpers) (backend : Backend)
    (self : TTSProviderBase) (date hex text : string) (fs0 : filesystem) (k : nat) :
  let t := clean_markdown h text in
  let tmp_file := generate_filename self date hex ".wav" in
  (if delete_audio_file self
   then forall i, ephemeral_fails (backend i t None) = true
   else (forall i, exists w e,
            backend i t (Some tmp_file) = SpeakRaise w e
            /\ (w = true -> os_remove h (S i) tmp_file = None))
        /\ exists_ fs0 tmp_file = false) ->
  exists run,
    to_tts h backend self date hex (5 + k) fs0 text = Some run
    /\ backend_calls run = 5%nat.
Proof.
  intros t tmp_file H. unfold to_tts.
  destruct (delete_audio_file self).
  - fold t. rewrite (ephemeral_loop_always_failing h backend t H 5 0 []).
    eexists. split; reflexivity.
  - destruct H as [Hraise Hfresh]. fold t. fold tmp_file.
    rewrite (persistent_loop_always_raising h backend t tmp_file fs0
               Hraise Hfresh 5 0 (5 + k)) by lia.
    eexists. split; reflexivity.
Qed.

(** The persistent loop with an engine that returns without writing the
    target file: the counter never moves. *)
Lemma persistent_iter_silent (h : Helpers) (text tmp_file : string) (n : nat) :
  forall c : nat,
    persistent_iter h silent_backend text tmp_file n
      {| fs := ∅; calls := c; max_repeat_time := 5 |}
    = Completed {| fs := ∅; calls := (c + n)%nat; max_repeat_time := 5 |}.
Proof.
  induction n as [|n IH]; intros c; simpl.
  - do 2 f_equal. lia.
  - unfold persistent_step. simpl. rewrite IH. do 2 f_equal. lia.
Qed.

Lemma persistent_loop_silent (h : Helpers) (text tmp_file : string)
    (fuel : nat) :
  forall c : nat,
    persistent_loop h silent_backend text tmp_file fuel
      {| fs := ∅; calls := c; max_repeat_time := 5 |}
    = None.
Proof.
  induction fuel as [|fuel IH]; intros c; simpl;
    unfold persistent_guard; simpl.
  - reflexivity.
  - unfold persistent_step. simpl. apply IH.
Qed.

(** C2: in persistent mode, with an engine that returns normally without
    creating the target file, the loop of [to_tts] and of [to_tts_stream]
    has, after any number [n] of iterations, run its body [n] times to the
    end, invoked the engine [n] times and is still running, since only the
    [except] clause decrements the counter; no amount of fuel lets either
    call return. *)
Theorem to_tts_silent_backend_unbounded (h : Helpers) (out : string)
    (fmt : option (attr string)) (date hex text : string) (n : nat) :
  let self := persistent_provider out fmt in
  let tmp_file := generate_filename self date hex ".wav" in
  exists st : pstate,
    persistent_iter h silent_backend (clean_markdown h text) tmp_file n
      {| fs := ∅; calls := 0; max_repeat_time := 5 |}
    = Completed st
    /\ calls st = n
    /\ persistent_guard tmp_file st = true
    /\ to_tts h silent_backend self date hex n ∅ text = None
    /\ to_tts_stream h silent_backend self date hex n ∅ text = None.
Proof.
  intros self tmp_file.
  rewrite persistent_iter_silent. simpl.
  eexists. split; [reflexivity|]. simpl.
  repeat split.
  - unfold to_tts. simpl. fold self. fold tmp_file.
    rewrite persistent_loop_silent. reflexivity.
  - unfold to_tts_stream. simpl. fold self. fold tmp_file.
    rewrite persistent_loop_silent. reflexivity.
Qed.

(** C3: in persistent mode, after five attempts that all raised without
    producing the target file, [to_tts] returns the path of the missing
    file, not None. *)
Theorem to_tts_exhausted_returns_path (h : Helpers) (out : string)
    (fmt : option (attr string)) (date hex text : string) (k : nat) :
  let self := persistent_provider out fmt in
  let tmp_file := generate_filename self date hex ".wav" in
  to_tts h raising_backend self date hex (5 + k) ∅ text
  = Some {| value := TtsPath tmp_file;
            handed_to_callback := [];
            backend_calls := 5;
            fs_after := ∅ |}
  /\ exists_ ∅ tmp_file = false.
Proof.
  intros self tmp_file. split; [|reflexivity].
  unfold to_tts. change (delete_audio_file self) with false. cbv iota.
  fold tmp_file.
  rewrite (persistent_loop_always_raising h raising_backend
             (clean_markdown h text) tmp_file ∅) with (m := 5%nat) (c := 0%nat);
    [reflexivity| |reflexivity|lia].
  intros i. exists false, RuntimeError. split; [reflexivity|discriminate].
Qed.

End TTSFacts.

(** ** The recognizer *)

Module ASRFacts.
Import ASR Scenarios FsFacts.

(** One turn of the loop of the file-based call, given what the body of
    the [try] did. *)
Lemma file_loop_step (self : ASRProvider) (world : World)
    (audio_file_path session_id : string) (remaining' : nat)
    (st st1 : loop_state) (r : outcome string) :
  file_try self (world (attempts st)) audio_file_path session_id
    (begin_attempt st) = (st1, r) ->
  file_loop self world audio_file_path session_id (S remaining') st
  = let env := world (attempts st) in
    let bail :=
      {| asr_result := Returned (Some ("", file_path st1));
         final := file_finally self env audio_file_path st1 |} in
    match r with
    | Returned text =>
        {| asr_result := Returned (Some (text, file_path st1));
           final := file_finally self env audio_file_path st1 |}
    | Raised e =>
        if is_FileNotFoundError e then bail
        else if is_OSError e then
          match remaining' with
          | O => bail
          | S _ =>
              file_loop self world audio_file_path session_id remaining'
                (file_finally self env audio_file_path (sleep st1 RETRY_DELAY))
          end
        else bail
    end.
Proof. intros H. cbn [file_loop]. rewrite H. reflexivity. Qed.

Lemma stream_loop_step (self : ASRProvider) (world : World)
    (audio_data : bytes) (session_id file_extension : string)
    (remaining' : nat) (st st1 : loop_state) (r : outcome string) :
  stream_try self (world (attempts st)) audio_data session_id file_extension
    (begin_attempt st) = (st1, r) ->
  stream_loop self world audio_data session_id file_extension (S remaining') st
  = let env := world (attempts st) in
    let bail :=
      {| asr_result := Returned (Some ("", file_path st1));
         final := stream_finally self env st1 |} in
    match r with
    | Returned text =>
        {| asr_result := Returned (Some (text, file_path st1));
           final := stream_finally self env st1 |}
    | Raised e =>
        if is_OSError e then
          match remaining' with
          | O => bail
          | S _ =>
              stream_loop self world audio_data session_id file_extension
                remaining' (stream_finally self env (sleep st1 RETRY_DELAY))
          end
        else bail
    end.
Proof. intros H. cbn [stream_loop]. rewrite H. reflexivity. Qed.

(** The cleanup of the file-based call changes the filesystem only. *)
Lemma file_finally_locals (self : ASRProvider) (env : attempt_env)
    (audio_file_path : string) (st : loop_state) :
  let st' := file_finally self env audio_file_path st in
  file_path st' = file_path st /\ attempts st' = attempts st
  /\ sleeps st' = sleeps st /\ generate_calls st' = generate_calls st.
Proof.
  unfold file_finally.
  destruct (file_path st) as [p|] eqn:Hp; [|repeat split; assumption].
  destruct (delete_audio_file self && negb (String.eqb p "")
            && exists_ (fs st) p && negb (String.eqb p audio_file_path));
    [|repeat split; assumption].
  destruct (os_remove env); repeat split; assumption.
Qed.

Lemma stream_finally_locals (self : ASRProvider) (env : attempt_env)
    (st : loop_state) :
  let st' := stream_finally self env st in
  file_path st' = file_path st /\ attempts st' = attempts st
  /\ sleeps st' = sleeps st /\ generate_calls st' = generate_calls st.
Proof.
  unfold stream_finally.
  destruct (file_path st) as [p|] eqn:Hp; [|repeat split; assumption].
  destruct (delete_audio_file self && negb (String.eqb p "")
            && exists_ (fs st) p);
    [|repeat split; assumption].
  destruct (os_remove env); repeat split; assumption.
Qed.

(** The cleanup of the file-based call never removes the input file. *)
Lemma file_finally_keeps_input (self : ASRProvider) (env : attempt_env)
    (audio_file_path : string) (st : loop_state) :
  exists_ (fs st) audio_file_path = true ->
  exists_ (fs (file_finally self env audio_file_path st)) audio_file_path = true.
Proof.
  intros Hin. unfold file_finally.
  destruct (file_path st) as [p|]; [|exact Hin].
  destruct (String.eqb p audio_file_path) eqn:Heq.
  - rewrite andb_false_r. exact Hin.
  - destruct (delete_audio_file self && negb (String.eqb p "")
              && exists_ (fs st) p && negb false); [|exact Hin].
    destruct (os_remove env); [exact Hin|].
    simpl. apply exists_remove_other; [|exact Hin].
    apply String.eqb_neq. exact Heq.
Qed.

(** With retention the cleanups remove nothing. *)
Lemma file_finally_retention (self : ASRProvider) (env : attempt_env)
    (audio_file_path : string) (st : loop_state) :
  delete_audio_file self = false ->
  file_finally self env audio_file_path st = st.
Proof.
  intros H. unfold file_finally. rewrite H.
  destruct (file_path st); reflexivity.
Qed.

Lemma stream_finally_retention (self : ASRProvider) (env : attempt_env)
    (st : loop_state) :
  delete_audio_file self = false -> stream_finally self env st = st.
Proof.
  intros H. unfold stream_finally. rewrite H.
  destruct (file_path st); reflexivity.
Qed.

(** With an extension outside the supported formats the body of the
    [try] fails in its validation, whether the file exists or not. *)
Lemma file_try_unsupported (self : ASRProvider) (env : attempt_env)
    (audio_file_path session_id : string) (st : loop_state) :
  supported (lower (splitext_ext audio_file_path)) = false ->
  exists e,
    file_try self env audio_file_path session_id st = (st, Raised e)
    /\ (e = FileNotFoundError \/ e = ValueError).
Proof.
  intros Hext. unfold file_try.
  destruct (exists_ (fs st) audio_file_path); simpl.
  - rewrite Hext. simpl. exists ValueError. split; [reflexivity|right; reflexivity].
  - exists FileNotFoundError. split; [reflexivity|left; reflexivity].
Qed.

(** C6 as the specification states it fails: a file with an unsupported
    extension is rejected without any call to the recognition engine. *)
Lemma unsupported_file_no_inference :
  let run :=
    speech_to_text_from_audio_file keeping quiet_world {["clip.txt"]}
      "clip.txt" "sid" in
  supported (lower (splitext_ext "clip.txt")) = false
  /\ generate_calls (final run) = 0%nat
  /\ ~ rejected_after_one_inference run.
Proof.
  repeat split.
  intros (_ & _ & Hcalls). vm_compute in Hcalls. discriminate.
Qed.

(** C6, amended: a recognition call on a file whose extension, compared
    case-insensitively, is not one of .wav, .mp3, .flac, .m4a returns the
    empty text with no artifact path after a single attempt, without retry
    or delay, and the recognition engine is not called at all; a call on a
    stream with such an extension makes no attempt and no call to the
    engine either.  Neither call touches the filesystem. *)
Theorem unsupported_extension_rejected (self : ASRProvider) (world : World)
    (fs0 : filesystem) (audio_file_path session_id : string)
    (audio_data : bytes) (file_extension : string) :
  supported (lower (splitext_ext audio_file_path)) = false ->
  supported (lower file_extension) = false ->
  let by_file :=
    speech_to_text_from_audio_file self world fs0 audio_file_path session_id in
  let by_stream :=
    speech_to_text_from_audio_stream self world fs0 audio_data session_id
      file_extension in
  (asr_result by_file = Returned (Some ("", None))
   /\ attempts (final by_file) = 1%nat
   /\ sleeps (final by_file) = []
   /\ generate_calls (final by_file) = 0%nat
   /\ fs (final by_file) = fs0)
  /\ (attempts (final by_stream) = 0%nat
      /\ sleeps (final by_stream) = []
      /\ generate_calls (final by_stream) = 0%nat
      /\ fs (final by_stream) = fs0).
Proof.
  intros Hfile Hstream by_file by_stream. split.
  - subst by_file. unfold speech_to_text_from_audio_file, MAX_RETRIES.
    destruct (file_try_unsupported self (world 0%nat) audio_file_path
                session_id (begin_attempt (start fs0)) Hfile) as (e & Htry & He).
    rewrite (file_loop_step _ _ _ _ _ _ _ _ Htry).
    destruct He as [-> | ->]; repeat split; reflexivity.
  - subst by_stream. unfold speech_to_text_from_audio_stream.
    rewrite Hstream. repeat split; reflexivity.
Qed.

Lemma unsupported_extension_rejected_witness :
  supported (lower (splitext_ext "clip.txt")) = false
  /\ supported (lower ".OGG") = false
  /\ asr_result
       (speech_to_text_from_audio_file keeping quiet_world {["clip.txt"]}
          "clip.txt" "sid")
     = Returned (Some ("", None))
  /\ generate_calls
       (final (speech_to_text_from_audio_stream keeping quiet_world
                 {["clip.txt"]} [] "sid" ".OGG"))
     = 0%nat.
Proof.
  split; [reflexivity|]. split; [reflexivity|].
  destruct (unsupported_extension_rejected keeping quiet_world {["clip.txt"]}
              "clip.txt" "sid" [] ".OGG" eq_refl eq_refl)
    as ((Hres & _) & (_ & _ & Hcalls & _)).
  split; [exact Hres|exact Hcalls].
Defined.

(** The stream-based call does not return on an unsupported extension:
    the ValueError of its validation reaches the caller. *)
Lemma unsupported_stream_raises (self : ASRProvider) (world : World)
    (fs0 : filesystem) (audio_data : bytes) (session_id file_extension : string) :
  supported (lower file_extension) = false ->
  asr_result
    (speech_to_text_from_audio_stream self world fs0 audio_data session_id
       file_extension)
  = Raised ValueError.
Proof.
  intros H. unfold speech_to_text_from_audio_stream. rewrite H. reflexivity.
Qed.

(** What the body of the [try] leaves alone: the counters of attempts and
    delays; the input file stays where it is. *)
Lemma file_try_frame (self : ASRProvider) (env : attempt_env)
    (audio_file_path session_id : string) (st : loop_state) :
  let st1 := fst (file_try self env audio_file_path session_id st) in
  attempts st1 = attempts st
  /\ sleeps st1 = sleeps st
  /\ (exists_ (fs st) audio_file_path = true ->
      exists_ (fs st1) audio_file_path = true).
Proof.
  unfold file_try.
  destruct (exists_ (fs st) audio_file_path) eqn:Hin; simpl;
    [|repeat split; auto; discriminate].
  destruct (supported (lower (splitext_ext audio_file_path))); simpl;
    [|repeat split; auto].
  destruct (delete_audio_file self); simpl.
  - destruct (read_input env); simpl; repeat split; auto.
  - destruct (getsize env) as [sz|]; simpl; [|repeat split; auto].
    destruct (disk_free env) as [free|]; simpl; [|repeat split; auto].
    destruct (free <? sz * 2)%nat; simpl; [repeat split; auto|].
    destruct (write_artifact env) as [|e partial]; simpl.
    + destruct (read_input env); simpl; repeat split; auto;
        intros _; apply exists_create_mono; exact Hin.
    + destruct partial; simpl; repeat split; auto.
      intros _. apply exists_create_mono; exact Hin.
Qed.

(** A resource fault makes the body of the [try] of the file-based call
    raise an OSError that is not a FileNotFoundError, before the
    recognition engine is reached. *)
Lemma file_try_resource_fault (self : ASRProvider) (env : attempt_env)
    (audio_file_path session_id : string) (st : loop_state) :
  exists_ (fs st) audio_file_path = true ->
  supported (lower (splitext_ext audio_file_path)) = true ->
  file_resource_fault self env = true ->
  exists st1 e,
    file_try self env audio_file_path session_id st = (st1, Raised e)
    /\ plain_OSError e = true
    /\ generate_calls st1 = generate_calls st.
Proof.
  intros Hin Hext Hfault. unfold file_try, file_resource_fault in *.
  rewrite Hin, Hext. simpl.
  destruct (delete_audio_file self); simpl in *.
  - destruct (read_input env) as [data|e]; [discriminate|].
    eexists _, e. repeat split; auto.
  - destruct (getsize env) as [sz|e]; [|eexists _, e; repeat split; auto].
    destruct (disk_free env) as [free|e]; [|eexists _, e; repeat split; auto].
    destruct (free <? sz * 2)%nat; simpl in *;
      [eexists _, OSError; repeat split; auto|].
    destruct (write_artifact env) as [|e partial].
    + destruct (read_input env) as [data|e]; [discriminate|].
      eexists _, e. repeat split; auto.
    + eexists _, e. repeat split; auto. destruct partial; reflexivity.
Qed.

Lemma stream_try_resource_fault (self : ASRProvider) (env : attempt_env)
    (audio_data : bytes) (session_id file_extension : string) (st : loop_state) :
  stream_resource_fault self (List.length audio_data) env = true ->
  exists st1 e,
    stream_try self env audio_data session_id file_extension st
    = (st1, Raised e)
    /\ is_OSError e = true
    /\ attempts st1 = attempts st
    /\ sleeps st1 = sleeps st
    /\ generate_calls st1 = generate_calls st.
Proof.
  unfold stream_try, stream_resource_fault. intros Hfault.
  destruct (delete_audio_file self); simpl in *; [discriminate|].
  destruct (disk_free env) as [free|e]; [|eexists _, e; repeat split; auto].
  destruct (free <? List.length audio_data * 2)%nat; simpl in *;
    [eexists _, OSError; repeat split; auto|].
  destruct (write_artifact env) as [|e partial]; [discriminate|].
  eexists _, e. repeat split; auto; destruct partial; reflexivity.
Qed.

Lemma plain_OSError_handlers (e : exn) :
  plain_OSError e = true ->
  is_FileNotFoundError e = false /\ is_OSError e = true.
Proof. destruct e; simpl; intros H; try discriminate; split; reflexivity. Qed.

(** The file-based call under resource faults. *)
Lemma file_call_gives_up (self : ASRProvider) (world : World)
    (fs0 : filesystem) (audio_file_path session_id : string) :
  exists_ fs0 audio_file_path = true ->
  supported (lower (splitext_ext audio_file_path)) = true ->
  (forall i, file_resource_fault self (world i) = true) ->
  let run :=
    speech_to_text_from_audio_file self world fs0 audio_file_path session_id in
  text_of run = Some ""
  /\ attempts (final run) = 2%nat
  /\ sleeps (final run) = [RETRY_DELAY]
  /\ generate_calls (final run) = 0%nat.
Proof.
  intros Hin Hext Hfile run.
  subst run. unfold speech_to_text_from_audio_file, MAX_RETRIES.
  set (st0 := start fs0).
  destruct (file_try_resource_fault self (world (attempts st0))
              audio_file_path session_id (begin_attempt st0) Hin Hext
              (Hfile _)) as (st1 & e1 & Htry1 & He1 & Hg1).
  destruct (plain_OSError_handlers e1 He1) as [Hfnf1 Hos1].
  rewrite (file_loop_step _ _ _ _ _ _ _ _ Htry1). cbv zeta.
  rewrite Hfnf1, Hos1.
  pose proof (file_try_frame self (world (attempts st0)) audio_file_path
                session_id (begin_attempt st0)) as Hframe1.
  rewrite Htry1 in Hframe1. simpl in Hframe1.
  destruct Hframe1 as (Ha1 & Hs1 & Hk1). specialize (Hk1 Hin).
  set (st2 := file_finally self (world (attempts st0)) audio_file_path
                (sleep st1 RETRY_DELAY)).
  destruct (file_finally_locals self (world (attempts st0)) audio_file_path
              (sleep st1 RETRY_DELAY)) as (_ & Ha2 & Hs2 & Hg2).
  fold st2 in Ha2, Hs2, Hg2. simpl in Ha2, Hs2, Hg2.
  assert (Hin2 : exists_ (fs (begin_attempt st2)) audio_file_path = true).
  { simpl. apply file_finally_keeps_input. exact Hk1. }
  destruct (file_try_resource_fault self (world (attempts st2))
              audio_file_path session_id (begin_attempt st2) Hin2 Hext
              (Hfile _)) as (st3 & e3 & Htry3 & He3 & Hg3).
  destruct (plain_OSError_handlers e3 He3) as [Hfnf3 Hos3].
  rewrite (file_loop_step _ _ _ _ _ _ _ _ Htry3). cbv zeta.
  rewrite Hfnf3, Hos3.
  pose proof (file_try_frame self (world (attempts st2)) audio_file_path
                session_id (begin_attempt st2)) as Hframe3.
  rewrite Htry3 in Hframe3. simpl in Hframe3.
  destruct Hframe3 as (Ha3 & Hs3 & _).
  destruct (file_finally_locals self (world (attempts st2)) audio_file_path
              st3) as (_ & Ha4 & Hs4 & Hg4).
  unfold text_of. simpl. repeat split.
  - rewrite Ha4, Ha3, Ha2, Ha1. reflexivity.
  - rewrite Hs4, Hs3, Hs2, Hs1. reflexivity.
  - rewrite Hg4, Hg3. simpl. rewrite Hg2, Hg1. reflexivity.
Qed.

(** The stream-based call under resource faults. *)
Lemma stream_call_gives_up (self : ASRProvider) (world : World)
    (fs0 : filesystem) (audio_data : bytes) (session_id file_extension : string) :
  supported (lower file_extension) = true ->
  (forall i, stream_resource_fault self (List.length audio_data) (world i) = true) ->
  let run :=
    speech_to_text_from_audio_stream self world fs0 audio_data session_id
      file_extension in
  text_of run = Some ""
  /\ attempts (final run) = 2%nat
  /\ sleeps (final run) = [RETRY_DELAY]
  /\ generate_calls (final run) = 0%nat.
Proof.
  intros Hsext Hstream run.
  subst run. unfold speech_to_text_from_audio_stream, MAX_RETRIES.
  rewrite Hsext. simpl negb. cbv iota.
  set (st0 := start fs0).
  destruct (stream_try_resource_fault self (world (attempts st0)) audio_data
              session_id file_extension (begin_attempt st0) (Hstream _))
    as (st1 & e1 & Htry1 & Hos1 & Ha1 & Hs1 & Hg1).
  rewrite (stream_loop_step _ _ _ _ _ _ _ _ _ Htry1). cbv zeta.
  rewrite Hos1.
  set (st2 := stream_finally self (world (attempts st0))
                (sleep st1 RETRY_DELAY)).
  destruct (stream_finally_locals self (world (attempts st0))
              (sleep st1 RETRY_DELAY)) as (_ & Ha2 & Hs2 & Hg2).
  fold st2 in Ha2, Hs2, Hg2. simpl in Ha2, Hs2, Hg2.
  destruct (stream_try_resource_fault self (world (attempts st2)) audio_data
              session_id file_extension (begin_attempt st2) (Hstream _))
    as (st3 & e3 & Htry3 & Hos3 & Ha3 & Hs3 & Hg3).
  rewrite (stream_loop_step _ _ _ _ _ _ _ _ _ Htry3). cbv zeta.
  rewrite Hos3.
  destruct (stream_finally_locals self (world (attempts st2)) st3)
    as (_ & Ha4 & Hs4 & Hg4).
  unfold text_of. simpl. repeat split.
  - rewrite Ha4, Ha3. simpl. rewrite Ha2, Ha1. reflexivity.
  - rewrite Hs4, Hs3. simpl. rewrite Hs2, Hs1. reflexivity.
  - rewrite Hg4, Hg3. simpl. rewrite Hg2, Hg1. reflexivity.
Qed.

(** C7 as the specification states it fails in the file-based call: a copy
    that fails with a FileNotFoundError on every attempt fails with an
    OSError, yet it meets the handler of line 196 first, and the call
    returns after a single attempt without any delay. *)
Lemma file_not_found_is_not_retried :
  (forall i, exists partial,
     write_artifact (vanished_world i) = WriteFailed FileNotFoundError partial
     /\ is_OSError FileNotFoundError = true)
  /\ attempts
       (final (speech_to_text_from_audio_file keeping vanished_world
                 {["clip.WAV"]} "clip.WAV" "sid"))
     = 1%nat
  /\ ~ gave_up_after_two
        (speech_to_text_from_audio_file keeping vanished_world {["clip.WAV"]}
           "clip.WAV" "sid").
Proof.
  split; [intros i; exists false; split; reflexivity|].
  split; [reflexivity|].
  intros (_ & Hattempts & _). vm_compute in Hattempts. discriminate.
Qed.

(** C7, amended: when every attempt of a recognition call meets a resource
    fault (insufficient headroom, or an OSError from a disk query, from the
    copy or write of the artifact, or from the read of the input; in the
    file-based call an OSError other than FileNotFoundError), the call
    makes exactly 2 attempts with a single delay of [RETRY_DELAY] between
    them, never reaches the recognition engine, and returns the empty text
    instead of raising.  This holds for the file-based call (on an existing
    file of a supported format) and for the stream-based call (with a
    supported extension). *)
Theorem recognizer_gives_up_after_two_faults
    (self : ASRProvider) (world : World) (fs0 : filesystem)
    (audio_file_path session_id : string)
    (self' : ASRProvider) (world' : World) (fs0' : filesystem)
    (audio_data : bytes) (session_id' file_extension : string) :
  exists_ fs0 audio_file_path = true ->
  supported (lower (splitext_ext audio_file_path)) = true ->
  (forall i, file_resource_fault self (world i) = true) ->
  supported (lower file_extension) = true ->
  (forall i,
     stream_resource_fault self' (List.length audio_data) (world' i) = true) ->
  let by_file :=
    speech_to_text_from_audio_file self world fs0 audio_file_path session_id in
  let by_stream :=
    speech_to_text_from_audio_stream self' world' fs0' audio_data session_id'
      file_extension in
  (text_of by_file = Some ""
   /\ attempts (final by_file) = 2%nat
   /\ sleeps (final by_file) = [RETRY_DELAY]
   /\ generate_calls (final by_file) = 0%nat)
  /\ (text_of by_stream = Some ""
      /\ attempts (final by_stream) = 2%nat
      /\ sleeps (final by_stream) = [RETRY_DELAY]
      /\ generate_calls (final by_stream) = 0%nat).
Proof.
  intros Hin Hext Hfile Hsext Hstream by_file by_stream. split.
  - apply file_call_gives_up; assumption.
  - apply stream_call_gives_up; assumption.
Qed.

Lemma recognizer_gives_up_after_two_faults_witness :
  exists_ {["clip.WAV"]} "clip.WAV" = true
  /\ supported (lower (splitext_ext "clip.WAV")) = true
  /\ (forall i, file_resource_fault discarding (unreadable_world i) = true)
  /\ supported (lower ".Mp3") = true
  /\ (forall i, stream_resource_fault keeping 4 (full_disk_world i) = true)
  /\ attempts
       (final (speech_to_text_from_audio_file discarding unreadable_world
                 {["clip.WAV"]} "clip.WAV" "sid"))
     = 2%nat
  /\ sleeps
       (final (speech_to_text_from_audio_stream keeping full_disk_world ∅
                 [Byte.x00; Byte.x00; Byte.x00; Byte.x00] "sid" ".Mp3"))
     = [1%nat].
Proof.
  assert (H1 : exists_ {["clip.WAV"]} "clip.WAV" = true) by reflexivity.
  assert (H2 : supported (lower (splitext_ext "clip.WAV")) = true)
    by reflexivity.
  assert (H3 : forall i, file_resource_fault discarding (unreadable_world i) = true)
    by (intros i; reflexivity).
  assert (H4 : supported (lower ".Mp3") = true) by reflexivity.
  assert (H5 : forall i,
             stream_resource_fault keeping
               (List.length [Byte.x00; Byte.x00; Byte.x00; Byte.x00])
               (full_disk_world i) = true)
    by (intros i; reflexivity).
  destruct (recognizer_gives_up_after_two_faults discarding unreadable_world
              {["clip.WAV"]} "clip.WAV" "sid" keeping full_disk_world ∅
              [Byte.x00; Byte.x00; Byte.x00; Byte.x00] "sid" ".Mp3"
              H1 H2 H3 H4 H5)
    as ((_ & Hatt & _) & (_ & _ & Hsl & _)).
  repeat split; assumption.
Defined.


(** Without retention the body of the [try] of the file-based call writes
    nothing, and [file_path] is None or the input path. *)
Lemma file_try_discarding (self : ASRProvider) (env : attempt_env)
    (audio_file_path session_id : string) (st : loop_state) :
  delete_audio_file self = true ->
  let st1 := fst (file_try self env audio_file_path session_id st) in
  fs st1 = fs st
  /\ (file_path st1 = file_path st \/ file_path st1 = Some audio_file_path).
Proof.
  intros Hdel. unfold file_try. rewrite Hdel. simpl.
  destruct (exists_ (fs st) audio_file_path); simpl; [|split; auto].
  destruct (supported (lower (splitext_ext audio_file_path))); simpl;
    [|split; auto].
  destruct (read_input env); simpl; split; auto.
Qed.

(** The cleanup of the file-based call does nothing while [file_path] is
    None or the input path. *)
Lemma file_finally_own_input (self : ASRProvider) (env : attempt_env)
    (audio_file_path : string) (st : loop_state) :
  file_path st = None \/ file_path st = Some audio_file_path ->
  file_finally self env audio_file_path st = st.
Proof.
  intros [H|H]; unfold file_finally; rewrite H; [reflexivity|].
  rewrite String.eqb_refl. simpl. rewrite andb_false_r. reflexivity.
Qed.

(** Without retention the loop of the file-based call leaves the
    filesystem as it found it, whatever the environment does. *)
Lemma file_loop_discarding (self : ASRProvider) (world : World)
    (audio_file_path session_id : string) :
  delete_audio_file self = true ->
  forall (remaining : nat) (st : loop_state),
    file_path st = None \/ file_path st = Some audio_file_path ->
    fs (final (file_loop self world audio_file_path session_id remaining st))
    = fs st.
Proof.
  intros Hdel remaining.
  induction remaining as [|remaining IH]; intros st Hinv; [reflexivity|].
  destruct (file_try self (world (attempts st)) audio_file_path session_id
              (begin_attempt st)) as [st1 r] eqn:Htry.
  rewrite (file_loop_step _ _ _ _ _ _ _ _ Htry). cbv zeta.
  pose proof (file_try_discarding self (world (attempts st)) audio_file_path
                session_id (begin_attempt st) Hdel) as Hframe.
  rewrite Htry in Hframe. simpl in Hframe. destruct Hframe as [Hfs Hpath].
  assert (Hinv1 : file_path st1 = None \/ file_path st1 = Some audio_file_path).
  { destruct Hpath as [Hp|Hp]; [rewrite Hp; exact Hinv|right; exact Hp]. }
  assert (Hdone : fs (file_finally self (world (attempts st)) audio_file_path st1)
                  = fs st).
  { rewrite file_finally_own_input by exact Hinv1. exact Hfs. }
  destruct r as [text|e]; [exact Hdone|].
  destruct (is_FileNotFoundError e); [exact Hdone|].
  destruct (is_OSError e); [|exact Hdone].
  destruct remaining as [|remaining']; [exact Hdone|].
  rewrite IH.
  - rewrite file_finally_own_input by exact Hinv1. exact Hfs.
  - rewrite file_finally_own_input by exact Hinv1. exact Hinv1.
Qed.

(** The cleanup of the stream-based call does nothing while [file_path]
    is None. *)
Lemma stream_finally_no_path (self : ASRProvider) (env : attempt_env)
    (st : loop_state) :
  file_path st = None -> stream_finally self env st = st.
Proof. intros H. unfold stream_finally. rewrite H. reflexivity. Qed.

(** Without retention the stream-based call never assigns [file_path],
    and so writes and removes nothing. *)
Lemma stream_loop_discarding (self : ASRProvider) (world : World)
    (audio_data : bytes) (session_id file_extension : string) :
  delete_audio_file self = true ->
  forall (remaining : nat) (st : loop_state),
    file_path st = None ->
    fs (final (stream_loop self world audio_data session_id file_extension
                 remaining st))
    = fs st.
Proof.
  intros Hdel remaining.
  induction remaining as [|remaining IH]; intros st Hinv; [reflexivity|].
  destruct (infer (world (attempts st)) audio_data (begin_attempt st))
    as [st1 r] eqn:Hinfer.
  assert (Htry : stream_try self (world (attempts st)) audio_data session_id
                   file_extension (begin_attempt st) = (st1, r)).
  { unfold stream_try. rewrite Hdel. exact Hinfer. }
  unfold infer in Hinfer. injection Hinfer as Hst1 Hr.
  assert (Hpath : file_path st1 = None) by (subst st1; exact Hinv).
  assert (Hfs : fs st1 = fs st) by (subst st1; reflexivity).
  rewrite (stream_loop_step _ _ _ _ _ _ _ _ _ Htry). cbv zeta.
  rewrite !stream_finally_no_path by assumption.
  destruct r as [text|e]; [exact Hfs|].
  destruct (is_OSError e); [|exact Hfs].
  destruct remaining as [|remaining']; [exact Hfs|].
  rewrite IH; [exact Hfs|exact Hpath].
Qed.

(** Every run of the loop of the file-based call that makes an attempt
    ends in its cleanup. *)
Lemma file_loop_ends_in_cleanup (self : ASRProvider) (world : World)
    (audio_file_path session_id : string) :
  forall (remaining' : nat) (st : loop_state),
    exists (i : nat) (st1 : loop_state),
      final (file_loop self world audio_file_path session_id (S remaining') st)
      = file_finally self (world i) audio_file_path st1.
Proof.
  intros remaining'.
  induction remaining' as [|remaining' IH]; intros st;
    destruct (file_try self (world (attempts st)) audio_file_path session_id
                (begin_attempt st)) as [st1 r] eqn:Htry;
    rewrite (file_loop_step _ _ _ _ _ _ _ _ Htry); cbv zeta;
    destruct r as [text|e];
    try (exists (attempts st), st1; reflexivity);
    destruct (is_FileNotFoundError e);
    try (exists (attempts st), st1; reflexivity);
    destruct (is_OSError e);
    try (exists (attempts st), st1; reflexivity).
  apply IH.
Qed.

Lemma stream_loop_ends_in_cleanup (self : ASRProvider) (world : World)
    (audio_data : bytes) (session_id file_extension : string) :
  forall (remaining' : nat) (st : loop_state),
    exists (i : nat) (st1 : loop_state),
      final (stream_loop self world audio_data session_id file_extension
               (S remaining') st)
      = stream_finally self (world i) st1.
Proof.
  intros remaining'.
  induction remaining' as [|remaining' IH]; intros st;
    destruct (stream_try self (world (attempts st)) audio_data session_id
                file_extension (begin_attempt st)) as [st1 r] eqn:Htry;
    rewrite (stream_loop_step _ _ _ _ _ _ _ _ _ Htry); cbv zeta;
    destruct r as [text|e];
    try (exists (attempts st), st1; reflexivity);
    destruct (is_OSError e);
    try (exists (attempts st), st1; reflexivity).
  apply IH.
Qed.

(** Without retention the cleanup of the file-based call, entered with a
    working file other than the input, removes it unless [os.remove]
    raises, and touches nothing else. *)
Lemma file_finally_cleans (self : ASRProvider) (env : attempt_env)
    (audio_file_path : string) (st : loop_state) (p : string) :
  delete_audio_file self = true ->
  file_path st = Some p ->
  p <> "" ->
  exists_ (fs st) p = true ->
  p <> audio_file_path ->
  cleaned env (fs st) (fs (file_finally self env audio_file_path st)) p.
Proof.
  intros Hdel Hp Hne Hex Hin. unfold cleaned, file_finally.
  rewrite Hp, Hdel, Hex.
  apply String.eqb_neq in Hne. apply String.eqb_neq in Hin.
  rewrite Hne, Hin. cbn [negb andb].
  destruct (os_remove env); cbn [fs with_fs].
  - split; [exact Hex|reflexivity].
  - split; [apply exists_remove_same|].
    intros q Hq. apply exists_remove_other_eq. congruence.
Qed.

Lemma stream_finally_cleans (self : ASRProvider) (env : attempt_env)
    (st : loop_state) (p : string) :
  delete_audio_file self = true ->
  file_path st = Some p ->
  p <> "" ->
  exists_ (fs st) p = true ->
  cleaned env (fs st) (fs (stream_finally self env st)) p.
Proof.
  intros Hdel Hp Hne Hex. unfold cleaned, stream_finally.
  rewrite Hp, Hdel, Hex.
  apply String.eqb_neq in Hne. rewrite Hne. cbn [negb andb].
  destruct (os_remove env); cbn [fs with_fs].
  - split; [exact Hex|reflexivity].
  - split; [apply exists_remove_same|].
    intros q Hq. apply exists_remove_other_eq. congruence.
Qed.

(** The cleanup of the file-based call leaves the input file as it is,
    in every state and in either mode. *)
Lemma file_finally_spares_input (self : ASRProvider) (env : attempt_env)
    (audio_file_path : string) (st : loop_state) :
  exists_ (fs (file_finally self env audio_file_path st)) audio_file_path
  = exists_ (fs st) audio_file_path.
Proof.
  unfold file_finally.
  destruct (file_path st) as [p|]; [|reflexivity].
  destruct (String.eqb p audio_file_path) eqn:Heq.
  - rewrite andb_false_r. reflexivity.
  - destruct (delete_audio_file self && negb (String.eqb p "")
              && exists_ (fs st) p && negb false); [|reflexivity].
    destruct (os_remove env); [reflexivity|].
    cbn [fs with_fs]. apply exists_remove_other_eq.
    apply String.eqb_neq. exact Heq.
Qed.

(** C9: with retention disabled, the cleanup step of the file-based and
    of the stream-based call removes the working file it finds in
    [file_path] (it is gone afterwards unless [os.remove] raises, which is
    logged and swallowed, and no other path is touched), it never removes
    the file supplied by the caller, and every call that makes an attempt
    ends in it, whichever way the attempt went.  Over a whole call, on
    every exit path and whatever the disk and the engine do, the
    filesystem is left exactly as it was found: in this mode the calls
    create no working file, so none remains, and the caller's file is not
    deleted.  The stream-based call does the same, also when it raises on
    its extension check before any attempt. *)
Theorem no_retention_leaves_no_file (self : ASRProvider) (world : World)
    (fs0 : filesystem) (audio_file_path session_id : string)
    (audio_data : bytes) (file_extension : string) :
  delete_audio_file self = true ->
  let by_file :=
    speech_to_text_from_audio_file self world fs0 audio_file_path session_id in
  let by_stream :=
    speech_to_text_from_audio_stream self world fs0 audio_data session_id
      file_extension in
  fs (final by_file) = fs0
  /\ (exists_ fs0 audio_file_path = true ->
      exists_ (fs (final by_file)) audio_file_path = true)
  /\ fs (final by_stream) = fs0
  /\ (exists i st,
        final by_file = file_finally self (world i) audio_file_path st)
  /\ (asr_result by_stream = Raised ValueError
      \/ exists i st, final by_stream = stream_finally self (world i) st)
  /\ (forall env st p,
        file_path st = Some p ->
        p <> "" ->
        exists_ (fs st) p = true ->
        (p <> audio_file_path ->
         cleaned env (fs st)
           (fs (file_finally self env audio_file_path st)) p)
        /\ cleaned env (fs st) (fs (stream_finally self env st)) p)
  /\ (forall env st,
        exists_ (fs (file_finally self env audio_file_path st)) audio_file_path
        = exists_ (fs st) audio_file_path).
Proof.
  intros Hdel by_file by_stream.
  assert (Hfile : fs (final by_file) = fs0).
  { subst by_file. unfold speech_to_text_from_audio_file.
    rewrite file_loop_discarding; [reflexivity|exact Hdel|left; reflexivity]. }
  split; [exact Hfile|].
  split; [rewrite Hfile; trivial|].
  split.
  { subst by_stream. unfold speech_to_text_from_audio_stream.
    destruct (negb (supported (lower file_extension))); [reflexivity|].
    rewrite stream_loop_discarding; [reflexivity|exact Hdel|reflexivity]. }
  split.
  { subst by_file. unfold speech_to_text_from_audio_file.
    change MAX_RETRIES with 2%nat. apply file_loop_ends_in_cleanup. }
  split.
  { subst by_stream. unfold speech_to_text_from_audio_stream.
    destruct (negb (supported (lower file_extension)));
      [left; reflexivity|right].
    change MAX_RETRIES with 2%nat. apply stream_loop_ends_in_cleanup. }
  split.
  { intros env st p Hp Hne Hex. split.
    - intros Hin. apply file_finally_cleans; assumption.
    - apply stream_finally_cleans; assumption. }
  intros env st. apply file_finally_spares_input.
Qed.

Lemma no_retention_leaves_no_file_witness :
  let working :=
    {| fs := {["clip.WAV"; "out/sid.wav"]}; file_path := Some "out/sid.wav";
       attempts := 1; sleeps := []; generate_calls := 1 |} in
  delete_audio_file discarding = true
  /\ fs (final (speech_to_text_from_audio_file discarding broken_engine_world
                  {["clip.WAV"]} "clip.WAV" "sid"))
     = {["clip.WAV"]}
  /\ fs (final (speech_to_text_from_audio_stream discarding full_disk_world
                  {["clip.WAV"]} [] "sid" ".wav"))
     = {["clip.WAV"]}
  /\ exists_ (fs working) "out/sid.wav" = true
  /\ exists_ (fs (file_finally discarding quiet_env "clip.WAV" working))
       "out/sid.wav" = false
  /\ exists_ (fs (file_finally discarding quiet_env "clip.WAV" working))
       "clip.WAV" = true.
Proof.
  intros working.
  split; [reflexivity|].
  destruct (no_retention_leaves_no_file discarding broken_engine_world
              {["clip.WAV"]} "clip.WAV" "sid" [] ".wav" eq_refl)
    as (Hfile & _ & _ & _ & _ & Hclean & Hspare).
  destruct (no_retention_leaves_no_file discarding full_disk_world
              {["clip.WAV"]} "clip.WAV" "sid" [] ".wav" eq_refl)
    as (_ & _ & Hstream & _).
  split; [exact Hfile|]. split; [exact Hstream|].
  assert (Hex : exists_ (fs working) "out/sid.wav" = true) by reflexivity.
  split; [exact Hex|].
  destruct (Hclean quiet_env working "out/sid.wav" eq_refl
              ltac:(discriminate) Hex) as [Hgone _].
  destruct (Hgone ltac:(discriminate)) as [Hgone' _].
  split; [exact Hgone'|].
  rewrite Hspare. reflexivity.
Defined.

(** With retention, an attempt of the file-based call in which the copy
    and the read succeed and the engine fails: the artifact is in the
    output directory, [file_path] names it, and the body raises. *)
Lemma file_try_persisted (self : ASRProvider) (env : attempt_env)
    (audio_file_path session_id : string) (st : loop_state) :
  delete_audio_file self = false ->
  exists_ (fs st) audio_file_path = true ->
  supported (lower (splitext_ext audio_file_path)) = true ->
  file_persisted_inference_fails env = true ->
  let p :=
    join (output_dir self)
      (session_id ++ lower (splitext_ext audio_file_path)) in
  exists st1 e,
    file_try self env audio_file_path session_id st = (st1, Raised e)
    /\ file_path st1 = Some p
    /\ fs st1 = create (fs st) p.
Proof.
  intros Hdel Hin Hext Hok p. unfold file_try, file_persisted_inference_fails in *.
  rewrite Hin, Hext, Hdel. simpl.
  destruct (getsize env) as [sz|]; [|discriminate].
  destruct (disk_free env) as [free|]; [|discriminate].
  destruct (write_artifact env) as [|]; [|discriminate].
  destruct (read_input env) as [data|]; [|discriminate].
  apply andb_prop in Hok as [Hroom Hgen].
  apply negb_true_iff in Hroom. rewrite Hroom.
  unfold infer. simpl.
  destruct (generate env data) as [|e]; [discriminate|].
  eexists _, e. repeat split; reflexivity.
Qed.

Lemma stream_try_persisted (self : ASRProvider) (env : attempt_env)
    (audio_data : bytes) (session_id file_extension : string) (st : loop_state) :
  delete_audio_file self = false ->
  stream_persisted_inference_fails audio_data env = true ->
  let p := join (output_dir self) (session_id ++ file_extension) in
  exists st1 e,
    stream_try self env audio_data session_id file_extension st
    = (st1, Raised e)
    /\ file_path st1 = Some p
    /\ fs st1 = create (fs st) p.
Proof.
  intros Hdel Hok p. unfold stream_try, stream_persisted_inference_fails in *.
  rewrite Hdel. simpl.
  destruct (disk_free env) as [free|]; [|discriminate].
  destruct (write_artifact env) as [|]; [|discriminate].
  apply andb_prop in Hok as [Hroom Hgen].
  apply negb_true_iff in Hroom. rewrite Hroom.
  unfold infer. simpl.
  destruct (generate env audio_data) as [|e]; [discriminate|].
  eexists _, e. repeat split; reflexivity.
Qed.

(** The file-based call when the artifact is persisted and the engine
    fails. *)
Lemma file_call_keeps_artifact_path (self : ASRProvider) (world : World)
    (fs0 : filesystem) (audio_file_path session_id : string) :
  delete_audio_file self = false ->
  exists_ fs0 audio_file_path = true ->
  supported (lower (splitext_ext audio_file_path)) = true ->
  (forall i, file_persisted_inference_fails (world i) = true) ->
  let p :=
    join (output_dir self)
      (session_id ++ lower (splitext_ext audio_file_path)) in
  let run :=
    speech_to_text_from_audio_file self world fs0 audio_file_path session_id in
  asr_result run = Returned (Some ("", Some p))
  /\ exists_ (fs (final run)) p = true.
Proof.
  intros Hdel Hin Hext Hok p run.
  subst run. unfold speech_to_text_from_audio_file, MAX_RETRIES.
  set (st0 := start fs0).
  destruct (file_try_persisted self (world (attempts st0)) audio_file_path
              session_id (begin_attempt st0) Hdel Hin Hext (Hok _))
    as (st1 & e1 & Htry1 & Hp1 & Hfs1).
  rewrite (file_loop_step _ _ _ _ _ _ _ _ Htry1). cbv zeta.
  rewrite !file_finally_retention by exact Hdel.
  assert (Hdone : Returned (Some ("", file_path st1)) = Returned (Some ("", Some p))
                  /\ exists_ (fs st1) p = true).
  { rewrite Hp1, Hfs1. split; [reflexivity|apply exists_create]. }
  destruct (is_FileNotFoundError e1); [exact Hdone|].
  destruct (is_OSError e1); [|exact Hdone].
  assert (Hin2 : exists_ (fs (begin_attempt (sleep st1 RETRY_DELAY)))
                   audio_file_path = true).
  { simpl. rewrite Hfs1. apply exists_create_mono. exact Hin. }
  destruct (file_try_persisted self
              (world (attempts (sleep st1 RETRY_DELAY))) audio_file_path
              session_id (begin_attempt (sleep st1 RETRY_DELAY)) Hdel Hin2 Hext
              (Hok _))
    as (st2 & e2 & Htry2 & Hp2 & Hfs2).
  rewrite (file_loop_step _ _ _ _ _ _ _ _ Htry2). cbv zeta.
  rewrite !file_finally_retention by exact Hdel.
  assert (Hdone2 : Returned (Some ("", file_path st2)) = Returned (Some ("", Some p))
                   /\ exists_ (fs st2) p = true).
  { rewrite Hp2, Hfs2. split; [reflexivity|apply exists_create]. }
  destruct (is_FileNotFoundError e2); [exact Hdone2|].
  destruct (is_OSError e2); exact Hdone2.
Qed.

(** The stream-based call when the artifact is persisted and the engine
    fails. *)
Lemma stream_call_keeps_artifact_path (self : ASRProvider) (world : World)
    (fs0 : filesystem) (audio_data : bytes) (session_id file_extension : string) :
  delete_audio_file self = false ->
  supported (lower file_extension) = true ->
  (forall i, stream_persisted_inference_fails audio_data (world i) = true) ->
  let p := join (output_dir self) (session_id ++ file_extension) in
  let run :=
    speech_to_text_from_audio_stream self world fs0 audio_data session_id
      file_extension in
  asr_result run = Returned (Some ("", Some p))
  /\ exists_ (fs (final run)) p = true.
Proof.
  intros Hdel Hext Hok p run.
  subst run. unfold speech_to_text_from_audio_stream, MAX_RETRIES.
  rewrite Hext. simpl negb. cbv iota.
  set (st0 := start fs0).
  destruct (stream_try_persisted self (world (attempts st0)) audio_data
              session_id file_extension (begin_attempt st0) Hdel (Hok _))
    as (st1 & e1 & Htry1 & Hp1 & Hfs1).
  rewrite (stream_loop_step _ _ _ _ _ _ _ _ _ Htry1). cbv zeta.
  rewrite !stream_finally_retention by exact Hdel.
  assert (Hdone : Returned (Some ("", file_path st1)) = Returned (Some ("", Some p))
                  /\ exists_ (fs st1) p = true).
  { rewrite Hp1, Hfs1. split; [reflexivity|apply exists_create]. }
  destruct (is_OSError e1); [|exact Hdone].
  destruct (stream_try_persisted self
              (world (attempts (sleep st1 RETRY_DELAY))) audio_data
              session_id file_extension (begin_attempt (sleep st1 RETRY_DELAY))
              Hdel (Hok _))
    as (st2 & e2 & Htry2 & Hp2 & Hfs2).
  rewrite (stream_loop_step _ _ _ _ _ _ _ _ _ Htry2). cbv zeta.
  rewrite !stream_finally_retention by exact Hdel.
  assert (Hdone2 : Returned (Some ("", file_path st2)) = Returned (Some ("", Some p))
                   /\ exists_ (fs st2) p = true).
  { rewrite Hp2, Hfs2. split; [reflexivity|apply exists_create]. }
  destruct (is_OSError e2); exact Hdone2.
Qed.

(** C10: with retention enabled, when the copy (or write) of the audio
    into the output directory succeeds and the recognition engine then
    fails, the call returns the empty text together with the path of the
    persisted file, which exists afterwards: an empty text does not imply
    a null artifact path.  This holds for the file-based and for the
    stream-based call. *)
Theorem failed_inference_keeps_artifact_path
    (self : ASRProvider) (world : World) (fs0 : filesystem)
    (audio_file_path session_id : string)
    (self' : ASRProvider) (world' : World) (fs0' : filesystem)
    (audio_data : bytes) (session_id' file_extension : string) :
  delete_audio_file self = false ->
  exists_ fs0 audio_file_path = true ->
  supported (lower (splitext_ext audio_file_path)) = true ->
  (forall i, file_persisted_inference_fails (world i) = true) ->
  delete_audio_file self' = false ->
  supported (lower file_extension) = true ->
  (forall i, stream_persisted_inference_fails audio_data (world' i) = true) ->
  let by_file :=
    speech_to_text_from_audio_file self world fs0 audio_file_path session_id in
  let by_stream :=
    speech_to_text_from_audio_stream self' world' fs0' audio_data session_id'
      file_extension in
  let p :=
    join (output_dir self)
      (session_id ++ lower (splitext_ext audio_file_path)) in
  let p' := join (output_dir self') (session_id' ++ file_extension) in
  (text_of by_file = Some "" /\ path_of by_file = Some p
   /\ exists_ (fs (final by_file)) p = true)
  /\ (text_of by_stream = Some "" /\ path_of by_stream = Some p'
      /\ exists_ (fs (final by_stream)) p' = true).
Proof.
  intros Hdel Hin Hext Hok Hdel' Hext' Hok' by_file by_stream p p'.
  destruct (file_call_keeps_artifact_path self world fs0 audio_file_path
              session_id Hdel Hin Hext Hok) as [Hres Hfile].
  destruct (stream_call_keeps_artifact_path self' world' fs0' audio_data
              session_id' file_extension Hdel' Hext' Hok') as [Hres' Hfile'].
  subst by_file by_stream p p'. unfold text_of, path_of.
  rewrite Hres, Hres'. repeat split; assumption.
Qed.

Lemma failed_inference_keeps_artifact_path_witness :
  delete_audio_file keeping = false
  /\ exists_ {["clip.WAV"]} "clip.WAV" = true
  /\ supported (lower (splitext_ext "clip.WAV")) = true
  /\ (forall i, file_persisted_inference_fails (broken_engine_world i) = true)
  /\ supported (lower ".Mp3") = true
  /\ (forall i, stream_persisted_inference_fails [] (broken_engine_world i) = true)
  /\ text_of
       (speech_to_text_from_audio_file keeping broken_engine_world
          {["clip.WAV"]} "clip.WAV" "sid")
     = Some ""
  /\ path_of
       (speech_to_text_from_audio_file keeping broken_engine_world
          {["clip.WAV"]} "clip.WAV" "sid")
     = Some "out/sid.wav"
  /\ path_of
       (speech_to_text_from_audio_stream keeping broken_engine_world ∅ []
          "sid" ".Mp3")
     = Some "out/sid.Mp3".
Proof.
  assert (H1 : delete_audio_file keeping = false) by reflexivity.
  assert (H2 : exists_ {["clip.WAV"]} "clip.WAV" = true) by reflexivity.
  assert (H3 : supported (lower (splitext_ext "clip.WAV")) = true)
    by reflexivity.
  assert (H4 : forall i, file_persisted_inference_fails (broken_engine_world i) = true)
    by (intros i; reflexivity).
  assert (H5 : supported (lower ".Mp3") = true) by reflexivity.
  assert (H6 : forall i,
             stream_persisted_inference_fails [] (broken_engine_world i) = true)
    by (intros i; reflexivity).
  destruct (failed_inference_keeps_artifact_path keeping broken_engine_world
              {["clip.WAV"]} "clip.WAV" "sid" keeping broken_engine_world ∅
              [] "sid" ".Mp3" H1 H2 H3 H4 H1 H5 H6)
    as ((Htext & Hpath & _) & (_ & Hpath' & _)).
  repeat split; try assumption.
Defined.

End ASRFacts.

(** ** The coordinator *)

Module AppFacts.
Import App Scenarios.

(** C4: for every voice request whose recognition stage returns an empty
    text (or None), the coordinator fails the request with the error
    "语音识别失败" (recognition failed) and the only call it has made is the
    one to the recognizer: neither the language model nor the synthesis
    engine is invoked, and no deletion is scheduled. *)
Theorem empty_recognition_stops_request (m : Modules) (fr : Fresh)
    (delete_audio : bool) (audio_file_path : string) (session_id : option string)
    (a : AsrModule) (l : Connection.LLM) (t : TtsModule)
    (text path : option string) :
  asr m = Some a ->
  llm m = Some l ->
  tts m = Some t ->
  a audio_file_path (effective_session fr session_id) = Returned (text, path) ->
  falsy text = true ->
  let req := process_voice_query m fr delete_audio audio_file_path session_id [] in
  fst req = Err (Failed "语音识别失败")
  /\ snd req = [AsrCalled audio_file_path (effective_session fr session_id)]
  /\ List.filter is_dialogue_call (snd req) = []
  /\ List.filter is_synthesis_call (snd req) = [].
Proof.
  intros Ha Hl Ht Hasr Hempty req. subst req.
  unfold process_voice_query. rewrite Ha, Hl, Ht.
  fold (effective_session fr session_id).
  unfold mbind, M_bind, bind, recognize, mbind, M_bind, bind, emit, of_outcome.
  rewrite Hasr. unfold ret. cbn [fst]. rewrite Hempty.
  repeat split; reflexivity.
Qed.

Lemma empty_recognition_stops_request_witness :
  falsy (Some "") = true
  /\ (let req := process_voice_query modules0 fresh0 true "clip.txt" None [] in
      fst req = Err (Failed "语音识别失败")
      /\ snd req = [AsrCalled "clip.txt" "s-1"]
      /\ List.filter is_dialogue_call (snd req) = []
      /\ List.filter is_synthesis_call (snd req) = []).
Proof.
  split; [reflexivity|].
  apply (empty_recognition_stops_request modules0 fresh0 true "clip.txt" None
           (fun_local keeping quiet_world {["clip.txt"]})
           (llm_of [Connection.Yield (Some "Hi") false]) tts_module0
           (Some "") None);
    reflexivity.
Defined.

End AppFacts.

(** * Further properties of the sources *)

(** ** The filesystem, continued *)

Module FsMore.

Lemma exists_create_other_eq (f : filesystem) (p q : string) :
  p <> q -> exists_ (create f p) q = exists_ f q.
Proof.
  intros Hne. unfold exists_, create. apply bool_decide_ext.
  rewrite elem_of_union, elem_of_singleton.
  split; [intros [H|H]; [congruence|exact H]|]. intros H. right. exact H.
Qed.

Lemma exists_create_inv (f : filesystem) (p q : string) :
  exists_ (create f p) q = true -> exists_ f q = true \/ q = p.
Proof.
  unfold exists_, create. intros H. apply bool_decide_eq_true in H.
  apply elem_of_union in H as [H|H].
  - right. apply elem_of_singleton in H. exact H.
  - left. apply bool_decide_eq_true. exact H.
Qed.

End FsMore.

(** ** The dialogue turn, beyond abort and failure *)

Module ConnectionMore.
Import Connection Scenarios ConnectionFacts.

(** The loop over pulls that are all calm runs to the end of the
    generator and keeps the non-empty fragments in order. *)
Lemma consume_calm (s : stream) :
  forall (acc : list string) (n : nat),
    forallb calm s = true ->
    consume s acc n
    = {| response_message := (acc ++ kept s)%list;
         pulled := (n + List.length s)%nat;
         last_flag := false;
         loop_raised := None |}.
Proof.
  induction s as [|p s IH]; intros acc n Hcalm.
  - simpl. rewrite List.app_nil_r. f_equal. lia.
  - simpl in Hcalm. apply andb_prop in Hcalm as [Hp Hs].
    destruct p as [frag flag|e]; [|discriminate].
    destruct flag; [discriminate|].
    simpl. destruct frag as [t|].
    + destruct (0 <? String.length t)%nat.
      * rewrite IH by assumption. rewrite <- List.app_assoc. simpl.
        f_equal. lia.
      * rewrite IH by assumption. f_equal. lia.
    + rewrite IH by assumption. f_equal. lia.
Qed.

(** The loop over a calm prefix followed by a pull that raises. *)
Lemma consume_raise (pre : stream) :
  forall (e : exn) (rest : stream) (acc : list string) (n : nat),
    forallb calm pre = true ->
    consume (pre ++ GenRaise e :: rest)%list acc n
    = {| response_message := (acc ++ kept pre)%list;
         pulled := (n + List.length pre + 1)%nat;
         last_flag := false;
         loop_raised := Some e |}.
Proof.
  induction pre as [|p pre IH]; intros e rest acc n Hcalm.
  - simpl. rewrite List.app_nil_r. f_equal. lia.
  - simpl in Hcalm. apply andb_prop in Hcalm as [Hp Hpre].
    destruct p as [frag flag|e']; [|discriminate].
    destruct flag; [discriminate|].
    simpl. destruct frag as [t|].
    + destruct (0 <? String.length t)%nat.
      * rewrite IH by assumption. rewrite <- List.app_assoc. simpl.
        f_equal. lia.
      * rewrite IH by assumption. f_equal. lia.
    + rewrite IH by assumption. f_equal. lia.
Qed.

(** The handler after a call of [chat], field by field, in terms of what
    the loop did. *)
Lemma chat_fields (llm : LLM) (uuid : string) (self : ConnectionHandler)
    (query : string) (depth : nat) (s : stream) :
  llm (session_id self) (history_sent self query depth) = Returned s ->
  let c := consume s [] 0 in
  let after := conn_after (chat llm uuid self query depth) in
  dialogue after
  = match loop_raised c, response_message c with
    | None, _ :: _ =>
        put (history_sent self query depth)
          {| role := assistant; content := join_all (response_message c) |}
    | _, _ => history_sent self query depth
    end
  /\ tts_MessageText after
     = match loop_raised c, response_message c with
       | None, _ :: _ => join_all (response_message c)
       | _, _ => tts_MessageText self
       end
  /\ llm_finish_task after
     = match loop_raised c with None => true | Some _ => false end.
Proof.
  intros Hllm c after. subst after c.
  unfold chat, get_llm_dialogue_with_memory.
  destruct depth as [|d]; simpl in *; rewrite Hllm;
    destruct (consume s [] 0) as [msgs n flag [e|]]; simpl;
    destruct msgs as [|m msgs]; simpl; repeat split; reflexivity.
Qed.

(** X1: a turn that runs to the end of the stream without abort and
    receives at least one non-empty fragment returns True; the assistant
    message appended to the history is the concatenation of the non-empty
    fragments in arrival order, [tts_MessageText] holds the same text,
    every fragment of the stream was requested, and the task flag is set
    again. *)
Theorem chat_success_appends_reply (llm : LLM) (uuid : string)
    (self : ConnectionHandler) (query : string) (depth : nat) (s : stream) :
  llm (session_id self) (history_sent self query depth) = Returned s ->
  forallb calm s = true ->
  kept s <> [] ->
  let run := chat llm uuid self query depth in
  result run = Returned RetTrue
  /\ dialogue (conn_after run)
     = (history_sent self query depth
        ++ [{| role := assistant; content := join_all (kept s) |}])%list
  /\ tts_MessageText (conn_after run) = join_all (kept s)
  /\ chunks_requested run = List.length s
  /\ llm_finish_task (conn_after run) = true.
Proof.
  intros Hllm Hcalm Hkept run. subst run.
  destruct (chat_returned llm uuid self query depth s Hllm)
    as (Hreq & _ & Hres & _).
  destruct (chat_fields llm uuid self query depth s Hllm)
    as (Hdlg & Htext & Hflag).
  rewrite (consume_calm s [] 0 Hcalm) in Hreq, Hres, Hdlg, Htext, Hflag.
  simpl in Hreq, Hres, Hdlg, Htext, Hflag.
  destruct (kept s) as [|k ks] eqn:Hk; [congruence|].
  repeat split; assumption.
Qed.

Lemma chat_success_appends_reply_witness :
  forallb calm two_fragments = true
  /\ kept two_fragments <> []
  /\ (let run := chat (llm_of two_fragments) "sentence" handler0 "hello" 0 in
      result run = Returned RetTrue
      /\ dialogue (conn_after run)
         = [{| role := user; content := "hello" |};
            {| role := assistant; content := "Hi there" |}]).
Proof.
  assert (Hcalm : forallb calm two_fragments = true) by reflexivity.
  assert (Hkept : kept two_fragments <> []) by discriminate.
  destruct (chat_success_appends_reply (llm_of two_fragments) "sentence"
              handler0 "hello" 0 two_fragments eq_refl Hcalm Hkept)
    as (Hres & Hdlg & _).
  repeat split; assumption.
Defined.

(** X2: [chat] does not catch what the generator raises while it is
    iterated: the exception reaches the caller, the fragments received so
    far are lost (no assistant message is appended, [tts_MessageText] is
    untouched), and the task flag stays False. *)
Theorem chat_generator_raise_propagates (llm : LLM) (uuid : string)
    (self : ConnectionHandler) (query : string) (depth : nat)
    (pre rest : stream) (e : exn) :
  llm (session_id self) (history_sent self query depth)
    = Returned (pre ++ GenRaise e :: rest)%list ->
  forallb calm pre = true ->
  let run := chat llm uuid self query depth in
  result run = Raised e
  /\ dialogue (conn_after run) = history_sent self query depth
  /\ tts_MessageText (conn_after run) = tts_MessageText self
  /\ llm_finish_task (conn_after run) = false.
Proof.
  intros Hllm Hcalm run. subst run.
  destruct (chat_returned llm uuid self query depth _ Hllm)
    as (_ & _ & Hres & _).
  destruct (chat_fields llm uuid self query depth _ Hllm)
    as (Hdlg & Htext & Hflag).
  rewrite (consume_raise pre e rest [] 0 Hcalm) in Hres, Hdlg, Htext, Hflag.
  simpl in Hres, Hdlg, Htext, Hflag.
  repeat split; assumption.
Qed.

Lemma chat_generator_raise_propagates_witness :
  forallb calm [Yield (Some "Hi") false] = true
  /\ (let run := chat (llm_of broken_stream) "sentence" handler0 "hello" 0 in
      result run = Raised RuntimeError
      /\ dialogue (conn_after run) = [{| role := user; content := "hello" |}]).
Proof.
  assert (Hcalm : forallb calm [Yield (Some "Hi") false] = true) by reflexivity.
  destruct (chat_generator_raise_propagates (llm_of broken_stream) "sentence"
              handler0 "hello" 0 [Yield (Some "Hi") false]
              [Yield (Some "!") false] RuntimeError eq_refl Hcalm)
    as (Hres & Hdlg & _).
  repeat split; assumption.
Defined.

(** X3: whatever the model does, the task flag after [chat] is True
    exactly when [chat] returned True: after a failed invocation or a
    raising generator it is left False. *)
Theorem chat_task_flag_tracks_success (llm : LLM) (uuid : string)
    (self : ConnectionHandler) (query : string) (depth : nat) :
  let run := chat llm uuid self query depth in
  llm_finish_task (conn_after run) = negb (reports_failure (result run)).
Proof.
  intros run. subst run.
  destruct (llm (session_id self) (history_sent self query depth))
    as [s|e] eqn:Hllm.
  - destruct (chat_returned llm uuid self query depth s Hllm)
      as (_ & _ & Hres & _).
    destruct (chat_fields llm uuid self query depth s Hllm)
      as (_ & _ & Hflag).
    rewrite Hres, Hflag.
    destruct (loop_raised (consume s [] 0)); reflexivity.
  - destruct (chat_raised llm uuid self query depth e Hllm)
      as (Hres & _ & _ & _).
    rewrite Hres. simpl.
    unfold chat, get_llm_dialogue_with_memory.
    destruct depth as [|d]; simpl in *; rewrite Hllm; reflexivity.
Qed.

(** X4: the dialogue is append-only under [chat].  A top-level call
    appends the prompt as a user message, also when the model then fails,
    and at most one assistant message after it; a nested call appends no
    user message, only the assistant message if there is one.  Earlier
    messages are never dropped or rewritten. *)
Theorem chat_appends_only (llm : LLM) (uuid : string)
    (self : ConnectionHandler) (query : string) (depth : nat) :
  let run := chat llm uuid self query depth in
  exists reply : list Message,
    dialogue (conn_after run)
    = (dialogue self
       ++ match depth with
          | O => [{| role := user; content := query |}]
          | S _ => []
          end
       ++ reply)%list
    /\ (List.length reply <= 1)%nat
    /\ forallb is_assistant reply = true.
Proof.
  intros run. subst run.
  assert (Hhist : history_sent self query depth
                  = (dialogue self
                     ++ match depth with
                        | O => [{| role := user; content := query |}]
                        | S _ => []
                        end)%list).
  { destruct depth; simpl; [reflexivity|]. symmetry. apply List.app_nil_r. }
  destruct (llm (session_id self) (history_sent self query depth))
    as [s|e] eqn:Hllm.
  - destruct (chat_fields llm uuid self query depth s Hllm) as (Hdlg & _).
    rewrite Hdlg.
    destruct (loop_raised (consume s [] 0)) as [e|];
      [exists []; rewrite Hhist, List.app_nil_r;
       repeat split; simpl; lia|].
    destruct (response_message (consume s [] 0)) as [|m msgs] eqn:Hmsgs;
      [exists []; rewrite Hhist, List.app_nil_r;
       repeat split; simpl; lia|].
    eexists [_]. unfold put. rewrite Hhist, <- List.app_assoc.
    repeat split; simpl; lia.
  - destruct (chat_raised llm uuid self query depth e Hllm)
      as (_ & _ & _ & Hdlg).
    rewrite Hdlg. exists [].
    rewrite Hhist, List.app_nil_r. repeat split; simpl; lia.
Qed.

(** X5: once [stop_event] and [executor] have been assigned, [close]
    never raises, whatever the synthesizer and the pool do: the stop event
    ends up set, and when the synthesizer closes cleanly the pool is shut
    down and [executor] is None afterwards, also when the shutdown itself
    failed. *)
Theorem close_assigned_never_raises (self : ConnectionHandler)
    (ev : option bool) (ex : option Executor) :
  stop_event self = Present ev ->
  executor self = Present ex ->
  let run := close self in
  close_result run = Returned tt
  /\ stop_event (closed run)
     = Present (match ev with Some _ => Some true | None => None end)
  /\ (errors_logged run <= 1)%nat
  /\ (forall s, release_tts self = Returned s ->
      executor (closed run) = Present None
      /\ (In PoolShutdown (steps run) <-> ex <> None)).
Proof.
  intros Hev Hex run. subst run.
  unfold close, close_try, signal_stop, release_tts, shutdown_pool.
  destruct self as [sid t fin dlg sen msg ab sev sex]. simpl in *. subst.
  destruct ev as [b|]; simpl;
    destruct t as [[[e|]]|]; simpl;
    destruct ex as [[[e'|]]|]; simpl;
    (split; [reflexivity|split; [reflexivity|split; [lia|]]]);
    intros s Hs; try discriminate;
    (split; [reflexivity|simpl; intuition congruence]).
Qed.

Lemma close_assigned_never_raises_witness :
  stop_event handler_ready = Present (Some false)
  /\ (let run := close handler_ready in
      close_result run = Returned tt
      /\ stop_event (closed run) = Present (Some true)
      /\ executor (closed run) = Present None).
Proof.
  split; [reflexivity|].
  destruct (close_assigned_never_raises handler_ready (Some false)
              (Some {| shutdown := Some RuntimeError |}) eq_refl eq_refl)
    as (Hres & Hev & _ & Hpool).
  destruct (Hpool [SynthRelease] eq_refl) as [Hex _].
  repeat split; assumption.
Defined.

(** X6: closing again a handler whose stop event is set (or None) and
    whose pool was released is harmless: [close] returns, shuts no pool
    down, and leaves the handler exactly as it was, whether or not the
    synthesizer closes cleanly this time. *)
Theorem close_again_is_harmless (self : ConnectionHandler) :
  stop_event self = Present (Some true) \/ stop_event self = Present None ->
  executor self = Present None ->
  let run := close self in
  close_result run = Returned tt
  /\ closed run = self
  /\ ~ In PoolShutdown (steps run).
Proof.
  intros Hev Hex run. subst run.
  unfold close, close_try, signal_stop, release_tts, shutdown_pool.
  destruct self as [sid t fin dlg sen msg ab sev sex]. simpl in *. subst.
  destruct Hev as [-> | ->]; simpl;
    destruct t as [[[e|]]|]; simpl;
    (split; [reflexivity|split; [reflexivity|simpl; intuition congruence]]).
Qed.

Lemma close_again_is_harmless_witness :
  let once := closed (close handler_ready) in
  (stop_event once = Present (Some true) \/ stop_event once = Present None)
  /\ executor once = Present None
  /\ close_result (close once) = Returned tt
  /\ closed (close once) = once.
Proof.
  intros once.
  assert (Hev : stop_event once = Present (Some true)
                \/ stop_event once = Present None) by (left; reflexivity).
  assert (Hex : executor once = Present None) by reflexivity.
  destruct (close_again_is_harmless once Hev Hex) as (Hres & Hsame & _).
  repeat split; assumption.
Defined.

End ConnectionMore.

(** ** The synthesizer, beyond exhaustion *)

Module TTSMore.
Import TTS Scenarios FsFacts FsMore TTSFacts.

(** The ephemeral loop when the engine fails [k] times and then delivers
    audio that the codec accepts. *)
Lemma ephemeral_loop_later_success (h : Helpers) (backend : Backend)
    (text : string) (audio : bytes) (chunks : list bytes) (w : bool) :
  audio <> [] ->
  audio_bytes_to_data_stream h audio = (chunks, None) ->
  forall (k m c : nat) (early : list bytes),
    (k < m)%nat ->
    (forall i, (i < k)%nat -> ephemeral_fails (backend (c + i)%nat text None) = true) ->
    backend (c + k)%nat text None = SpeakReturn w (Some audio) ->
    ephemeral_loop h backend text m c early
    = {| delivered_early := early; produced := Some chunks;
         eph_calls := S (c + k); eph_remaining := (m - k)%nat |}.
Proof.
  intros Haudio Hcodec k.
  induction k as [|k IH]; intros m c early Hk Hfail Hok.
  - destruct m as [|m]; [lia|]. simpl.
    rewrite Nat.add_0_r in Hok. rewrite Hok.
    destruct audio as [|b bs]; [congruence|]. simpl.
    rewrite Hcodec. f_equal. lia.
  - destruct m as [|m]; [lia|]. simpl.
    pose proof (Hfail 0%nat ltac:(lia)) as H0. rewrite Nat.add_0_r in H0.
    assert (Hrest : ephemeral_loop h backend text m (S c) early
                    = {| delivered_early := early; produced := Some chunks;
                         eph_calls := S (S c + k);
                         eph_remaining := (m - k)%nat |}).
    { apply IH; [lia| |].
      - intros i Hi. replace (S c + i)%nat with (c + S i)%nat by lia.
        apply Hfail. lia.
      - replace (S c + k)%nat with (c + S k)%nat by lia. exact Hok. }
    destruct (backend c text None) as [w' a|w' e]; simpl in H0.
    + apply negb_true_iff in H0. rewrite H0. rewrite Hrest. f_equal. lia.
    + rewrite Hrest. f_equal. lia.
Qed.

(** X7: in ephemeral mode, when the engine fails on its first [k < 5]
    attempts (by raising or by returning nothing) and then returns
    non-empty audio that the codec encodes, [to_tts] returns the encoded
    chunks after exactly [k + 1] invocations and leaves the filesystem
    alone. *)
Theorem to_tts_succeeds_on_later_attempt (h : Helpers) (backend : Backend)
    (self : TTSProviderBase) (date hex text : string) (fuel : nat)
    (fs0 : filesystem) (k : nat) (audio : bytes) (chunks : list bytes)
    (w : bool) :
  delete_audio_file self = true ->
  (k < 5)%nat ->
  (forall i, (i < k)%nat ->
     ephemeral_fails (backend i (clean_markdown h text) None) = true) ->
  backend k (clean_markdown h text) None = SpeakReturn w (Some audio) ->
  audio <> [] ->
  audio_bytes_to_data_stream h audio = (chunks, None) ->
  to_tts h backend self date hex fuel fs0 text
  = Some {| value := TtsAudio chunks; handed_to_callback := [];
            backend_calls := S k; fs_after := fs0 |}.
Proof.
  intros Hdel Hk Hfail Hok Haudio Hcodec.
  unfold to_tts. rewrite Hdel.
  rewrite (ephemeral_loop_later_success h backend (clean_markdown h text)
             audio chunks w Haudio Hcodec k 5 0 [] Hk); auto.
Qed.

Lemma to_tts_succeeds_on_later_attempt_witness :
  (forall i, (i < 2)%nat -> ephemeral_fails (flaky_backend i "hello" None) = true)
  /\ to_tts helpers0 flaky_backend (ephemeral_provider "tmp/") "d" "u" 0 ∅ "hello"
     = Some {| value := TtsAudio [[Byte.x01]]; handed_to_callback := [];
               backend_calls := 3; fs_after := ∅ |}.
Proof.
  assert (Hfail : forall i, (i < 2)%nat ->
                    ephemeral_fails (flaky_backend i "hello" None) = true).
  { intros i Hi. destruct i as [|[|i]]; [reflexivity|reflexivity|lia]. }
  split; [exact Hfail|].
  apply (to_tts_succeeds_on_later_attempt helpers0 flaky_backend
           (ephemeral_provider "tmp/") "d" "u" "hello" 0 ∅ 2 [Byte.x01]
           [[Byte.x01]] false);
    [reflexivity|lia|exact Hfail|reflexivity|discriminate|reflexivity].
Defined.

(** The two ways in which the body of the persistent loop unfolds. *)
Lemma persistent_loop_S (h : Helpers) (backend : Backend)
    (text tmp_file : string) (fuel : nat) (st : pstate) :
  persistent_loop h backend text tmp_file (S fuel) st
  = if persistent_guard tmp_file st then
      match persistent_step h backend text tmp_file st with
      | Completed st' => persistent_loop h backend text tmp_file fuel st'
      | Escaped e st' => Some (Escaped e st')
      end
    else Some (Completed st).
Proof. reflexivity. Qed.

Lemma persistent_loop_done (h : Helpers) (backend : Backend)
    (text tmp_file : string) (fuel : nat) (st : pstate) :
  persistent_guard tmp_file st = false ->
  persistent_loop h backend text tmp_file fuel st = Some (Completed st).
Proof. intros Hg. destruct fuel; simpl; rewrite Hg; reflexivity. Qed.

(** An attempt that raises on a fresh target, and whose partial file, if
    it left one, is removed, costs one unit of [max_repeat_time] and
    leaves the filesystem as it was. *)
Lemma persistent_step_raise (h : Helpers) (backend : Backend)
    (text tmp_file : string) (st : pstate) (w : bool) (e : exn) :
  exists_ (fs st) tmp_file = false ->
  backend (calls st) text (Some tmp_file) = SpeakRaise w e ->
  (w = true -> os_remove h (S (calls st)) tmp_file = None) ->
  persistent_step h backend text tmp_file st
  = Completed {| fs := fs st; calls := S (calls st);
                 max_repeat_time := max_repeat_time st - 1 |}.
Proof.
  intros Hfresh Hb Hrm. unfold persistent_step. rewrite Hb. cbv zeta.
  destruct w.
  - rewrite exists_create, (Hrm eq_refl), (remove_create _ _ Hfresh).
    reflexivity.
  - rewrite Hfresh. reflexivity.
Qed.

(** The persistent loop when the engine raises [k] times, every partial
    file being removed, and then writes the target file. *)
Lemma persistent_loop_later_success (h : Helpers) (backend : Backend)
    (text tmp_file : string) (fs0 : filesystem) :
  exists_ fs0 tmp_file = false ->
  forall (k m c fuel : nat),
    (k < m)%nat ->
    (S k <= fuel)%nat ->
    (forall i, (i < k)%nat ->
       exists w e,
         backend (c + i)%nat text (Some tmp_file) = SpeakRaise w e
         /\ (w = true -> os_remove h (S (c + i)) tmp_file = None)) ->
    (exists a, backend (c + k)%nat text (Some tmp_file) = SpeakReturn true a) ->
    persistent_loop h backend text tmp_file fuel
      {| fs := fs0; calls := c; max_repeat_time := m |}
    = Some (Completed
              {| fs := create fs0 tmp_file; calls := S (c + k);
                 max_repeat_time := (m - k)%nat |}).
Proof.
  intros Hfresh k.
  induction k as [|k IH]; intros m c fuel Hk Hfuel Hraise Hok.
  - destruct fuel as [|fuel]; [lia|]. destruct m as [|m]; [lia|].
    destruct Hok as [a Hok]. rewrite Nat.add_0_r in Hok.
    rewrite persistent_loop_S.
    unfold persistent_guard at 1. cbn [fs max_repeat_time].
    rewrite Hfresh. cbn [negb andb Nat.ltb Nat.leb].
    unfold persistent_step. cbn [calls fs max_repeat_time]. rewrite Hok.
    rewrite persistent_loop_done.
    + do 3 f_equal. lia.
    + unfold persistent_guard. cbn [fs]. rewrite exists_create. reflexivity.
  - destruct fuel as [|fuel]; [lia|]. destruct m as [|m]; [lia|].
    destruct (Hraise 0%nat ltac:(lia)) as (w & e & H0 & Hrm).
    rewrite Nat.add_0_r in H0, Hrm.
    rewrite persistent_loop_S.
    unfold persistent_guard at 1. cbn [fs max_repeat_time].
    rewrite Hfresh. cbn [negb andb Nat.ltb Nat.leb].
    rewrite (persistent_step_raise h backend text tmp_file
               {| fs := fs0; calls := c; max_repeat_time := S m |}
               w e Hfresh H0 Hrm).
    cbn [fs calls max_repeat_time].
    replace (S m - 1)%nat with m by lia.
    rewrite (IH m (S c) fuel); [do 3 f_equal; lia|lia|lia| |].
    + intros i Hi. replace (S c + i)%nat with (c + S i)%nat by lia.
      apply Hraise. lia.
    + replace (S c + k)%nat with (c + S k)%nat by lia. exact Hok.
Qed.

(** X8: in persistent mode and on a target that does not exist yet, when
    the engine raises on its first [k < 5] attempts, [os.remove] removing
    the partial file of each attempt that left one, and then writes the
    target file, [to_tts] returns the generated path after exactly [k + 1]
    invocations; afterwards the filesystem holds what it held before plus
    the target file. *)
Theorem to_tts_persists_on_later_attempt (h : Helpers) (backend : Backend)
    (self : TTSProviderBase) (date hex text : string) (fuel : nat)
    (fs0 : filesystem) (k : nat) :
  let tmp_file := generate_filename self date hex ".wav" in
  delete_audio_file self = false ->
  (k < 5)%nat ->
  (S k <= fuel)%nat ->
  exists_ fs0 tmp_file = false ->
  (forall i, (i < k)%nat ->
     exists w e,
       backend i (clean_markdown h text) (Some tmp_file) = SpeakRaise w e
       /\ (w = true -> os_remove h (S i) tmp_file = None)) ->
  (exists a,
     backend k (clean_markdown h text) (Some tmp_file) = SpeakReturn true a) ->
  to_tts h backend self date hex fuel fs0 text
  = Some {| value := TtsPath tmp_file; handed_to_callback := [];
            backend_calls := S k; fs_after := create fs0 tmp_file |}.
Proof.
  intros tmp_file Hdel Hk Hfuel Hfresh Hraise Hok.
  unfold to_tts. rewrite Hdel. fold tmp_file.
  rewrite (persistent_loop_later_success h backend (clean_markdown h text)
             tmp_file fs0 Hfresh k 5 0 fuel Hk Hfuel); auto.
Qed.

Lemma to_tts_persists_on_later_attempt_witness :
  exists_ ∅ (generate_filename (persistent_provider "tmp/" None) "d" "u" ".wav")
  = false
  /\ to_tts helpers0 flaky_backend (persistent_provider "tmp/" None) "d" "u" 3 ∅
       "hello"
     = Some {| value := TtsPath "tmp/tts-d@u.wav"; handed_to_callback := [];
               backend_calls := 3;
               fs_after := create ∅ "tmp/tts-d@u.wav" |}.
Proof.
  split; [reflexivity|].
  apply (to_tts_persists_on_later_attempt helpers0 flaky_backend
           (persistent_provider "tmp/" None) "d" "u" "hello" 3 ∅ 2);
    [reflexivity|lia|lia|reflexivity| |].
  - intros i Hi. exists true, RuntimeError.
    destruct i as [|[|i]]; [split; reflexivity|split; reflexivity|lia].
  - exists None. reflexivity.
Defined.

(** How the ephemeral loop can end: never beyond its budget, with at
    least one invocation when the budget is positive, and without audio
    only when the budget is used up. *)
Lemma ephemeral_loop_calls (h : Helpers) (backend : Backend) (text : string) :
  forall (m c : nat) (early : list bytes),
    let e := ephemeral_loop h backend text m c early in
    (c <= eph_calls e <= c + m)%nat
    /\ ((0 < m)%nat -> (c < eph_calls e)%nat)
    /\ (produced e = None -> eph_calls e = (c + m)%nat).
Proof.
  intros m. induction m as [|m IH]; intros c early; simpl.
  - split; [lia|]. split; [lia|]. intros _. lia.
  - destruct (backend c text None) as [w audio|w e].
    + destruct (truthy_bytes audio).
      * destruct (audio_bytes_to_data_stream h (default [] audio))
          as [chunks [e|]].
        -- destruct (IH (S c) (early ++ chunks)%list) as (H1 & _ & H3).
           split; [lia|]. split; [lia|].
           intros Hnone. rewrite (H3 Hnone). lia.
        -- simpl. split; [lia|]. split; [lia|]. discriminate.
      * destruct (IH (S c) early) as (H1 & _ & H3).
        split; [lia|]. split; [lia|].
        intros Hnone. rewrite (H3 Hnone). lia.
    + destruct (IH (S c) early) as (H1 & _ & H3).
      split; [lia|]. split; [lia|].
      intros Hnone. rewrite (H3 Hnone). lia.
Qed.

(** X9: in ephemeral mode [to_tts] always returns, whatever the engine and
    the codec do: it invokes the engine at least once and at most 5 times,
    never touches the filesystem, never returns a path, and returns None
    only after exactly 5 invocations. *)
Theorem to_tts_ephemeral_bounded (h : Helpers) (backend : Backend)
    (self : TTSProviderBase) (date hex text : string) (fuel : nat)
    (fs0 : filesystem) :
  delete_audio_file self = true ->
  exists run,
    to_tts h backend self date hex fuel fs0 text = Some run
    /\ (1 <= backend_calls run <= 5)%nat
    /\ fs_after run = fs0
    /\ (forall p, value run <> TtsPath p)
    /\ (value run = TtsNone -> backend_calls run = 5%nat).
Proof.
  intros Hdel. unfold to_tts. rewrite Hdel.
  destruct (ephemeral_loop_calls h backend (clean_markdown h text) 5 0 [])
    as (Hle & Hge & Hnone).
  eexists. split; [reflexivity|]. cbn [backend_calls fs_after value].
  split; [|split; [reflexivity|split]].
  - pose proof (Hge ltac:(lia)). lia.
  - intros p. destruct (produced _); discriminate.
  - destruct (produced _) eqn:Hp; [discriminate|]. intros _. apply Hnone.
    reflexivity.
Qed.

Lemma to_tts_ephemeral_bounded_witness :
  delete_audio_file (ephemeral_provider "tmp/") = true
  /\ exists run,
       to_tts helpers0 raising_backend (ephemeral_provider "tmp/") "d" "u" 0 ∅
         "hello" = Some run
       /\ (1 <= backend_calls run <= 5)%nat.
Proof.
  split; [reflexivity|].
  destruct (to_tts_ephemeral_bounded helpers0 raising_backend
              (ephemeral_provider "tmp/") "d" "u" "hello" 0 ∅ eq_refl)
    as (run & Hrun & Hcalls & _).
  exists run. split; assumption.
Defined.




(** One run of the body of the persistent loop touches no path but the
    target, however it ends. *)
Lemma persistent_step_frame (h : Helpers) (backend : Backend)
    (text tmp_file : string) (st : pstate) (q : string) :
  q <> tmp_file ->
  exists_ (fs (state_of (persistent_step h backend text tmp_file st))) q
  = exists_ (fs st) q.
Proof.
  intros Hne. unfold persistent_step.
  assert (Hne' : tmp_file <> q) by congruence.
  assert (Hw : forall w : bool,
             exists_ (if w then create (fs st) tmp_file else fs st) q
             = exists_ (fs st) q).
  { intros [|]; [apply exists_create_other_eq; exact Hne'|reflexivity]. }
  destruct (backend (calls st) text (Some tmp_file)) as [w a|w e];
    cbv zeta; [exact (Hw w)|].
  destruct (exists_ (if w then create (fs st) tmp_file else fs st) tmp_file);
    [|exact (Hw w)].
  destruct (os_remove h (S (calls st)) tmp_file); cbn [state_of fs];
    [exact (Hw w)|].
  rewrite exists_remove_other_eq by exact Hne'. exact (Hw w).
Qed.

Lemma persistent_loop_frame (h : Helpers) (backend : Backend)
    (text tmp_file : string) (q : string) :
  q <> tmp_file ->
  forall (fuel : nat) (st : pstate) (out : body_end),
    persistent_loop h backend text tmp_file fuel st = Some out ->
    exists_ (fs (state_of out)) q = exists_ (fs st) q.
Proof.
  intros Hne fuel.
  induction fuel as [|fuel IH]; intros st out Hloop.
  - simpl in Hloop. destruct (persistent_guard tmp_file st); [discriminate|].
    injection Hloop as <-. reflexivity.
  - rewrite persistent_loop_S in Hloop.
    destruct (persistent_guard tmp_file st);
      [|injection Hloop as <-; reflexivity].
    pose proof (persistent_step_frame h backend text tmp_file st q Hne)
      as Hstep.
    destruct (persistent_step h backend text tmp_file st) as [st'|e st'].
    + rewrite (IH _ _ Hloop). exact Hstep.
    + injection Hloop as <-. exact Hstep.
Qed.

(** The cases of the codec dispatch of lines 238-243. *)
Ltac codec_cases h self tts_file :=
  destruct (endswith tts_file ".p3");
  [ destruct (decode_opus_from_file_stream h tts_file) as [? [?|]]
  | destruct (conn_audio_format self) as [[|fmt]|];
    [ | destruct (String.eqb fmt "pcm");
        [ destruct (audio_to_data_stream h tts_file false) as [? [?|]]
        | destruct (audio_to_data_stream h tts_file true) as [? [?|]] ]
      | ] ].

(** In persistent mode the streaming of a file deletes nothing. *)
Lemma process_stream_persistent (h : Helpers) (self : TTSProviderBase)
    (calls : nat) (fs0 : filesystem) (tts_file : string) :
  delete_audio_file self = false ->
  snd (_process_audio_file_stream h self calls fs0 tts_file) = fs0.
Proof.
  intros Hdel. unfold _process_audio_file_stream. rewrite Hdel.
  codec_cases h self tts_file; reflexivity.
Qed.

(** X11: a synthesis call touches no path of the filesystem other than
    its own freshly named target: whatever the engine and the codecs do,
    when [to_tts] or [to_tts_stream] returns, every other path exists
    afterwards exactly if it existed before. *)
Theorem synthesis_touches_only_its_target (h : Helpers) (backend : Backend)
    (self : TTSProviderBase) (date hex text : string) (fuel : nat)
    (fs0 : filesystem) (run : tts_run) (q : string) :
  to_tts h backend self date hex fuel fs0 text = Some run
  \/ to_tts_stream h backend self date hex fuel fs0 text = Some run ->
  q <> generate_filename self date hex ".wav" ->
  exists_ (fs_after run) q = exists_ fs0 q.
Proof.
  intros Hrun Hne.
  destruct Hrun as [Hrun|Hrun].
  - unfold to_tts in Hrun.
    destruct (delete_audio_file self).
    + injection Hrun as <-. reflexivity.
    + destruct (persistent_loop h backend (clean_markdown h text)
                  (generate_filename self date hex ".wav") fuel
                  {| fs := fs0; calls := 0; max_repeat_time := 5 |})
        as [out|] eqn:Hloop; [|discriminate].
      pose proof (persistent_loop_frame _ _ _ _ q Hne _ _ _ Hloop) as Hframe.
      destruct out as [st|e st]; injection Hrun as <-; exact Hframe.
  - unfold to_tts_stream in Hrun.
    destruct (delete_audio_file self) eqn:Hdel.
    + injection Hrun as <-. reflexivity.
    + destruct (persistent_loop h backend (clean_markdown h text)
                  (generate_filename self date hex ".wav") fuel
                  {| fs := fs0; calls := 0; max_repeat_time := 5 |})
        as [out|] eqn:Hloop; [|discriminate].
      pose proof (persistent_loop_frame _ _ _ _ q Hne _ _ _ Hloop) as Hframe.
      cbn [fs] in Hframe.
      destruct out as [st|e st]; cbn [state_of] in Hframe;
        [|injection Hrun as <-; exact Hframe].
      destruct (0 <? max_repeat_time st)%nat.
      * pose proof (process_stream_persistent h self (calls st) (fs st)
                      (generate_filename self date hex ".wav") Hdel) as Hsame.
        destruct (_process_audio_file_stream h self (calls st) (fs st)
                    (generate_filename self date hex ".wav"))
          as [[chunks err] fs1].
        simpl in Hsame. subst fs1. injection Hrun as <-. exact Hframe.
      * injection Hrun as <-. exact Hframe.
Qed.

Lemma synthesis_touches_only_its_target_witness :
  exists run,
    to_tts helpers0 flaky_backend (persistent_provider "tmp/" None) "d" "u" 3
      {["keep.wav"]} "hello" = Some run
    /\ "keep.wav" <> generate_filename (persistent_provider "tmp/" None) "d" "u" ".wav"
    /\ exists_ (fs_after run) "keep.wav" = exists_ {["keep.wav"]} "keep.wav".
Proof.
  eexists. split; [vm_compute; reflexivity|].
  assert (Hne : "keep.wav"
                <> generate_filename (persistent_provider "tmp/" None) "d" "u"
                     ".wav") by discriminate.
  split; [exact Hne|].
  apply (synthesis_touches_only_its_target helpers0 flaky_backend
           (persistent_provider "tmp/" None) "d" "u" "hello" 3 {["keep.wav"]}
           _ "keep.wav"); [left; vm_compute; reflexivity|exact Hne].
Defined.


(** In delete mode a file under the output directory is gone once its
    streaming has returned without raising. *)
Lemma process_stream_gone (h : Helpers) (self : TTSProviderBase)
    (calls : nat) (fs0 : filesystem) (tts_file : string) :
  delete_audio_file self = true ->
  startswith tts_file (output_file self) = true ->
  snd (fst (_process_audio_file_stream h self calls fs0 tts_file)) = None ->
  exists_ (snd (_process_audio_file_stream h self calls fs0 tts_file)) tts_file
  = false.
Proof.
  unfold _process_audio_file_stream. intros Hdel Hunder.
  rewrite Hdel, Hunder.
  assert (Hrm : forall chunks : list bytes,
            let done :=
              if true && exists_ fs0 tts_file && true
              then match os_remove h calls tts_file with
                   | None => (chunks, None, remove fs0 tts_file)
                   | Some e => (chunks, Some e, fs0)
                   end
              else (chunks, @None exn, fs0) in
            snd (fst done) = None -> exists_ (snd done) tts_file = false).
  { intros chunks. cbv zeta.
    destruct (exists_ fs0 tts_file) eqn:Hex; cbn [andb];
      [|intros _; exact Hex].
    destruct (os_remove h calls tts_file); cbn [fst snd];
      [discriminate|intros _; apply exists_remove_same]. }
  codec_cases h self tts_file;
    first [cbn [fst snd]; discriminate | apply Hrm].
Qed.




Lemma prefix_append (a b : string) : String.prefix a (a ++ b) = true.
Proof.
  induction a as [|c a IH]; simpl; [destruct b; reflexivity|].
  destruct (ascii_dec c c); [exact IH|congruence].
Qed.

(** Every generated name starts with the output directory given at
    construction. *)
Lemma generate_filename_under_output (self : TTSProviderBase)
    (date hex extension : string) :
  startswith (generate_filename self date hex extension) (output_file self)
  = true.
Proof.
  unfold startswith, generate_filename, join. simpl startswith_char.
  destruct (String.eqb (output_file self) "" || endswith_char (output_file self) "/");
    apply prefix_append.
Qed.

(** X13: every name produced by [generate_filename] lies under the managed
    output directory; hence, in delete mode, a generated file whose
    streaming has returned without raising (no codec failed, the attached
    connection, if any, carries an [audio_format], and [os.remove]
    succeeded) no longer exists afterwards. *)
Theorem generated_file_removed_after_streaming (h : Helpers)
    (self : TTSProviderBase) (calls : nat) (fs0 : filesystem)
    (date hex extension : string) :
  let tts_file := generate_filename self date hex extension in
  let done := _process_audio_file_stream h self calls fs0 tts_file in
  delete_audio_file self = true ->
  snd (fst done) = None ->
  startswith tts_file (output_file self) = true
  /\ exists_ (snd done) tts_file = false.
Proof.
  intros tts_file done Hdel Herr.
  pose proof (generate_filename_under_output self date hex extension) as Hunder.
  split; [exact Hunder|].
  apply process_stream_gone; assumption.
Qed.

Lemma generated_file_removed_after_streaming_witness :
  let self := attached_provider "tmp" (Present "pcm") in
  let tts_file := generate_filename self "d" "u" ".wav" in
  let done :=
    _process_audio_file_stream streaming_helpers self 0 {[tts_file]} tts_file in
  delete_audio_file self = true
  /\ done = ([[Byte.x01]], None, remove {[tts_file]} tts_file)
  /\ exists_ {[tts_file]} tts_file = true
  /\ exists_ (snd done) tts_file = false.
Proof.
  intros self tts_file done.
  assert (Hdel : delete_audio_file self = true) by reflexivity.
  assert (Hdone : done = ([[Byte.x01]], None, remove {[tts_file]} tts_file))
    by reflexivity.
  assert (Herr : snd (fst done) = None) by (rewrite Hdone; reflexivity).
  destruct (generated_file_removed_after_streaming streaming_helpers self 0
              {[tts_file]} "d" "u" ".wav" Hdel Herr) as [_ Hgone].
  split; [exact Hdel|]. split; [exact Hdone|].
  split; [reflexivity|exact Hgone].
Defined.

Lemma append_cancel_l (a x y : string) : a ++ x = a ++ y -> x = y.
Proof.
  induction a as [|c a IH]; simpl; intros H; [exact H|].
  injection H as H. apply IH. exact H.
Qed.

Lemma length_append (a b : string) :
  String.length (a ++ b) = (String.length a + String.length b)%nat.
Proof. induction a as [|c a IH]; simpl; [reflexivity|]. rewrite IH. reflexivity. Qed.

Lemma append_cancel_r (e : string) :
  forall x y : string, x ++ e = y ++ e -> x = y.
Proof.
  induction x as [|c x IH]; intros y H.
  - destruct y as [|d y]; [reflexivity|].
    apply (f_equal String.length) in H.
    rewrite !length_append in H. simpl in H. lia.
  - destruct y as [|d y].
    + apply (f_equal String.length) in H.
      rewrite !length_append in H. simpl in H. lia.
    + simpl in H. injection H as Hc H. subst d. f_equal. apply IH. exact H.
Qed.

(** X14: filename generation is collision-free in its random part: for
    one provider, date and extension, two different uuids never give the
    same path. *)
Theorem generate_filename_injective (self : TTSProviderBase)
    (date hex1 hex2 extension : string) :
  hex1 <> hex2 ->
  generate_filename self date hex1 extension
  <> generate_filename self date hex2 extension.
Proof.
  intros Hne H. apply Hne. revert H.
  unfold generate_filename, join. simpl startswith_char. cbv iota.
  intros H.
  assert (Htail : "tts-" ++ date ++ "@" ++ hex1 ++ extension
                  = "tts-" ++ date ++ "@" ++ hex2 ++ extension).
  { destruct (String.eqb (output_file self) ""
              || endswith_char (output_file self) "/").
    - apply (append_cancel_l _ _ _ H).
    - apply append_cancel_l in H. apply (append_cancel_l "/" _ _ H). }
  apply (append_cancel_l "tts-") in Htail.
  apply append_cancel_l in Htail.
  apply (append_cancel_l "@") in Htail.
  apply (append_cancel_r extension). exact Htail.
Qed.

Lemma generate_filename_injective_witness :
  "3f2a" <> "3f2b"
  /\ generate_filename (persistent_provider "tmp" None) "d" "3f2a" ".wav"
     <> generate_filename (persistent_provider "tmp" None) "d" "3f2b" ".wav".
Proof.
  assert (Hne : "3f2a" <> "3f2b") by discriminate.
  split; [exact Hne|].
  apply (generate_filename_injective (persistent_provider "tmp" None) "d"
           "3f2a" "3f2b" ".wav" Hne).
Defined.

(** X15: [tts_one_sentence] with nothing valid to speak (a text call
    without text, a file call whose file is missing, or another content
    type) is silent: it returns without raising, invokes no engine, hands
    nothing to the callback and leaves the filesystem alone.  In every
    call [conn.sentence_id] is overwritten with a fresh id exactly when no
    sentence id was passed. *)
Theorem tts_one_sentence_idle (h : Helpers) (backend : Backend)
    (self : TTSProviderBase) (date hex uuid_hex : string) (fuel : nat)
    (fs0 : filesystem) (conn_id : option string) (content_type : ContentType)
    (content_detail content_file sentence_id : option string) :
  nothing_to_speak fs0 content_type content_detail content_file = true ->
  tts_one_sentence h backend self date hex uuid_hex fuel fs0 conn_id
    content_type content_detail content_file sentence_id
  = Some {| conn_sentence_id :=
              if falsy sentence_id then Some uuid_hex else conn_id;
            sentence_raised := None;
            spoken := {| value := TtsNone; handed_to_callback := [];
                         backend_calls := 0; fs_after := fs0 |} |}.
Proof.
  unfold nothing_to_speak, tts_one_sentence. intros H.
  destruct content_type.
  - rewrite H. reflexivity.
  - destruct (falsy content_file); simpl in *; [reflexivity|].
    apply negb_true_iff in H. rewrite H. reflexivity.
  - reflexivity.
Qed.

Lemma tts_one_sentence_idle_witness :
  nothing_to_speak ∅ FILE None (Some "tmp/missing.wav") = true
  /\ tts_one_sentence helpers0 raising_backend (ephemeral_provider "tmp/")
       "d" "u" "fresh" 0 ∅ (Some "old") FILE None (Some "tmp/missing.wav") None
     = Some {| conn_sentence_id := Some "fresh";
               sentence_raised := None;
               spoken := {| value := TtsNone; handed_to_callback := [];
                            backend_calls := 0; fs_after := ∅ |} |}.
Proof.
  split; [reflexivity|].
  apply (tts_one_sentence_idle helpers0 raising_backend
           (ephemeral_provider "tmp/") "d" "u" "fresh" 0 ∅ (Some "old") FILE
           None (Some "tmp/missing.wav") None).
  reflexivity.
Defined.

End TTSMore.


(** ** The recognizer, beyond faults and retention *)

Module ASRMore.
Import ASR Scenarios FsFacts FsMore ASRFacts.

(** The engine is called at most once in the body of a [try]. *)
Lemma file_try_generate (self : ASRProvider) (env : attempt_env)
    (audio_file_path session_id : string) (st : loop_state) :
  let st1 := fst (file_try self env audio_file_path session_id st) in
  (generate_calls st <= generate_calls st1 <= S (generate_calls st))%nat.
Proof.
  unfold file_try.
  destruct (exists_ (fs st) audio_file_path); simpl; [|lia].
  destruct (supported (lower (splitext_ext audio_file_path))); simpl; [|lia].
  destruct (delete_audio_file self); simpl.
  - destruct (read_input env); simpl; lia.
  - destruct (getsize env) as [sz|]; simpl; [|lia].
    destruct (disk_free env) as [free|]; simpl; [|lia].
    destruct (free <? sz * 2)%nat; simpl; [lia|].
    destruct (write_artifact env) as [|e partial]; simpl.
    + destruct (read_input env); simpl; lia.
    + destruct partial; simpl; lia.
Qed.

Lemma stream_try_counters (self : ASRProvider) (env : attempt_env)
    (audio_data : bytes) (session_id file_extension : string) (st : loop_state) :
  let st1 := fst (stream_try self env audio_data session_id file_extension st) in
  attempts st1 = attempts st
  /\ sleeps st1 = sleeps st
  /\ (generate_calls st <= generate_calls st1 <= S (generate_calls st))%nat.
Proof.
  unfold stream_try.
  destruct (delete_audio_file self); simpl; [repeat split; lia|].
  destruct (disk_free env) as [free|]; simpl; [|repeat split; lia].
  destruct (free <? List.length audio_data * 2)%nat; simpl;
    [repeat split; lia|].
  destruct (write_artifact env) as [|e partial]; simpl;
    [repeat split; lia|].
  destruct partial; simpl; repeat split; lia.
Qed.

(** A run that ends in the attempt it starts with is well counted. *)
Lemma counted_terminal (r : nat) (st st' : loop_state) (t : string)
    (p : option string) :
  attempts st' = S (attempts st) ->
  sleeps st' = sleeps st ->
  (generate_calls st <= generate_calls st' <= S (generate_calls st))%nat ->
  well_counted (S r) st
    {| asr_result := Returned (Some (t, p)); final := st' |}.
Proof.
  intros Ha Hs Hg. unfold well_counted. simpl.
  split; [exists t, p; reflexivity|].
  split; [lia|]. split; [|lia].
  rewrite Ha, Hs. replace (S (attempts st) - attempts st - 1)%nat with 0%nat by lia.
  simpl. symmetry. apply List.app_nil_r.
Qed.

(** A run that is well counted from the state after one failed attempt
    and its delay is well counted from the state before it. *)
Lemma counted_retry (r : nat) (st st2 : loop_state) (run : asr_run) :
  attempts st2 = S (attempts st) ->
  sleeps st2 = (sleeps st ++ [RETRY_DELAY])%list ->
  (generate_calls st <= generate_calls st2 <= S (generate_calls st))%nat ->
  well_counted (S r) st2 run ->
  well_counted (S (S r)) st run.
Proof.
  intros Ha Hs Hg (Hres & Hatt & Hsl & Hgen). unfold well_counted.
  split; [exact Hres|]. split; [lia|]. split; [|lia].
  rewrite Hsl, Hs, Ha.
  replace (attempts (final run) - attempts st - 1)%nat
    with (S (attempts (final run) - S (attempts st) - 1))%nat by lia.
  simpl. rewrite <- List.app_assoc. reflexivity.
Qed.

(** The loop of the file-based call is well counted. *)
Lemma file_loop_counted (self : ASRProvider) (world : World)
    (audio_file_path session_id : string) :
  forall (r : nat) (st : loop_state),
    well_counted (S r) st
      (file_loop self world audio_file_path session_id (S r) st).
Proof.
  intros r. induction r as [|r IH]; intros st;
    destruct (file_try self (world (attempts st)) audio_file_path session_id
                (begin_attempt st)) as [st1 res] eqn:Htry;
    rewrite (file_loop_step _ _ _ _ _ _ _ _ Htry); cbv zeta;
    pose proof (file_try_frame self (world (attempts st)) audio_file_path
                  session_id (begin_attempt st)) as Hframe;
    pose proof (file_try_generate self (world (attempts st)) audio_file_path
                  session_id (begin_attempt st)) as Hgen;
    rewrite Htry in Hframe, Hgen; simpl in Hframe, Hgen;
    destruct Hframe as (Ha & Hs & _);
    destruct (file_finally_locals self (world (attempts st)) audio_file_path
                st1) as (_ & Ha' & Hs' & Hg');
    destruct (file_finally_locals self (world (attempts st)) audio_file_path
                (sleep st1 RETRY_DELAY)) as (_ & Ha2 & Hs2 & Hg2);
    simpl in Ha2, Hs2, Hg2;
    assert (Hterm : forall k t,
              well_counted (S k) st
                {| asr_result := Returned (Some (t, file_path st1));
                   final := file_finally self (world (attempts st))
                              audio_file_path st1 |})
      by (intros k t; apply counted_terminal; [congruence|congruence|lia]).
  - destruct res as [text|e]; [apply Hterm|].
    destruct (is_FileNotFoundError e); [apply Hterm|].
    destruct (is_OSError e); apply Hterm.
  - destruct res as [text|e]; [apply Hterm|].
    destruct (is_FileNotFoundError e); [apply Hterm|].
    destruct (is_OSError e); [|apply Hterm].
    eapply counted_retry; [| | |apply IH]; [congruence|congruence|lia].
Qed.

(** The loop of the stream-based call is well counted. *)
Lemma stream_loop_counted (self : ASRProvider) (world : World)
    (audio_data : bytes) (session_id file_extension : string) :
  forall (r : nat) (st : loop_state),
    well_counted (S r) st
      (stream_loop self world audio_data session_id file_extension (S r) st).
Proof.
  intros r. induction r as [|r IH]; intros st;
    destruct (stream_try self (world (attempts st)) audio_data session_id
                file_extension (begin_attempt st)) as [st1 res] eqn:Htry;
    rewrite (stream_loop_step _ _ _ _ _ _ _ _ _ Htry); cbv zeta;
    pose proof (stream_try_counters self (world (attempts st)) audio_data
                  session_id file_extension (begin_attempt st)) as Hframe;
    rewrite Htry in Hframe; simpl in Hframe;
    destruct Hframe as (Ha & Hs & Hgen);
    destruct (stream_finally_locals self (world (attempts st)) st1)
      as (_ & Ha' & Hs' & Hg');
    destruct (stream_finally_locals self (world (attempts st))
                (sleep st1 RETRY_DELAY)) as (_ & Ha2 & Hs2 & Hg2);
    simpl in Ha2, Hs2, Hg2;
    assert (Hterm : forall k t,
              well_counted (S k) st
                {| asr_result := Returned (Some (t, file_path st1));
                   final := stream_finally self (world (attempts st)) st1 |})
      by (intros k t; apply counted_terminal; [congruence|congruence|lia]).
  - destruct res as [text|e]; [apply Hterm|].
    destruct (is_OSError e); apply Hterm.
  - destruct res as [text|e]; [apply Hterm|].
    destruct (is_OSError e); [|apply Hterm].
    eapply counted_retry; [| | |apply IH]; [congruence|congruence|lia].
Qed.

(** X16: whatever the disk and the engine do, the file-based recognition
    call returns a pair and never raises; it makes at least one and at
    most [MAX_RETRIES] = 2 attempts, sleeps [RETRY_DELAY] exactly once
    between two attempts, and calls the engine at most once per attempt. *)
Theorem file_call_always_returns (self : ASRProvider) (world : World)
    (fs0 : filesystem) (audio_file_path session_id : string) :
  let run :=
    speech_to_text_from_audio_file self world fs0 audio_file_path session_id in
  (exists t p, asr_result run = Returned (Some (t, p)))
  /\ (1 <= attempts (final run) <= MAX_RETRIES)%nat
  /\ sleeps (final run) = repeat RETRY_DELAY (attempts (final run) - 1)
  /\ (generate_calls (final run) <= attempts (final run))%nat.
Proof.
  intros run.
  pose proof (file_loop_counted self world audio_file_path session_id 1
                (start fs0)) as Hcount.
  change (file_loop self world audio_file_path session_id 2 (start fs0))
    with run in Hcount.
  clearbody run. destruct Hcount as (Hres & Hatt & Hsl & Hgen).
  unfold MAX_RETRIES. simpl in Hatt, Hsl, Hgen.
  split; [exact Hres|]. split; [lia|]. split; [|lia].
  rewrite Hsl. f_equal. lia.
Qed.

(** X17: the stream-based recognition call raises in exactly one case, an
    unsupported extension, and then before any attempt and without calling
    the engine; otherwise it returns a pair after at least one and at most
    2 attempts, with one [RETRY_DELAY] between two attempts and at most one
    engine call per attempt. *)
Theorem stream_call_raises_only_on_extension (self : ASRProvider)
    (world : World) (fs0 : filesystem) (audio_data : bytes)
    (session_id file_extension : string) :
  let run :=
    speech_to_text_from_audio_stream self world fs0 audio_data session_id
      file_extension in
  if supported (lower file_extension) then
    (exists t p, asr_result run = Returned (Some (t, p)))
    /\ (1 <= attempts (final run) <= MAX_RETRIES)%nat
    /\ sleeps (final run) = repeat RETRY_DELAY (attempts (final run) - 1)
    /\ (generate_calls (final run) <= attempts (final run))%nat
  else
    asr_result run = Raised ValueError
    /\ attempts (final run) = 0%nat
    /\ generate_calls (final run) = 0%nat
    /\ fs (final run) = fs0.
Proof.
  intros run. subst run. unfold speech_to_text_from_audio_stream, MAX_RETRIES.
  destruct (supported (lower file_extension)); simpl negb; cbv iota.
  - pose proof (stream_loop_counted self world audio_data session_id
                  file_extension 1 (start fs0)) as Hcount.
    remember (stream_loop self world audio_data session_id file_extension 2
                (start fs0)) as run eqn:Hrun.
    clear Hrun. destruct Hcount as (Hres & Hatt & Hsl & Hgen).
    simpl in Hatt, Hsl, Hgen.
    split; [exact Hres|]. split; [lia|]. split; [|lia].
    rewrite Hsl. f_equal. lia.
  - repeat split; reflexivity.
Qed.

(** A successful attempt of the file-based call: the engine's text, and
    the local [file_path] and the filesystem it leaves. *)
Lemma file_try_ok (self : ASRProvider) (env : attempt_env)
    (audio_file_path session_id text : string) (st : loop_state) :
  exists_ (fs st) audio_file_path = true ->
  supported (lower (splitext_ext audio_file_path)) = true ->
  file_attempt_ok self env = Some text ->
  let p :=
    join (output_dir self)
      (session_id ++ lower (splitext_ext audio_file_path)) in
  exists st1,
    file_try self env audio_file_path session_id st = (st1, Returned text)
    /\ file_path st1
       = Some (if delete_audio_file self then audio_file_path else p)
    /\ fs st1 = (if delete_audio_file self then fs st else create (fs st) p)
    /\ attempts st1 = attempts st
    /\ sleeps st1 = sleeps st
    /\ generate_calls st1 = S (generate_calls st).
Proof.
  intros Hin Hext Hok p. unfold file_try, file_attempt_ok in *.
  rewrite Hin, Hext. simpl.
  destruct (read_input env) as [data|]; [|discriminate].
  destruct (generate env data) as [t|] eqn:Hgen; [|discriminate].
  destruct (delete_audio_file self); simpl.
  - injection Hok as <-. unfold infer. rewrite Hgen.
    eexists. repeat split; reflexivity.
  - destruct (getsize env) as [sz|]; [|discriminate].
    destruct (disk_free env) as [free|]; [|discriminate].
    destruct (write_artifact env); [|discriminate].
    destruct (free <? sz * 2)%nat; [discriminate|].
    injection Hok as <-. unfold infer. rewrite Hgen.
    eexists. repeat split; reflexivity.
Qed.

(** The cleanup after a successful attempt of the file-based call. *)
Lemma file_finally_after_ok (self : ASRProvider) (env : attempt_env)
    (audio_file_path p : string) (st1 : loop_state) :
  file_path st1 = Some (if delete_audio_file self then audio_file_path else p) ->
  file_finally self env audio_file_path st1 = st1.
Proof.
  intros Hpath. destruct (delete_audio_file self) eqn:Hdel.
  - apply file_finally_own_input. right. exact Hpath.
  - apply file_finally_retention. exact Hdel.
Qed.

(** X18: when nothing goes wrong in the first attempt of a file-based call
    on an existing file of a supported format, the call returns the
    engine's text after that single attempt, without delay.  With
    retention the path returned is <output_dir>/<session_id><extension in
    lower case> and the filesystem gains exactly that file; without
    retention the path returned is the caller's own input path and the
    filesystem is unchanged. *)
Theorem file_call_success (self : ASRProvider) (world : World)
    (fs0 : filesystem) (audio_file_path session_id text : string) :
  exists_ fs0 audio_file_path = true ->
  supported (lower (splitext_ext audio_file_path)) = true ->
  file_attempt_ok self (world 0%nat) = Some text ->
  let p :=
    join (output_dir self)
      (session_id ++ lower (splitext_ext audio_file_path)) in
  let run :=
    speech_to_text_from_audio_file self world fs0 audio_file_path session_id in
  asr_result run
  = Returned (Some (text, Some (if delete_audio_file self
                                then audio_file_path else p)))
  /\ fs (final run) = (if delete_audio_file self then fs0 else create fs0 p)
  /\ attempts (final run) = 1%nat
  /\ sleeps (final run) = []
  /\ generate_calls (final run) = 1%nat.
Proof.
  intros Hin Hext Hok p run. subst run.
  unfold speech_to_text_from_audio_file, MAX_RETRIES.
  destruct (file_try_ok self (world (attempts (start fs0))) audio_file_path
              session_id text (begin_attempt (start fs0)) Hin Hext Hok)
    as (st1 & Htry & Hpath & Hfs & Ha & Hs & Hg).
  rewrite (file_loop_step _ _ _ _ _ _ _ _ Htry). cbv zeta.
  rewrite (file_finally_after_ok self _ audio_file_path p st1 Hpath).
  simpl. rewrite Hpath, Hfs, Ha, Hs, Hg. repeat split; reflexivity.
Qed.

Lemma file_call_success_witness :
  file_attempt_ok keeping (quiet_world 0%nat) = Some "hello"
  /\ (let run :=
        speech_to_text_from_audio_file keeping quiet_world {["clip.WAV"]}
          "clip.WAV" "sid" in
      asr_result run = Returned (Some ("hello", Some "out/sid.wav"))
      /\ fs (final run) = create {["clip.WAV"]} "out/sid.wav").
Proof.
  assert (Hok : file_attempt_ok keeping (quiet_world 0%nat) = Some "hello")
    by reflexivity.
  assert (Hin : exists_ {["clip.WAV"]} "clip.WAV" = true) by reflexivity.
  assert (Hext : supported (lower (splitext_ext "clip.WAV")) = true)
    by reflexivity.
  destruct (file_call_success keeping quiet_world {["clip.WAV"]} "clip.WAV"
              "sid" "hello" Hin Hext Hok) as (Hres & Hfs & _).
  split; [exact Hok|]. split; [exact Hres|exact Hfs].
Defined.

(** X19: a resource fault in the first attempt of a file-based call is
    recovered by the retry: when the second attempt goes through, the call
    returns the engine's text after exactly 2 attempts and one delay of
    [RETRY_DELAY], with a single call to the engine, and the path it
    returns names an existing file. *)
Theorem file_call_recovers_on_retry (self : ASRProvider) (world : World)
    (fs0 : filesystem) (audio_file_path session_id text : string) :
  exists_ fs0 audio_file_path = true ->
  supported (lower (splitext_ext audio_file_path)) = true ->
  file_resource_fault self (world 0%nat) = true ->
  file_attempt_ok self (world 1%nat) = Some text ->
  let target :=
    if delete_audio_file self then audio_file_path
    else join (output_dir self)
           (session_id ++ lower (splitext_ext audio_file_path)) in
  let run :=
    speech_to_text_from_audio_file self world fs0 audio_file_path session_id in
  asr_result run = Returned (Some (text, Some target))
  /\ attempts (final run) = 2%nat
  /\ sleeps (final run) = [RETRY_DELAY]
  /\ generate_calls (final run) = 1%nat
  /\ exists_ (fs (final run)) target = true.
Proof.
  intros Hin Hext Hfault Hok target run. subst run.
  unfold speech_to_text_from_audio_file, MAX_RETRIES.
  set (st0 := start fs0).
  destruct (file_try_resource_fault self (world (attempts st0))
              audio_file_path session_id (begin_attempt st0) Hin Hext Hfault)
    as (st1 & e1 & Htry1 & He1 & Hg1).
  destruct (plain_OSError_handlers e1 He1) as [Hfnf1 Hos1].
  rewrite (file_loop_step _ _ _ _ _ _ _ _ Htry1). cbv zeta.
  rewrite Hfnf1, Hos1.
  pose proof (file_try_frame self (world (attempts st0)) audio_file_path
                session_id (begin_attempt st0)) as Hframe1.
  rewrite Htry1 in Hframe1. simpl in Hframe1.
  destruct Hframe1 as (Ha1 & Hs1 & Hk1). specialize (Hk1 Hin).
  set (st2 := file_finally self (world (attempts st0)) audio_file_path
                (sleep st1 RETRY_DELAY)).
  destruct (file_finally_locals self (world (attempts st0)) audio_file_path
              (sleep st1 RETRY_DELAY)) as (_ & Ha2 & Hs2 & Hg2).
  fold st2 in Ha2, Hs2, Hg2. simpl in Ha2, Hs2, Hg2.
  assert (Hin2 : exists_ (fs (begin_attempt st2)) audio_file_path = true).
  { simpl. apply file_finally_keeps_input. exact Hk1. }
  assert (Hw : attempts st2 = 1%nat) by (rewrite Ha2, Ha1; reflexivity).
  rewrite <- Hw in Hok.
  destruct (file_try_ok self (world (attempts st2)) audio_file_path
              session_id text (begin_attempt st2) Hin2 Hext Hok)
    as (st3 & Htry3 & Hpath & Hfs & Ha3 & Hs3 & Hg3).
  rewrite (file_loop_step _ _ _ _ _ _ _ _ Htry3). cbv zeta.
  rewrite (file_finally_after_ok self _ audio_file_path _ st3 Hpath).
  simpl. rewrite Hpath, Ha3, Hs3, Hg3. simpl.
  rewrite Hw, Hs2, Hs1, Hg2, Hg1. subst target.
  repeat split; try reflexivity.
  rewrite Hfs. destruct (delete_audio_file self);
    [exact Hin2|apply exists_create].
Qed.

Lemma file_call_recovers_on_retry_witness :
  file_resource_fault keeping (hiccup_world 0%nat) = true
  /\ file_attempt_ok keeping (hiccup_world 1%nat) = Some "hello"
  /\ (let run :=
        speech_to_text_from_audio_file keeping hiccup_world {["clip.WAV"]}
          "clip.WAV" "sid" in
      asr_result run = Returned (Some ("hello", Some "out/sid.wav"))
      /\ attempts (final run) = 2%nat).
Proof.
  assert (Hfault : file_resource_fault keeping (hiccup_world 0%nat) = true)
    by reflexivity.
  assert (Hok : file_attempt_ok keeping (hiccup_world 1%nat) = Some "hello")
    by reflexivity.
  assert (Hin : exists_ {["clip.WAV"]} "clip.WAV" = true) by reflexivity.
  assert (Hext : supported (lower (splitext_ext "clip.WAV")) = true)
    by reflexivity.
  destruct (file_call_recovers_on_retry keeping hiccup_world {["clip.WAV"]}
              "clip.WAV" "sid" "hello" Hin Hext Hfault Hok)
    as (Hres & Hatt & _).
  split; [exact Hfault|]. split; [exact Hok|]. split; [exact Hres|exact Hatt].
Defined.

(** X20: a file-based call on a path that does not exist returns the empty
    text and a null path after a single attempt, whatever the extension:
    no delay, no call to the engine, and the filesystem is unchanged. *)
Theorem file_call_missing_input (self : ASRProvider) (world : World)
    (fs0 : filesystem) (audio_file_path session_id : string) :
  exists_ fs0 audio_file_path = false ->
  let run :=
    speech_to_text_from_audio_file self world fs0 audio_file_path session_id in
  asr_result run = Returned (Some ("", None))
  /\ attempts (final run) = 1%nat
  /\ sleeps (final run) = []
  /\ generate_calls (final run) = 0%nat
  /\ fs (final run) = fs0.
Proof.
  intros Hmissing run. subst run.
  unfold speech_to_text_from_audio_file, MAX_RETRIES.
  assert (Htry : file_try self (world (attempts (start fs0))) audio_file_path
                   session_id (begin_attempt (start fs0))
                 = (begin_attempt (start fs0), Raised FileNotFoundError)).
  { unfold file_try. simpl. rewrite Hmissing. reflexivity. }
  rewrite (file_loop_step _ _ _ _ _ _ _ _ Htry).
  repeat split; reflexivity.
Qed.

Lemma file_call_missing_input_witness :
  exists_ ∅ "gone.wav" = false
  /\ asr_result
       (speech_to_text_from_audio_file keeping quiet_world ∅ "gone.wav" "sid")
     = Returned (Some ("", None)).
Proof.
  assert (Hmissing : exists_ ∅ "gone.wav" = false) by reflexivity.
  destruct (file_call_missing_input keeping quiet_world ∅ "gone.wav" "sid"
              Hmissing) as (Hres & _).
  split; assumption.
Defined.

(** An attempt of the stream-based call that fails in the engine. *)
Lemma stream_try_engine_failure (self : ASRProvider) (env : attempt_env)
    (audio_data : bytes) (session_id file_extension : string) (e : exn)
    (st : loop_state) :
  stream_engine_failure self audio_data env = Some e ->
  exists st1,
    stream_try self env audio_data session_id file_extension st
    = (st1, Raised e)
    /\ attempts st1 = attempts st
    /\ sleeps st1 = sleeps st
    /\ generate_calls st1 = S (generate_calls st).
Proof.
  unfold stream_engine_failure, stream_try. intros H.
  destruct (delete_audio_file self); simpl in *.
  - unfold infer. destruct (generate env audio_data) as [|e']; [discriminate|].
    injection H as ->. eexists. repeat split; reflexivity.
  - destruct (disk_free env) as [free|]; [|discriminate].
    destruct (write_artifact env); [|discriminate].
    destruct (free <? List.length audio_data * 2)%nat; [discriminate|].
    unfold infer. destruct (generate env audio_data) as [|e']; [discriminate|].
    injection H as ->. eexists. repeat split; reflexivity.
Qed.

(** X21: in the stream-based call a failure of the recognition engine is
    retried exactly when the exception is an OSError: when every attempt
    gets as far as the engine and fails there, the call makes 2 attempts
    (with one delay) if the first exception is an OSError and a single
    attempt otherwise; the engine is called once per attempt and the text
    returned is empty. *)
Theorem stream_engine_failure_retried_iff_oserror (self : ASRProvider)
    (world : World) (fs0 : filesystem) (audio_data : bytes)
    (session_id file_extension : string) (e : nat -> exn) :
  supported (lower file_extension) = true ->
  (forall i, stream_engine_failure self audio_data (world i) = Some (e i)) ->
  let run :=
    speech_to_text_from_audio_stream self world fs0 audio_data session_id
      file_extension in
  text_of run = Some ""
  /\ attempts (final run) = (if is_OSError (e 0%nat) then 2%nat else 1%nat)
  /\ sleeps (final run) = (if is_OSError (e 0%nat) then [RETRY_DELAY] else [])
  /\ generate_calls (final run) = attempts (final run).
Proof.
  intros Hext Hfail run. subst run.
  unfold speech_to_text_from_audio_stream, MAX_RETRIES.
  rewrite Hext. simpl negb. cbv iota.
  set (st0 := start fs0).
  destruct (stream_try_engine_failure self (world (attempts st0)) audio_data
              session_id file_extension (e (attempts st0)) (begin_attempt st0)
              (Hfail _)) as (st1 & Htry1 & Ha1 & Hs1 & Hg1).
  rewrite (stream_loop_step _ _ _ _ _ _ _ _ _ Htry1). cbv zeta.
  destruct (stream_finally_locals self (world (attempts st0)) st1)
    as (_ & Ha1' & Hs1' & Hg1').
  change (attempts st0) with 0%nat in *.
  destruct (is_OSError (e 0%nat)).
  - set (st2 := stream_finally self (world 0%nat) (sleep st1 RETRY_DELAY)).
    destruct (stream_finally_locals self (world 0%nat) (sleep st1 RETRY_DELAY))
      as (_ & Ha2 & Hs2 & Hg2).
    fold st2 in Ha2, Hs2, Hg2. simpl in Ha2, Hs2, Hg2.
    destruct (stream_try_engine_failure self (world (attempts st2)) audio_data
                session_id file_extension (e (attempts st2)) (begin_attempt st2)
                (Hfail _)) as (st3 & Htry3 & Ha3 & Hs3 & Hg3).
    rewrite (stream_loop_step _ _ _ _ _ _ _ _ _ Htry3). cbv zeta.
    destruct (stream_finally_locals self (world (attempts st2)) st3)
      as (_ & Ha4 & Hs4 & Hg4).
    assert (Hsame : (if is_OSError (e (attempts st2))
                     then {| asr_result := Returned (Some ("", file_path st3));
                             final := stream_finally self (world (attempts st2)) st3 |}
                     else {| asr_result := Returned (Some ("", file_path st3));
                             final := stream_finally self (world (attempts st2)) st3 |})
                    = {| asr_result := Returned (Some ("", file_path st3));
                         final := stream_finally self (world (attempts st2)) st3 |})
      by (destruct (is_OSError (e (attempts st2))); reflexivity).
    rewrite Hsame. unfold text_of. simpl.
    rewrite Ha4, Ha3, Hs4, Hs3, Hg4, Hg3. simpl.
    rewrite Ha2, Ha1, Hs2, Hs1, Hg2, Hg1. repeat split; reflexivity.
  - unfold text_of. simpl.
    rewrite Ha1', Ha1, Hs1', Hs1, Hg1', Hg1. repeat split; reflexivity.
Qed.

Lemma stream_engine_failure_retried_iff_oserror_witness :
  supported (lower ".wav") = true
  /\ (forall i,
        stream_engine_failure discarding [] (broken_engine_world i)
        = Some RuntimeError)
  /\ attempts
       (final (speech_to_text_from_audio_stream discarding broken_engine_world
                 ∅ [] "sid" ".wav"))
     = 1%nat.
Proof.
  assert (Hext : supported (lower ".wav") = true) by reflexivity.
  assert (Hfail : forall i,
            stream_engine_failure discarding [] (broken_engine_world i)
            = Some ((fun _ => RuntimeError) i))
    by (intros i; reflexivity).
  destruct (stream_engine_failure_retried_iff_oserror discarding
              broken_engine_world ∅ [] "sid" ".wav" (fun _ => RuntimeError)
              Hext Hfail) as (_ & Hatt & _).
  split; [exact Hext|]. split; [exact Hfail|exact Hatt].
Defined.

(** With retention the body of the [try] of the file-based call leaves
    the filesystem as it is or adds the artifact to it. *)
Lemma file_try_retention_fs (self : ASRProvider) (env : attempt_env)
    (audio_file_path session_id : string) (st : loop_state) :
  let p :=
    join (output_dir self)
      (session_id ++ lower (splitext_ext audio_file_path)) in
  let st1 := fst (file_try self env audio_file_path session_id st) in
  fs st1 = fs st \/ fs st1 = create (fs st) p.
Proof.
  unfold file_try.
  destruct (exists_ (fs st) audio_file_path); simpl; [|left; reflexivity].
  destruct (supported (lower (splitext_ext audio_file_path))); simpl;
    [|left; reflexivity].
  destruct (delete_audio_file self); simpl.
  - destruct (read_input env); simpl; left; reflexivity.
  - destruct (getsize env) as [sz|]; simpl; [|left; reflexivity].
    destruct (disk_free env) as [free|]; simpl; [|left; reflexivity].
    destruct (free <? sz * 2)%nat; simpl; [left; reflexivity|].
    destruct (write_artifact env) as [|e partial]; simpl.
    + destruct (read_input env); simpl; right; reflexivity.
    + destruct partial; simpl; [right|left]; reflexivity.
Qed.

Lemma stream_try_retention_fs (self : ASRProvider) (env : attempt_env)
    (audio_data : bytes) (session_id file_extension : string) (st : loop_state) :
  let p := join (output_dir self) (session_id ++ file_extension) in
  let st1 := fst (stream_try self env audio_data session_id file_extension st) in
  fs st1 = fs st \/ fs st1 = create (fs st) p.
Proof.
  unfold stream_try.
  destruct (delete_audio_file self); simpl; [left; reflexivity|].
  destruct (disk_free env) as [free|]; simpl; [|left; reflexivity].
  destruct (free <? List.length audio_data * 2)%nat; simpl;
    [left; reflexivity|].
  destruct (write_artifact env) as [|e partial]; simpl;
    [right; reflexivity|].
  destruct partial; simpl; [right|left]; reflexivity.
Qed.

(** A filesystem between [f] and [f] with [p] added. *)
Lemma grown_by_step (f f1 : filesystem) (p q : string) :
  f1 = f \/ f1 = create f p ->
  (exists_ f q = true -> exists_ f1 q = true)
  /\ (exists_ f1 q = true -> exists_ f q = true \/ q = p).
Proof.
  intros [-> | ->].
  - split; [trivial|]. intros H. left. exact H.
  - split; [apply exists_create_mono|apply exists_create_inv].
Qed.

(** With retention the loop of the file-based call deletes nothing and
    creates nothing but the artifact. *)
Lemma file_loop_retention_fs (self : ASRProvider) (world : World)
    (audio_file_path session_id : string) (q : string) :
  delete_audio_file self = false ->
  let p :=
    join (output_dir self)
      (session_id ++ lower (splitext_ext audio_file_path)) in
  forall (r : nat) (st : loop_state),
    let run := file_loop self world audio_file_path session_id r st in
    (exists_ (fs st) q = true -> exists_ (fs (final run)) q = true)
    /\ (exists_ (fs (final run)) q = true ->
        exists_ (fs st) q = true \/ q = p).
Proof.
  intros Hdel p r.
  induction r as [|r IH]; intros st; [simpl; split; auto|].
  destruct (file_try self (world (attempts st)) audio_file_path session_id
              (begin_attempt st)) as [st1 res] eqn:Htry.
  cbv zeta. rewrite (file_loop_step _ _ _ _ _ _ _ _ Htry). cbv zeta.
  rewrite !file_finally_retention by exact Hdel.
  pose proof (file_try_retention_fs self (world (attempts st)) audio_file_path
                session_id (begin_attempt st)) as Hfs.
  rewrite Htry in Hfs. simpl in Hfs. fold p in Hfs.
  pose proof (grown_by_step (fs st) (fs st1) p q Hfs) as Hstep.
  destruct res as [text|e]; [exact Hstep|].
  destruct (is_FileNotFoundError e); [exact Hstep|].
  destruct (is_OSError e); [|exact Hstep].
  destruct r as [|r']; [exact Hstep|].
  destruct (IH (sleep st1 RETRY_DELAY)) as [Hmono Hbound].
  simpl in Hmono, Hbound. destruct Hstep as [Hmono1 Hbound1].
  split; [auto|].
  intros H. destruct (Hbound H) as [H1|H1]; [auto|right; exact H1].
Qed.

Lemma stream_loop_retention_fs (self : ASRProvider) (world : World)
    (audio_data : bytes) (session_id file_extension : string) (q : string) :
  delete_audio_file self = false ->
  let p := join (output_dir self) (session_id ++ file_extension) in
  forall (r : nat) (st : loop_state),
    let run :=
      stream_loop self world audio_data session_id file_extension r st in
    (exists_ (fs st) q = true -> exists_ (fs (final run)) q = true)
    /\ (exists_ (fs (final run)) q = true ->
        exists_ (fs st) q = true \/ q = p).
Proof.
  intros Hdel p r.
  induction r as [|r IH]; intros st; [simpl; split; auto|].
  destruct (stream_try self (world (attempts st)) audio_data session_id
              file_extension (begin_attempt st)) as [st1 res] eqn:Htry.
  cbv zeta. rewrite (stream_loop_step _ _ _ _ _ _ _ _ _ Htry). cbv zeta.
  rewrite !stream_finally_retention by exact Hdel.
  pose proof (stream_try_retention_fs self (world (attempts st)) audio_data
                session_id file_extension (begin_attempt st)) as Hfs.
  rewrite Htry in Hfs. simpl in Hfs. fold p in Hfs.
  pose proof (grown_by_step (fs st) (fs st1) p q Hfs) as Hstep.
  destruct res as [text|e]; [exact Hstep|].
  destruct (is_OSError e); [|exact Hstep].
  destruct r as [|r']; [exact Hstep|].
  destruct (IH (sleep st1 RETRY_DELAY)) as [Hmono Hbound].
  simpl in Hmono, Hbound. destruct Hstep as [Hmono1 Hbound1].
  split; [auto|].
  intros H. destruct (Hbound H) as [H1|H1]; [auto|right; exact H1].
Qed.

(** X22: in either mode and whatever the environment does, a file-based
    or stream-based recognition call deletes no file that existed before
    it (its cleanup never finds anything to remove), and the only path it
    can bring into existence is the retained artifact
    <output_dir>/<session_id><extension>, and that with retention only. *)
Theorem recognition_deletes_nothing (self : ASRProvider) (world : World)
    (fs0 : filesystem) (audio_file_path session_id : string)
    (audio_data : bytes) (file_extension : string) (q : string) :
  let by_file :=
    speech_to_text_from_audio_file self world fs0 audio_file_path session_id in
  let by_stream :=
    speech_to_text_from_audio_stream self world fs0 audio_data session_id
      file_extension in
  let p :=
    join (output_dir self)
      (session_id ++ lower (splitext_ext audio_file_path)) in
  let p' := join (output_dir self) (session_id ++ file_extension) in
  ((exists_ fs0 q = true -> exists_ (fs (final by_file)) q = true)
   /\ (exists_ (fs (final by_file)) q = true ->
       exists_ fs0 q = true \/ (delete_audio_file self = false /\ q = p)))
  /\ ((exists_ fs0 q = true -> exists_ (fs (final by_stream)) q = true)
      /\ (exists_ (fs (final by_stream)) q = true ->
          exists_ fs0 q = true \/ (delete_audio_file self = false /\ q = p'))).
Proof.
  intros by_file by_stream p p'.
  destruct (delete_audio_file self) eqn:Hdel.
  - assert (Hfile : fs (final by_file) = fs0).
    { subst by_file. unfold speech_to_text_from_audio_file.
      rewrite file_loop_discarding; [reflexivity|exact Hdel|left; reflexivity]. }
    assert (Hstream : fs (final by_stream) = fs0).
    { subst by_stream. unfold speech_to_text_from_audio_stream.
      destruct (negb (supported (lower file_extension))); [reflexivity|].
      rewrite stream_loop_discarding; [reflexivity|exact Hdel|reflexivity]. }
    rewrite Hfile, Hstream. repeat split; auto.
  - split.
    + subst by_file. unfold speech_to_text_from_audio_file.
      destruct (file_loop_retention_fs self world audio_file_path session_id q
                  Hdel MAX_RETRIES (start fs0)) as [Hmono Hbound].
      split; [exact Hmono|].
      intros H. destruct (Hbound H) as [H1|H1]; [left; exact H1|right; auto].
    + subst by_stream. unfold speech_to_text_from_audio_stream.
      destruct (negb (supported (lower file_extension))); [simpl; auto|].
      destruct (stream_loop_retention_fs self world audio_data session_id
                  file_extension q Hdel MAX_RETRIES (start fs0))
        as [Hmono Hbound].
      split; [exact Hmono|].
      intros H. destruct (Hbound H) as [H1|H1]; [left; exact H1|right; auto].
Qed.

(** One turn of the loop of the frame-based call, given what the body of
    the [try] did. *)
Lemma frames_loop_step (self : ASRProvider) (world : FramesWorld)
    (opus_data : list bytes) (session_id audio_format : string)
    (remaining' : nat) (st st1 : loop_state) (r : outcome string) :
  frames_try self (world (attempts st)) opus_data session_id audio_format
    (begin_attempt st) = (st1, r) ->
  frames_loop self world opus_data session_id audio_format (S remaining') st
  = let env := base_env (world (attempts st)) in
    let bail :=
      {| asr_result := Returned (Some ("", file_path st1));
         final := stream_finally self env st1 |} in
    match r with
    | Returned text =>
        {| asr_result := Returned (Some (text, file_path st1));
           final := stream_finally self env st1 |}
    | Raised e =>
        if is_OSError e then
          match remaining' with
          | O => bail
          | S _ =>
              frames_loop self world opus_data session_id audio_format
                remaining' (stream_finally self env (sleep st1 RETRY_DELAY))
          end
        else bail
    end.
Proof. intros H. cbn [frames_loop]. rewrite H. reflexivity. Qed.

Lemma frames_try_counters (self : ASRProvider) (env : frames_env)
    (opus_data : list bytes) (session_id audio_format : string)
    (st : loop_state) :
  let st1 :=
    fst (frames_try self env opus_data session_id audio_format st) in
  attempts st1 = attempts st
  /\ sleeps st1 = sleeps st
  /\ (generate_calls st <= generate_calls st1 <= S (generate_calls st))%nat
  /\ (delete_audio_file self = true ->
      fs st1 = fs st /\ file_path st1 = file_path st).
Proof.
  unfold frames_try.
  destruct (if String.eqb audio_format "pcm" then Returned opus_data
            else decode_opus env opus_data) as [pcm|e]; simpl;
    [|repeat split; lia].
  destruct (delete_audio_file self); simpl; [repeat split; lia|].
  destruct (disk_free (base_env env)) as [free|]; simpl;
    [|repeat split; try lia; discriminate].
  destruct (free <? List.length (join_bytes pcm) * 2)%nat; simpl;
    [repeat split; try lia; discriminate|].
  destruct (save_audio_to_file env pcm session_id) as [p|]; simpl;
    repeat split; try lia; discriminate.
Qed.

(** The loop of the frame-based call is well counted. *)
Lemma frames_loop_counted (self : ASRProvider) (world : FramesWorld)
    (opus_data : list bytes) (session_id audio_format : string) :
  forall (r : nat) (st : loop_state),
    well_counted (S r) st
      (frames_loop self world opus_data session_id audio_format (S r) st).
Proof.
  intros r. induction r as [|r IH]; intros st;
    destruct (frames_try self (world (attempts st)) opus_data session_id
                audio_format (begin_attempt st)) as [st1 res] eqn:Htry;
    rewrite (frames_loop_step _ _ _ _ _ _ _ _ _ Htry); cbv zeta;
    pose proof (frames_try_counters self (world (attempts st)) opus_data
                  session_id audio_format (begin_attempt st)) as Hframe;
    rewrite Htry in Hframe; simpl in Hframe;
    destruct Hframe as (Ha & Hs & Hgen & _);
    destruct (stream_finally_locals self (base_env (world (attempts st))) st1)
      as (_ & Ha' & Hs' & Hg');
    destruct (stream_finally_locals self (base_env (world (attempts st)))
                (sleep st1 RETRY_DELAY)) as (_ & Ha2 & Hs2 & Hg2);
    simpl in Ha2, Hs2, Hg2;
    assert (Hterm : forall k t,
              well_counted (S k) st
                {| asr_result := Returned (Some (t, file_path st1));
                   final := stream_finally self
                              (base_env (world (attempts st))) st1 |})
      by (intros k t; apply counted_terminal; [congruence|congruence|lia]).
  - destruct res as [text|e]; [apply Hterm|].
    destruct (is_OSError e); apply Hterm.
  - destruct res as [text|e]; [apply Hterm|].
    destruct (is_OSError e); [|apply Hterm].
    eapply counted_retry; [| | |apply IH]; [congruence|congruence|lia].
Qed.

(** Without retention the loop of the frame-based call keeps [file_path]
    None and the filesystem as it is. *)
Lemma frames_loop_discarding (self : ASRProvider) (world : FramesWorld)
    (opus_data : list bytes) (session_id audio_format : string) :
  delete_audio_file self = true ->
  forall (r : nat) (st : loop_state),
    file_path st = None ->
    let run := frames_loop self world opus_data session_id audio_format r st in
    fs (final run) = fs st /\ path_of run = None.
Proof.
  intros Hdel r.
  induction r as [|r IH]; intros st Hinv; [split; reflexivity|].
  destruct (frames_try self (world (attempts st)) opus_data session_id
              audio_format (begin_attempt st)) as [st1 res] eqn:Htry.
  cbv zeta. rewrite (frames_loop_step _ _ _ _ _ _ _ _ _ Htry). cbv zeta.
  pose proof (frames_try_counters self (world (attempts st)) opus_data
                session_id audio_format (begin_attempt st)) as Hframe.
  rewrite Htry in Hframe. simpl in Hframe.
  destruct Hframe as (_ & _ & _ & Hkeep).
  destruct (Hkeep Hdel) as [Hfs Hpath]. rewrite Hinv in Hpath.
  rewrite !stream_finally_no_path by assumption.
  assert (Hdone : forall t,
            fs st1 = fs st
            /\ path_of {| asr_result := Returned (Some (t, file_path st1));
                          final := st1 |} = None)
    by (intros t; split; [exact Hfs|unfold path_of; simpl; exact Hpath]).
  destruct res as [text|e]; [apply Hdone|].
  destruct (is_OSError e); [|apply Hdone].
  destruct r as [|r']; [apply Hdone|].
  destruct (IH (sleep st1 RETRY_DELAY) Hpath) as [Hfs' Hpath'].
  split; [rewrite Hfs'; exact Hfs|exact Hpath'].
Qed.

(** X23: whatever the decoder, the disk and the engine do, the frame-based
    recognition call returns a pair and never raises, after at least one
    and at most 2 attempts with one [RETRY_DELAY] between two attempts and
    at most one engine call per attempt; without retention the path it
    returns is null and the filesystem is unchanged. *)
Theorem frames_call_always_returns (self : ASRProvider) (world : FramesWorld)
    (fs0 : filesystem) (opus_data : list bytes)
    (session_id audio_format : string) :
  let run := speech_to_text self world fs0 opus_data session_id audio_format in
  (exists t p, asr_result run = Returned (Some (t, p)))
  /\ (1 <= attempts (final run) <= MAX_RETRIES)%nat
  /\ sleeps (final run) = repeat RETRY_DELAY (attempts (final run) - 1)
  /\ (generate_calls (final run) <= attempts (final run))%nat
  /\ (if delete_audio_file self
      then fs (final run) = fs0 /\ path_of run = None
      else True).
Proof.
  intros run.
  pose proof (frames_loop_counted self world opus_data session_id audio_format
                1 (start fs0)) as Hcount.
  assert (Hkeep : if delete_audio_file self
                  then fs (final run) = fs0 /\ path_of run = None
                  else True).
  { destruct (delete_audio_file self) eqn:Hdel; [|exact I].
    apply (frames_loop_discarding self world opus_data session_id audio_format
             Hdel MAX_RETRIES (start fs0) eq_refl). }
  change (frames_loop self world opus_data session_id audio_format 2
            (start fs0)) with run in Hcount.
  clearbody run. destruct Hcount as (Hres & Hatt & Hsl & Hgen).
  unfold MAX_RETRIES. simpl in Hatt, Hsl, Hgen.
  split; [exact Hres|]. split; [lia|]. split; [|split; [lia|exact Hkeep]].
  rewrite Hsl. f_equal. lia.
Qed.

(** The cleanup of the stream-based and frame-based calls consults the
    environment for [os.remove] only. *)
Lemma stream_finally_os_remove (self : ASRProvider) (env1 env2 : attempt_env)
    (st : loop_state) :
  os_remove env1 = os_remove env2 ->
  stream_finally self env1 st = stream_finally self env2 st.
Proof. intros H. unfold stream_finally. rewrite H. reflexivity. Qed.

(** For input tagged "pcm" the body of the [try] consults the environment
    for the disk space, for the storing of the frames as given, and for
    the answer of the engine to the concatenation of the frames as given,
    and for nothing else. *)
Lemma frames_try_pcm (self : ASRProvider) (env1 env2 : frames_env)
    (opus_data : list bytes) (session_id : string) (st : loop_state) :
  disk_free (base_env env1) = disk_free (base_env env2) ->
  generate (base_env env1) (join_bytes opus_data)
  = generate (base_env env2) (join_bytes opus_data) ->
  save_audio_to_file env1 opus_data session_id
  = save_audio_to_file env2 opus_data session_id ->
  frames_try self env1 opus_data session_id "pcm" st
  = frames_try self env2 opus_data session_id "pcm" st.
Proof.
  intros Hdisk Hgen Hsave. unfold frames_try. simpl String.eqb. cbv iota.
  unfold infer. rewrite Hdisk, Hgen, Hsave. reflexivity.
Qed.

(** X24: for input tagged "pcm" the frame-based call hands the engine the
    concatenation, in order, of the frames as they were given, and never
    consults the Opus decoder.  Two environments that agree on the disk
    space, on the storing of the frames, on [os.remove] and on the answer
    of the engine to that concatenation give the same run, however their
    decoders differ and whatever their engines answer to any other input;
    and without retention, when the engine recognizes a text in that
    concatenation on the first attempt, the call returns this text, with
    a null path, after one call to the engine. *)
Theorem frames_call_pcm_skips_decoder (self : ASRProvider)
    (world1 world2 : FramesWorld) (fs0 : filesystem) (opus_data : list bytes)
    (session_id : string) :
  (forall i,
     disk_free (base_env (world1 i)) = disk_free (base_env (world2 i))
     /\ os_remove (base_env (world1 i)) = os_remove (base_env (world2 i))
     /\ generate (base_env (world1 i)) (join_bytes opus_data)
        = generate (base_env (world2 i)) (join_bytes opus_data)
     /\ save_audio_to_file (world1 i) opus_data session_id
        = save_audio_to_file (world2 i) opus_data session_id) ->
  speech_to_text self world1 fs0 opus_data session_id "pcm"
  = speech_to_text self world2 fs0 opus_data session_id "pcm"
  /\ (forall text,
        delete_audio_file self = true ->
        generate (base_env (world1 0%nat)) (join_bytes opus_data)
        = Returned text ->
        asr_result (speech_to_text self world1 fs0 opus_data session_id "pcm")
        = Returned (Some (text, None))
        /\ generate_calls
             (final (speech_to_text self world1 fs0 opus_data session_id "pcm"))
           = 1%nat).
Proof.
  intros Hsame. split.
  - unfold speech_to_text.
    generalize (start fs0). generalize MAX_RETRIES.
    intros r. induction r as [|r IH]; intros st; [reflexivity|].
    destruct (Hsame (attempts st)) as (Hdisk & Hrm & Hgen & Hsave).
    pose proof (frames_try_pcm self (world1 (attempts st))
                  (world2 (attempts st)) opus_data session_id
                  (begin_attempt st) Hdisk Hgen Hsave) as Htry.
    destruct (frames_try self (world2 (attempts st)) opus_data session_id "pcm"
                (begin_attempt st)) as [st1 res] eqn:Htry2.
    rewrite (frames_loop_step _ _ _ _ _ _ _ _ _ Htry).
    rewrite (frames_loop_step _ _ _ _ _ _ _ _ _ Htry2).
    cbv zeta.
    rewrite !(stream_finally_os_remove self _ _ _ Hrm).
    destruct res as [text|e]; [reflexivity|].
    destruct (is_OSError e); [|reflexivity].
    destruct r as [|r']; [reflexivity|]. apply IH.
  - intros text Hdel Hgen. unfold speech_to_text.
    change MAX_RETRIES with 2%nat.
    assert (Htry : frames_try self (world1 (attempts (start fs0))) opus_data
                     session_id "pcm" (begin_attempt (start fs0))
                   = ({| fs := fs0; file_path := None; attempts := 1;
                         sleeps := []; generate_calls := 1 |},
                      Returned text)).
    { unfold frames_try. simpl String.eqb. cbv iota. rewrite Hdel.
      cbn [negb]. unfold infer. cbn [attempts start]. rewrite Hgen.
      reflexivity. }
    rewrite (frames_loop_step _ _ _ _ _ _ _ _ _ Htry). cbv zeta.
    cbn [asr_result final file_path].
    rewrite stream_finally_no_path by reflexivity.
    split; reflexivity.
Qed.

Lemma frames_call_pcm_skips_decoder_witness :
  let heard := picky_world (fun _ => Raised RuntimeError) (Returned "noise") in
  let other := picky_world (fun d => Returned d) (Raised RuntimeError) in
  let frames := [[Byte.x01]; [Byte.x02]] in
  generate (base_env (heard 0%nat)) [] <> generate (base_env (other 0%nat)) []
  /\ speech_to_text discarding heard ∅ frames "sid" "pcm"
     = speech_to_text discarding other ∅ frames "sid" "pcm"
  /\ asr_result (speech_to_text discarding heard ∅ frames "sid" "pcm")
     = Returned (Some ("hello", None)).
Proof.
  intros heard other frames.
  split; [discriminate|].
  destruct (frames_call_pcm_skips_decoder discarding heard other ∅ frames "sid")
    as [Hsame Hheard].
  - intros i. repeat split; reflexivity.
  - split; [exact Hsame|].
    destruct (Hheard "hello" eq_refl eq_refl) as [Hres _]. exact Hres.
Defined.

End ASRMore.

(** ** The coordinator and its routes *)

Module AppMore.
Import App Scenarios FsFacts FsMore.

(** X25: the deferred deletion touches the scheduled path only: every
    other path exists afterwards exactly if it existed before; when
    [os.remove] succeeds the scheduled path is gone; when the path is
    already gone, or [os.remove] fails, the filesystem is unchanged and
    nothing is raised; and running the deletion a second time changes
    nothing more. *)
Theorem schedule_delete_removes_only_its_path (os_remove : option exn)
    (fs0 : filesystem) (path q : string) (delay : nat) :
  let fs1 := _schedule_delete os_remove fs0 path delay in
  (q <> path -> exists_ fs1 q = exists_ fs0 q)
  /\ (os_remove = None -> exists_ fs1 path = false)
  /\ (exists_ fs0 path = false \/ os_remove <> None -> fs1 = fs0)
  /\ _schedule_delete os_remove fs1 path delay = fs1.
Proof.
  intros fs1. subst fs1. unfold _schedule_delete.
  destruct (exists_ fs0 path) eqn:Hex.
  - destruct os_remove as [e|].
    + rewrite Hex. repeat split; auto. discriminate.
    + split; [intros Hne; apply exists_remove_other_eq; congruence|].
      split; [intros _; apply exists_remove_same|].
      split; [intros [H|H]; [discriminate|congruence]|].
      rewrite exists_remove_same. reflexivity.
  - rewrite Hex. repeat split; auto.
Qed.

(** Emitting a list of events extends the trace by them. *)
Lemma emit_all {A : Type} (x : A) (evs : list event) :
  forall tr : list event,
    fold_right (fun ev k => emit ev;; k) (ret x) evs tr
    = (Ok x, (tr ++ evs)%list).
Proof.
  induction evs as [|ev evs IH]; intros tr; simpl.
  - unfold ret. rewrite List.app_nil_r. reflexivity.
  - unfold mbind, M_bind, bind, emit. rewrite IH.
    rewrite <- List.app_assoc. reflexivity.
Qed.

(** The dialogue stage never fails as a computation: it yields the run of
    [chat] and records its invocations of the model. *)
Lemma converse_run (l : Connection.LLM) (t : TtsModule) (fr : Fresh)
    (text : string) (tr : list event) :
  let turn :=
    Connection.chat l (uuid_sentence fr)
      (Connection.init (uuid_conn fr) (Some (handle t))) text 0 in
  converse l t fr text tr
  = (Ok turn, (tr ++ repeat LlmCalled (Connection.llm_calls turn))%list).
Proof. intros turn. unfold converse. apply emit_all. Qed.

(** The invocation of the model is the only one [chat] makes. *)
Lemma chat_calls_once (l : Connection.LLM) (uuid : string)
    (c : Connection.ConnectionHandler) (text : string) (depth : nat) :
  Connection.llm_calls (Connection.chat l uuid c text depth) = 1%nat.
Proof.
  unfold Connection.chat.
  destruct depth; simpl;
    match goal with
    | |- context [match ?x with Returned _ => _ | Raised _ => _ end] =>
        destruct x as [s|e]; [|reflexivity]
    end;
    destruct (Connection.loop_raised (Connection.consume s [] 0));
    reflexivity.
Qed.

(** The events of the synthesis stage and the URL it yields. *)
Lemma synthesize_run (t : TtsModule) (fr : Fresh) (delete_audio : bool)
    (message : string) (tr : list event) :
  let audio_file :=
    TTS.generate_filename (provider t) (today fr) (uuid_file fr) ".wav" in
  synthesize t fr delete_audio message tr
  = match backend t 0%nat message (Some audio_file) with
    | TTS.SpeakRaise _ _ =>
        (Ok None, (tr ++ [TtsCalled message audio_file])%list)
    | TTS.SpeakReturn _ _ =>
        (Ok (Some ("/audio/" ++ basename audio_file)),
         (tr ++ TtsCalled message audio_file
             :: (if delete_audio then [DeleteScheduled audio_file 300] else []))%list)
    end.
Proof.
  intros audio_file. unfold synthesize. fold audio_file.
  unfold mbind, M_bind, bind, emit, ret.
  destruct (backend t 0%nat message (Some audio_file)); [|reflexivity].
  destruct delete_audio; unfold emit; simpl;
    rewrite <- ?List.app_assoc; simpl; rewrite ?List.app_nil_r; reflexivity.
Qed.

(** The text pipeline, stage by stage. *)
Lemma text_query_run (m : Modules) (l : Connection.LLM) (t : TtsModule)
    (fr : Fresh) (delete_audio : bool) (text : string) (tr : list event) :
  llm m = Some l ->
  tts m = Some t ->
  let turn :=
    Connection.chat l (uuid_sentence fr)
      (Connection.init (uuid_conn fr) (Some (handle t))) text 0 in
  let message := Connection.tts_MessageText (Connection.conn_after turn) in
  text_query m fr delete_audio text tr
  = match Connection.result turn with
    | Raised e => (Err (Propagated e), (tr ++ [LlmCalled])%list)
    | Returned Connection.RetNone =>
        (Err (Failed "对话处理失败"), (tr ++ [LlmCalled])%list)
    | Returned Connection.RetTrue =>
        match synthesize t fr delete_audio message (tr ++ [LlmCalled])%list with
        | (Ok url, tr') =>
            (Ok {| text_response_text := message; text_audio_url := url;
                   text_status := "success" |}, tr')
        | (Err f, tr') => (Err f, tr')
        end
    end.
Proof.
  intros Hl Ht turn message. unfold text_query. rewrite Hl, Ht.
  unfold mbind, M_bind. unfold bind at 1.
  pose proof (converse_run l t fr text tr) as Hturn. cbv zeta in Hturn.
  rewrite Hturn. rewrite chat_calls_once. simpl repeat. fold turn.
  destruct (Connection.result turn) as [[|]|e]; try reflexivity.
  all: fold message; unfold bind, ret;
    destruct (synthesize t fr delete_audio message (tr ++ [LlmCalled])%list)
      as [[url|f] tr']; reflexivity.
Qed.

(** The voice pipeline after a recognition that returned a text, stage by
    stage. *)
Lemma voice_query_run (m : Modules) (a : AsrModule) (l : Connection.LLM)
    (t : TtsModule) (fr : Fresh) (delete_audio : bool)
    (audio_file_path : string) (session_id : option string) (text : string)
    (p : option string) (tr : list event) :
  asr m = Some a ->
  llm m = Some l ->
  tts m = Some t ->
  a audio_file_path (effective_session fr session_id)
    = Returned (Some text, p) ->
  text <> "" ->
  let sid := effective_session fr session_id in
  let heard := (tr ++ [AsrCalled audio_file_path sid])%list in
  process_voice_query m fr delete_audio audio_file_path session_id tr
  = match text_query m fr delete_audio text heard with
    | (Ok r, tr') =>
        (Ok {| session_id := sid; recognized_text := text;
               response_text := text_response_text r;
               audio_url := text_audio_url r;
               status := text_status r |}, tr')
    | (Err f, tr') => (Err f, tr')
    end.
Proof.
  intros Ha Hl Ht Hasr Htext sid heard.
  rewrite (text_query_run m l t fr delete_audio text heard Hl Ht).
  unfold process_voice_query. rewrite Ha, Hl, Ht.
  fold (effective_session fr session_id). fold sid.
  unfold mbind, M_bind. unfold bind at 1.
  unfold recognize, mbind, M_bind, bind, emit, of_outcome.
  fold sid in Hasr. rewrite Hasr. unfold ret. cbn [fst].
  assert (Hfalsy : falsy (Some text) = false).
  { simpl. apply String.eqb_neq. exact Htext. }
  rewrite Hfalsy. cbn [default]. unfold id. fold heard.
  pose proof (converse_run l t fr text heard) as Hturn. cbv zeta in Hturn.
  rewrite Hturn. rewrite chat_calls_once. simpl repeat.
  destruct (Connection.result
              (Connection.chat l (uuid_sentence fr)
                 (Connection.init (uuid_conn fr) (Some (handle t))) text 0))
    as [[|]|e]; try reflexivity.
  all: destruct (synthesize t fr delete_audio _ (heard ++ [LlmCalled])%list)
         as [[url|f] tr']; reflexivity.
Qed.

(** X26: when the recognizer has returned a text and the invocation of
    the language model raises, the voice request fails with the error
    "对话处理失败" (dialogue failed): the model was invoked once and not
    again, and the synthesis engine is never called. *)
Theorem failed_dialogue_stops_request (m : Modules) (a : AsrModule)
    (l : Connection.LLM) (t : TtsModule) (fr : Fresh) (delete_audio : bool)
    (audio_file_path : string) (session_id : option string) (text : string)
    (p : option string) (e : exn) :
  asr m = Some a ->
  llm m = Some l ->
  tts m = Some t ->
  a audio_file_path (effective_session fr session_id)
    = Returned (Some text, p) ->
  text <> "" ->
  l (uuid_conn fr) [{| Connection.role := Connection.user;
                       Connection.content := text |}] = Raised e ->
  process_voice_query m fr delete_audio audio_file_path session_id []
  = (Err (Failed "对话处理失败"),
     [AsrCalled audio_file_path (effective_session fr session_id); LlmCalled]).
Proof.
  intros Ha Hl Ht Hasr Htext Hllm.
  rewrite (voice_query_run m a l t fr delete_audio audio_file_path session_id
             text p [] Ha Hl Ht Hasr Htext).
  cbv zeta.
  rewrite (text_query_run m l t fr delete_audio text _ Hl Ht). cbv zeta.
  destruct (ConnectionFacts.chat_raised l (uuid_sentence fr)
              (Connection.init (uuid_conn fr) (Some (handle t))) text 0 e Hllm)
    as (Hres & _).
  rewrite Hres. reflexivity.
Qed.

Lemma failed_dialogue_stops_request_witness :
  process_voice_query modules_mute fresh0 true "clip.wav" None []
  = (Err (Failed "对话处理失败"), [AsrCalled "clip.wav" "s-1"; LlmCalled]).
Proof.
  apply (failed_dialogue_stops_request modules_mute
           (fun_local keeping quiet_world {["clip.wav"]}) failing_llm
           tts_module0 fresh0 true "clip.wav" None "hello"
           (Some "out/s-1.wav") RuntimeError);
    try reflexivity.
  discriminate.
Defined.

(** X27: once the dialogue stage has returned True the voice request
    succeeds whatever the synthesis engine does.  The response carries the
    session id in force, the recognized text and the reply; its
    [audio_url] is None exactly when the engine raised, and otherwise
    points at the generated file, whose deletion is scheduled after 300
    seconds exactly when [delete_audio] is set.  The three stages are
    called once each, in order. *)
Theorem dialogue_success_makes_request_succeed (m : Modules) (a : AsrModule)
    (l : Connection.LLM) (t : TtsModule) (fr : Fresh) (delete_audio : bool)
    (audio_file_path : string) (session_id : option string) (text : string)
    (p : option string) :
  let turn :=
    Connection.chat l (uuid_sentence fr)
      (Connection.init (uuid_conn fr) (Some (handle t))) text 0 in
  let message := Connection.tts_MessageText (Connection.conn_after turn) in
  let audio_file :=
    TTS.generate_filename (provider t) (today fr) (uuid_file fr) ".wav" in
  let sid := effective_session fr session_id in
  asr m = Some a ->
  llm m = Some l ->
  tts m = Some t ->
  a audio_file_path sid = Returned (Some text, p) ->
  text <> "" ->
  Connection.result turn = Returned Connection.RetTrue ->
  process_voice_query m fr delete_audio audio_file_path session_id []
  = match backend t 0%nat message (Some audio_file) with
    | TTS.SpeakRaise _ _ =>
        (Ok {| session_id := sid; recognized_text := text;
               response_text := message; audio_url := None;
               status := "success" |},
         [AsrCalled audio_file_path sid; LlmCalled;
          TtsCalled message audio_file])
    | TTS.SpeakReturn _ _ =>
        (Ok {| session_id := sid; recognized_text := text;
               response_text := message;
               audio_url := Some ("/audio/" ++ basename audio_file);
               status := "success" |},
         ([AsrCalled audio_file_path sid; LlmCalled;
           TtsCalled message audio_file]
          ++ (if delete_audio then [DeleteScheduled audio_file 300] else []))%list)
    end.
Proof.
  intros turn message audio_file sid Ha Hl Ht Hasr Htext Hturn.
  rewrite (voice_query_run m a l t fr delete_audio audio_file_path session_id
             text p [] Ha Hl Ht Hasr Htext).
  cbv zeta.
  rewrite (text_query_run m l t fr delete_audio text _ Hl Ht). cbv zeta.
  fold turn. rewrite Hturn. fold message.
  pose proof (synthesize_run t fr delete_audio message
                ([] ++ [AsrCalled audio_file_path
                          (effective_session fr session_id)] ++ [LlmCalled])%list)
    as Hsyn.
  cbv zeta in Hsyn. fold audio_file in Hsyn. simpl in Hsyn |- *.
  rewrite Hsyn.
  destruct (backend t 0%nat message (Some audio_file)); reflexivity.
Qed.

Lemma dialogue_success_makes_request_succeed_witness :
  process_voice_query modules_ok fresh0 true "clip.wav" None []
  = (Ok {| session_id := "s-1"; recognized_text := "hello";
           response_text := "Hi"; audio_url := None; status := "success" |},
     [AsrCalled "clip.wav" "s-1"; LlmCalled;
      TtsCalled "Hi" "tmp/tts-2025-01-01@f-1.wav"]).
Proof.
  apply (dialogue_success_makes_request_succeed modules_ok
           (fun_local keeping quiet_world {["clip.wav"]})
           (llm_of [Connection.Yield (Some "Hi") false]) tts_module0 fresh0
           true "clip.wav" None "hello" (Some "out/s-1.wav"));
    try reflexivity.
  discriminate.
Defined.

(** The text pipeline on an extended trace: the same outcome, the same
    events after the trace. *)
Lemma text_query_trace (m : Modules) (fr : Fresh) (delete_audio : bool)
    (text : string) (tr : list event) :
  text_query m fr delete_audio text tr
  = (fst (text_query m fr delete_audio text []),
     (tr ++ snd (text_query m fr delete_audio text []))%list).
Proof.
  destruct (llm m) as [l|] eqn:Hl; [destruct (tts m) as [t|] eqn:Ht|].
  - rewrite (text_query_run m l t fr delete_audio text tr Hl Ht).
    rewrite (text_query_run m l t fr delete_audio text [] Hl Ht). cbv zeta.
    destruct (Connection.result _) as [[|]|e]; try reflexivity.
    pose proof (synthesize_run t fr delete_audio
                  (Connection.tts_MessageText
                     (Connection.conn_after
                        (Connection.chat l (uuid_sentence fr)
                           (Connection.init (uuid_conn fr) (Some (handle t)))
                           text 0)))) as Hsyn.
    cbv zeta in Hsyn. rewrite !Hsyn.
    destruct (backend t 0%nat _ _); simpl; rewrite <- ?List.app_assoc;
      reflexivity.
  - unfold text_query. rewrite Hl, Ht. unfold throw. simpl.
    rewrite List.app_nil_r. reflexivity.
  - unfold text_query. rewrite Hl. unfold throw. simpl.
    rewrite List.app_nil_r. reflexivity.
Qed.

(** X28: the text route is the voice pipeline without its recognition
    stage.  When the recognizer returns a text and the stripped text of a
    text request is that same text, the two requests end alike (the same
    reply, audio reference and status, or the same failure, which the text
    route reports as HTTP 500) and call the same collaborators in the same
    order, the voice request after its single call to the recognizer. *)
Theorem text_route_is_voice_without_recognition (strip : string -> string)
    (m : Modules) (a : AsrModule) (l : Connection.LLM) (t : TtsModule)
    (fr : Fresh) (delete_audio : bool) (audio_file_path : string)
    (session_id : option string) (request_text text : string)
    (p : option string) :
  asr m = Some a ->
  llm m = Some l ->
  tts m = Some t ->
  a audio_file_path (effective_session fr session_id)
    = Returned (Some text, p) ->
  text <> "" ->
  strip request_text = text ->
  let voice :=
    process_voice_query m fr delete_audio audio_file_path session_id [] in
  let typed := text_chat strip m fr delete_audio request_text [] in
  snd voice
  = AsrCalled audio_file_path (effective_session fr session_id) :: snd typed
  /\ match fst voice, fst typed with
     | Ok r, inr r' =>
         recognized_text r = text
         /\ response_text r = text_response_text r'
         /\ audio_url r = text_audio_url r'
         /\ status r = text_status r'
     | Err f, inl h => h = http_500 f
     | _, _ => False
     end.
Proof.
  intros Ha Hl Ht Hasr Htext Hstrip voice typed. subst voice typed.
  rewrite (voice_query_run m a l t fr delete_audio audio_file_path session_id
             text p [] Ha Hl Ht Hasr Htext).
  cbv zeta. unfold text_chat. rewrite Hstrip.
  apply String.eqb_neq in Htext. rewrite Htext. simpl app.
  rewrite (text_query_trace m fr delete_audio text [AsrCalled _ _]).
  destruct (text_query m fr delete_audio text []) as [[r|f] tr'];
    simpl; repeat split; reflexivity.
Qed.

Lemma text_route_is_voice_without_recognition_witness :
  let voice := process_voice_query modules_ok fresh0 true "clip.wav" None [] in
  let typed := text_chat (fun s => s) modules_ok fresh0 true "hello" [] in
  snd voice = AsrCalled "clip.wav" "s-1" :: snd typed
  /\ snd typed = [LlmCalled; TtsCalled "Hi" "tmp/tts-2025-01-01@f-1.wav"].
Proof.
  assert (Hne : "hello" <> "") by discriminate.
  destruct (text_route_is_voice_without_recognition (fun s => s) modules_ok
              (fun_local keeping quiet_world {["clip.wav"]})
              (llm_of [Connection.Yield (Some "Hi") false]) tts_module0 fresh0
              true "clip.wav" None "hello" "hello" (Some "out/s-1.wav")
              eq_refl eq_refl eq_refl eq_refl Hne eq_refl) as [Htrace _].
  split; [exact Htrace|reflexivity].
Defined.

(** X29: the text route answers with status 400 exactly when the stripped
    text is empty, and then before anything else: no collaborator is
    called, whether or not the modules are configured.  Every other
    failure is reported with status 500, and a response is returned only
    for a non-empty text, with status "success". *)
Theorem text_chat_status (strip : string -> string) (m : Modules)
    (fr : Fresh) (delete_audio : bool) (request_text : string)
    (tr : list event) :
  let out := text_chat strip m fr delete_audio request_text tr in
  match fst out with
  | inl h =>
      status_code h
      = (if String.eqb (strip request_text) "" then 400%nat else 500%nat)
  | inr r =>
      String.eqb (strip request_text) "" = false
      /\ text_status r = "success"
  end
  /\ (if String.eqb (strip request_text) "" then snd out = tr else True).
Proof.
  intros out. subst out. unfold text_chat.
  destruct (String.eqb (strip request_text) "") eqn:Hblank;
    [split; reflexivity|].
  split; [|exact I].
  destruct (llm m) as [l|] eqn:Hl; [destruct (tts m) as [t|] eqn:Ht|].
  - rewrite (text_query_run m l t fr delete_audio _ tr Hl Ht). cbv zeta.
    destruct (Connection.result _) as [[|]|e]; try reflexivity.
    pose proof (synthesize_run t fr delete_audio
                  (Connection.tts_MessageText
                     (Connection.conn_after
                        (Connection.chat l (uuid_sentence fr)
                           (Connection.init (uuid_conn fr) (Some (handle t)))
                           (strip request_text) 0)))) as Hsyn.
    cbv zeta in Hsyn. rewrite Hsyn.
    destruct (backend t 0%nat _ _); simpl; split; reflexivity.
  - unfold text_query. rewrite Hl, Ht. reflexivity.
  - unfold text_query. rewrite Hl. reflexivity.
Qed.

(** What discarding the upload does: it touches no other path; the upload
    is gone afterwards unless [os.remove] raised, which it can only do on
    a file that is there. *)
Lemma discard_upload_spec (os_remove : option exn) (f : filesystem)
    (p q : string) :
  let done := discard_upload os_remove f p in
  (q <> p -> exists_ (fst done) q = exists_ f q)
  /\ exists_ (fst done) p
     = match snd done with Some _ => true | None => false end
  /\ (snd done = None
      \/ (snd done = os_remove /\ fst done = f /\ exists_ f p = true)).
Proof.
  cbv zeta. unfold discard_upload.
  destruct (exists_ f p) eqn:Hex.
  - destruct os_remove as [e|]; cbn [fst snd].
    + split; [reflexivity|]. split; [exact Hex|]. right. auto.
    + split; [intros Hne; apply exists_remove_other_eq; congruence|].
      split; [apply exists_remove_same|]. left. reflexivity.
  - cbn [fst snd]. split; [reflexivity|]. split; [exact Hex|].
    left. reflexivity.
Qed.

(** What the handler of [voice_chat] does: it reports status 500 with the
    upload gone, or lets the exception of [os.remove] through with the
    upload still in place. *)
Lemma upload_handler_spec (os_remove : option exn) (f : failure)
    (tr : list event) (fs0 : filesystem) (p q : string) :
  let run := upload_handler os_remove f tr fs0 p in
  (q <> p -> exists_ (disk_after run) q = exists_ fs0 q)
  /\ trace run = tr
  /\ ((answer run = Returned (inl (http_500 f))
       /\ exists_ (disk_after run) p = false)
      \/ (exists e, os_remove = Some e
          /\ answer run = Raised e
          /\ exists_ fs0 p = true
          /\ exists_ (disk_after run) p = true)).
Proof.
  cbv zeta. unfold upload_handler.
  destruct (discard_upload_spec os_remove fs0 p q) as (Hframe & Hgone & Hwhy).
  destruct (discard_upload os_remove fs0 p) as [fs' [e|]];
    cbn [fst snd] in *; cbn [answer trace disk_after].
  - split; [exact Hframe|]. split; [reflexivity|]. right.
    destruct Hwhy as [H|(H & _ & Hex)]; [discriminate|].
    exists e. repeat split; auto.
  - split; [exact Hframe|]. split; [reflexivity|]. left. auto.
Qed.

(** The status of every HTTPException made of a failure is 500. *)
Lemma http_500_status (f : failure) : status_code (http_500 f) = 500%nat.
Proof. destruct f; reflexivity. Qed.

(** X30: [voice_chat] leaves its temporary upload behind in one case
    only, when an exception of [os.remove] leaves the route: whenever the
    route returns a response or raises an HTTPException the temporary file
    does not exist afterwards, and every other path is as the
    collaborators of the query left it.  An HTTPException always has
    status 500; a response is returned only for a query that succeeded;
    an exception other than an HTTPException is one that [os.remove]
    raised; when the upload cannot be written no collaborator is called.
    A query that succeeded is still reported as a failure when the
    cleanup of line 176 raises: with status 500 and the text of that
    exception if the second [os.remove], in the handler, succeeds, and
    with the exception of the second [os.remove] otherwise. *)
Theorem voice_chat_discards_upload (m : Modules)
    (effect : event -> filesystem -> filesystem)
    (os_remove : nat -> option exn) (fr : Fresh) (delete_audio : bool)
    (uuid_upload : string) (write_upload : ASR.write_result)
    (fs0 : filesystem) (audio_filename : string) (session_id : option string)
    (q : string) :
  let temp_filename := "tmp/" ++ uuid_upload ++ "_" ++ audio_filename in
  let run :=
    voice_chat m effect os_remove fr delete_audio uuid_upload write_upload fs0
      audio_filename session_id in
  let query :=
    process_voice_query m fr delete_audio temp_filename
      (Some (effective_session fr session_id)) [] in
  let before_cleanup :=
    match write_upload with
    | ASR.Written =>
        disk_after_calls effect (snd query) (create fs0 temp_filename)
    | ASR.WriteFailed _ partial =>
        if partial then create fs0 temp_filename else fs0
    end in
  exists_ (disk_after run) temp_filename
  = match answer run with
    | Raised _ => true
    | Returned _ => false
    end
  /\ (q <> temp_filename ->
      exists_ (disk_after run) q = exists_ before_cleanup q)
  /\ match answer run with
     | Returned (inl h) => status_code h = 500%nat
     | Returned (inr r) => write_upload = ASR.Written /\ fst query = Ok r
     | Raised e =>
         exists_ before_cleanup temp_filename = true
         /\ (os_remove 0%nat = Some e \/ os_remove 1%nat = Some e)
     end
  /\ trace run
     = match write_upload with
       | ASR.Written => snd query
       | ASR.WriteFailed _ _ => []
       end
  /\ (forall r e,
        write_upload = ASR.Written ->
        fst query = Ok r ->
        exists_ before_cleanup temp_filename = true ->
        os_remove 0%nat = Some e ->
        answer run
        = match os_remove 1%nat with
          | None =>
              Returned (inl {| status_code := 500; detail := StrOf e |})
          | Some e' => Raised e'
          end).
Proof.
  intros temp_filename run query before_cleanup.
  subst run before_cleanup query. unfold voice_chat, effective_session.
  fold temp_filename.
  destruct write_upload as [|e0 partial].
  - destruct (process_voice_query m fr delete_audio temp_filename
                (Some (if falsy session_id then uuid_session fr
                       else default "" session_id)) []) as [[r|f] tr].
    + cbn [fst snd].
      set (fs2 := disk_after_calls effect tr (create fs0 temp_filename)).
      destruct (discard_upload_spec (os_remove 0%nat) fs2 temp_filename q)
        as (Hframe & Hgone & Hwhy).
      destruct (discard_upload (os_remove 0%nat) fs2 temp_filename)
        as [fs3 [e|]] eqn:Hd; cbn [fst snd] in *.
      * destruct Hwhy as [H|(Hrm & -> & Hex)]; [discriminate|].
        destruct (upload_handler_spec (os_remove 1%nat) (Propagated e) tr fs2
                    temp_filename q) as (Hframe' & Htr & Hend).
        destruct Hend as [(Hans & Hgone')|(e' & Hrm' & Hans & _ & Hstay)];
          rewrite Hans.
        -- split; [exact Hgone'|]. split; [exact Hframe'|].
           split; [reflexivity|]. split; [exact Htr|].
           intros r' e1 _ Hr' _ He1.
           unfold upload_handler, discard_upload in Hans.
           rewrite Hex in Hans.
           destruct (os_remove 1%nat); [discriminate|].
           cbn [answer] in Hans. rewrite <- Hrm in He1.
           injection He1 as <-. reflexivity.
        -- split; [exact Hstay|]. split; [exact Hframe'|].
           split; [split; [exact Hex|right; exact Hrm']|].
           split; [exact Htr|].
           intros r' e1 _ _ _ _. rewrite Hrm'. reflexivity.
      * cbn [answer trace disk_after].
        split; [exact Hgone|]. split; [exact Hframe|].
        split; [split; reflexivity|]. split; [reflexivity|].
        intros r' e1 _ _ Hex He1.
        unfold discard_upload in Hd. fold fs2 in Hex.
        rewrite Hex, He1 in Hd. discriminate.
    + cbn [fst snd].
      set (fs2 := disk_after_calls effect tr (create fs0 temp_filename)).
      destruct (upload_handler_spec (os_remove 0%nat) f tr fs2
                  temp_filename q) as (Hframe & Htr & Hend).
      destruct Hend as [(Hans & Hgone)|(e' & Hrm & Hans & Hex & Hstay)];
        rewrite Hans.
      * split; [exact Hgone|]. split; [exact Hframe|].
        split; [apply http_500_status|]. split; [exact Htr|].
        intros r' e1 _ Hr'. discriminate.
      * split; [exact Hstay|]. split; [exact Hframe|].
        split; [split; [exact Hex|left; exact Hrm]|]. split; [exact Htr|].
        intros r' e1 _ Hr'. discriminate.
  - set (fs1 := if partial then create fs0 temp_filename else fs0).
    destruct (upload_handler_spec (os_remove 0%nat) (Propagated e0) [] fs1
                temp_filename q) as (Hframe & Htr & Hend).
    destruct Hend as [(Hans & Hgone)|(e' & Hrm & Hans & Hex & Hstay)];
      rewrite Hans.
    + split; [exact Hgone|]. split; [exact Hframe|].
      split; [reflexivity|]. split; [exact Htr|].
      intros r' e1 H. discriminate.
    + split; [exact Hstay|]. split; [exact Hframe|].
      split; [split; [exact Hex|left; exact Hrm]|]. split; [exact Htr|].
      intros r' e1 H. discriminate.
Qed.

End AppMore.
